(** * ORION indicator engine: a shallow embedding of [orion_indicators]

    The development follows the Python package module by module:
    - [indicator_engine.py]: [IndicatorResult] and its [status],
      [AssessmentResult], [IndicatorEngine.assess], and of [render_report]
      the bars and the icons;
    - [rpt_indicators.py], [gwt_indicators.py], [hot_indicators.py],
      [pp_indicators.py], [ast_indicators.py]: the thirteen scoring functions;
    - [bayesian_credence.py]: [aggregate] and [sensitivity_analysis];
    - [assessment_runner.py]: the reference catalog, [run_reference],
      [run_all_references] and [run_custom].

    Numbers.  Python's [int] and [float] are modelled by the real numbers:
    every arithmetic operation is exact, there is no rounding, overflow, NaN
    or infinity.  The only infinity of the source, the default
    [float("inf")] of [broadcast_latency_ms], is modelled by the absence of
    the field (see [lt_or_inf]).  [np.log] and [np.exp] are [ln] and [exp].
    For the one scenario whose result is an exact float, the arithmetic of
    RPT-1 is also run on binary64 numbers ([rpt1_score_binary64]).

    Dictionaries.  A profile and its sections are only read with [.get], so
    they are finite maps ([gmap string _]).  Dictionaries that the code
    iterates over or prints ([theory_scores], [details], the reference
    catalog, the proof record) are insertion-ordered lists of items.

    Errors.  A field of a profile may hold a boolean, a number or a string.
    Arithmetic on a string raises [TypeError]; this is the only way an
    evaluator of the model can fail.  In Python an [int] beyond the range of
    a float also fails, with [OverflowError], as soon as it meets a float
    ([10**400 / 10.0]); numbers being reals, the model does not show it, and
    the properties that say when [assess] returns and what it raises are
    stated for profiles whose numbers fit a float ([float_range_profile]). *)

From Stdlib Require Import PrimFloat.
From Stdlib Require Import Reals Lra Lia String List ZArith Sorted.
From stdpp Require Import gmap strings list fin_maps.

#[local] Open Scope R_scope.
#[local] Open Scope string_scope.

(** ** Python values and exceptions *)

Inductive value : Type :=
  | VBool (b : bool)
  | VNum (x : R)
  | VStr (s : string).

Inductive exn : Type :=
  | TypeError
  | ValueError (msg : string)
  | KeyError (key : string).

Inductive result (A : Type) : Type :=
  | Ok (a : A)
  | Raise (e : exn).
Arguments Ok {A} a.
Arguments Raise {A} e.

Definition is_ok {A : Type} (m : result A) : bool :=
  match m with
  | Ok _ => true
  | Raise _ => false
  end.

#[global] Instance result_ret : MRet result := fun A a => Ok a.
#[global] Instance result_bind : MBind result := fun A B f m =>
  match m with
  | Ok a => f a
  | Raise e => Raise e
  end.

(** [x >= y] and [x < y] on floats, as booleans. *)
Definition Rgeb (x y : R) : bool := if Rle_dec y x then true else false.
Definition Rltb (x y : R) : bool := if Rlt_dec x y then true else false.

(** Truth value of an object in [if v:]. *)
Definition truthy (v : value) : bool :=
  match v with
  | VBool b => b
  | VNum x => if Req_dec_T x 0 then false else true
  | VStr s => negb (String.eqb s "")
  end.

(** The number an object stands for in float arithmetic: [bool] is a
    subclass of [int]; a string operand raises [TypeError]. *)
Definition num (v : value) : result R :=
  match v with
  | VBool b => Ok (if b then 1 else 0)
  | VNum x => Ok x
  | VStr _ => Raise TypeError
  end.

(** [v / c], [v * c] and [c - v] for an object [v] and a float constant [c]. *)
Definition py_div (v : value) (c : R) : result R := x ← num v; mret (x / c).
Definition py_mul (v : value) (c : R) : result R := x ← num v; mret (x * c).
Definition py_rsub (c : R) (v : value) : result R := x ← num v; mret (c - x).

(** [d.get(k, dflt)]. *)
Definition dict_get (d : gmap string value) (k : string) (dflt : value) : value :=
  default dflt (d !! k).

(** [d.get(k, float("inf")) < c]: an absent field is the infinite default,
    which is below no bound. *)
Definition lt_or_inf (o : option value) (c : R) : result bool :=
  match o with
  | None => mret false
  | Some v => x ← num v; mret (Rltb x c)
  end.

(** A dictionary literal [{k1: v1, ..., kn: vn}]: the items are stored from
    left to right, a later item replacing an earlier one with the same key. *)
Definition dict_literal {V : Type} (items : list (string * V)) : gmap string V :=
  fold_left (fun d kv => <[fst kv := snd kv]> d) items ∅.

(** [sum(xs)]: starts from 0 and adds from the left. *)
Definition py_sum (xs : list R) : R := fold_left Rplus xs 0.

(** ** indicator_engine.py: result records *)

Record IndicatorResult : Type := mkIndicatorResult {
  indicator_id : string;
  theory : string;
  name : string;
  description : string;
  score : R;
  satisfied : bool;
  partial : bool;
  details : list (string * value)
}.

(** The [evidence] string is presentation only (it formats the raw inputs
    with Python's float formatting) and is not part of the model. *)

(** [IndicatorResult.status]. *)
Definition status (self : IndicatorResult) : string :=
  if satisfied self then "SATISFIED"
  else if partial self then "PARTIAL"
  else "NOT_SATISFIED".

(** ** rpt_indicators.py *)

Module RPTIndicators.

Definition _rpt1 (arch : gmap string value) : result IndicatorResult :=
  let has_recurrence := dict_get arch "has_recurrent_connections" (VBool false) in
  let recurrence_depth := dict_get arch "recurrence_depth" (VNum 0) in
  let feedback_loops := dict_get arch "feedback_loop_count" (VNum 0) in
  let score := 0.0 in
  let score := if truthy has_recurrence then score + 0.4 else score in
  t ← py_div recurrence_depth 10.0;
  let score := score + Rmin t 0.3 in
  t ← py_div feedback_loops 5.0;
  let score := score + Rmin t 0.3 in
  let score := Rmin score 1.0 in
  mret {| indicator_id := "RPT-1";
          theory := "RPT";
          name := "Algorithmic Recurrence";
          description := "System implements recurrent processing with feedback loops";
          score := score;
          satisfied := Rgeb score 0.7;
          partial := Rgeb score 0.3;
          details := [("recurrence", has_recurrence); ("depth", recurrence_depth);
                      ("loops", feedback_loops)] |}.

Definition _rpt2 (arch : gmap string value) : result IndicatorResult :=
  let feedback_richness := dict_get arch "feedback_connection_richness" (VNum 0.0) in
  let bidirectional := dict_get arch "bidirectional_connections" (VBool false) in
  let layer_feedback := dict_get arch "cross_layer_feedback" (VNum 0) in
  let score := 0.0 in
  t ← py_mul feedback_richness 0.4;
  let score := score + t in
  let score := if truthy bidirectional then score + 0.3 else score in
  t ← py_div layer_feedback 8.0;
  let score := score + Rmin t 0.3 in
  let score := Rmin score 1.0 in
  mret {| indicator_id := "RPT-2";
          theory := "RPT";
          name := "Rich Feedback Connections";
          description := "Rich feedback connections between processing hierarchy levels";
          score := score;
          satisfied := Rgeb score 0.7;
          partial := Rgeb score 0.3;
          details := [("richness", feedback_richness); ("bidirectional", bidirectional)] |}.

Definition evaluate (profile : gmap string (gmap string value))
  : result (list IndicatorResult) :=
  let arch := default ∅ (profile !! "architecture") in
  i1 ← _rpt1 arch;
  i2 ← _rpt2 arch;
  mret [i1; i2].

End RPTIndicators.

(** ** gwt_indicators.py *)

Module GWTIndicators.

Definition _gwt1 (arch : gmap string value) : result IndicatorResult :=
  let module_count := dict_get arch "specialized_module_count" (VNum 0) in
  let module_specialization := dict_get arch "module_specialization_score" (VNum 0.0) in
  let has_workspace := dict_get arch "has_central_workspace" (VBool false) in
  let score := 0.0 in
  t ← py_div module_count 10.0;
  let score := score + Rmin t 0.4 in
  t ← py_mul module_specialization 0.3;
  let score := score + t in
  let score := if truthy has_workspace then score + 0.3 else score in
  let score := Rmin score 1.0 in
  mret {| indicator_id := "GWT-1";
          theory := "GWT";
          name := "Specialized Modules";
          description := "System has multiple specialized processing modules";
          score := score;
          satisfied := Rgeb score 0.7;
          partial := Rgeb score 0.3;
          details := [("modules", module_count); ("workspace", has_workspace)] |}.

Definition _gwt2 (arch behaviors : gmap string value) : result IndicatorResult :=
  let broadcast_capability := dict_get arch "global_broadcast_capability" (VNum 0.0) in
  let ignition_detected := dict_get behaviors "workspace_ignition_detected" (VBool false) in
  let broadcast_latency : option value := arch !! "broadcast_latency_ms" in
  let score := 0.0 in
  t ← py_mul broadcast_capability 0.4;
  let score := score + t in
  let score := if truthy ignition_detected then score + 0.4 else score in
  fast ← lt_or_inf broadcast_latency 100;
  let score := if (fast : bool) then score + 0.2 else score in
  let score := Rmin score 1.0 in
  mret {| indicator_id := "GWT-2";
          theory := "GWT";
          name := "Global Broadcast";
          description := "Information can be broadcast globally across all modules";
          score := score;
          satisfied := Rgeb score 0.7;
          partial := Rgeb score 0.3;
          details := [("broadcast", broadcast_capability); ("ignition", ignition_detected)] |}.

Definition _gwt3 (arch : gmap string value) : result IndicatorResult :=
  let routing_flexibility := dict_get arch "routing_flexibility" (VNum 0.0) in
  let dynamic_routing := dict_get arch "has_dynamic_routing" (VBool false) in
  let attention_mechanism := dict_get arch "has_attention_mechanism" (VBool false) in
  let score := 0.0 in
  t ← py_mul routing_flexibility 0.4;
  let score := score + t in
  let score := if truthy dynamic_routing then score + 0.3 else score in
  let score := if truthy attention_mechanism then score + 0.3 else score in
  let score := Rmin score 1.0 in
  mret {| indicator_id := "GWT-3";
          theory := "GWT";
          name := "Flexible Routing";
          description := "Information routing is flexible and context-dependent";
          score := score;
          satisfied := Rgeb score 0.7;
          partial := Rgeb score 0.3;
          details := [("flexibility", routing_flexibility); ("dynamic", dynamic_routing);
                      ("attention", attention_mechanism)] |}.

Definition evaluate (profile : gmap string (gmap string value))
  : result (list IndicatorResult) :=
  let arch := default ∅ (profile !! "architecture") in
  let behaviors := default ∅ (profile !! "behaviors") in
  i1 ← _gwt1 arch;
  i2 ← _gwt2 arch behaviors;
  i3 ← _gwt3 arch;
  mret [i1; i2; i3].

End GWTIndicators.

(** ** hot_indicators.py *)

Module HOTIndicators.

Definition _hot1 (arch internal : gmap string value) : result IndicatorResult :=
  let has_meta_representations := dict_get arch "has_meta_representations" (VBool false) in
  let meta_depth := dict_get arch "meta_representation_depth" (VNum 0) in
  let self_model := dict_get internal "has_self_model" (VBool false) in
  let score := 0.0 in
  let score := if truthy has_meta_representations then score + 0.4 else score in
  t ← py_div meta_depth 5.0;
  let score := score + Rmin t 0.3 in
  let score := if truthy self_model then score + 0.3 else score in
  let score := Rmin score 1.0 in
  mret {| indicator_id := "HOT-1";
          theory := "HOT";
          name := "Higher-Order Representations";
          description := "System has representations of its own representational states";
          score := score;
          satisfied := Rgeb score 0.7;
          partial := Rgeb score 0.3;
          details := [("meta", has_meta_representations); ("depth", meta_depth);
                      ("self_model", self_model)] |}.

Definition _hot2 (behaviors : gmap string value) : result IndicatorResult :=
  let uncertainty_monitoring := dict_get behaviors "uncertainty_monitoring" (VNum 0.0) in
  let confidence_calibration := dict_get behaviors "confidence_calibration" (VNum 0.0) in
  let error_detection := dict_get behaviors "error_detection_rate" (VNum 0.0) in
  t1 ← py_mul uncertainty_monitoring 0.35;
  t2 ← py_mul confidence_calibration 0.35;
  t3 ← py_mul error_detection 0.3;
  let score := t1 + t2 + t3 in
  let score := Rmin score 1.0 in
  mret {| indicator_id := "HOT-2";
          theory := "HOT";
          name := "Metacognition";
          description := "System monitors its own uncertainty and calibrates confidence";
          score := score;
          satisfied := Rgeb score 0.7;
          partial := Rgeb score 0.3;
          details := [("uncertainty", uncertainty_monitoring);
                      ("calibration", confidence_calibration)] |}.

Definition _hot3 (behaviors : gmap string value) : result IndicatorResult :=
  let agency_score := dict_get behaviors "agency_score" (VNum 0.0) in
  let systematic_preferences := dict_get behaviors "systematic_preferences" (VBool false) in
  let goal_directed := dict_get behaviors "goal_directed_behavior" (VBool false) in
  score ← py_mul agency_score 0.4;
  let score := if truthy systematic_preferences then score + 0.3 else score in
  let score := if truthy goal_directed then score + 0.3 else score in
  let score := Rmin score 1.0 in
  mret {| indicator_id := "HOT-3";
          theory := "HOT";
          name := "Agency & Preferences";
          description := "System exhibits systematic preferences and goal-directed behavior";
          score := score;
          satisfied := Rgeb score 0.7;
          partial := Rgeb score 0.3;
          details := [("agency", agency_score); ("preferences", systematic_preferences)] |}.

Definition _hot4 (arch : gmap string value) : result IndicatorResult :=
  let embedding_smoothness := dict_get arch "embedding_smoothness" (VNum 0.0) in
  let continuous_representations :=
    dict_get arch "has_continuous_representations" (VBool false) in
  let interpolation_quality := dict_get arch "interpolation_quality" (VNum 0.0) in
  let score := 0.0 in
  t ← py_mul embedding_smoothness 0.4;
  let score := score + t in
  let score := if truthy continuous_representations then score + 0.3 else score in
  t ← py_mul interpolation_quality 0.3;
  let score := score + t in
  let score := Rmin score 1.0 in
  mret {| indicator_id := "HOT-4";
          theory := "HOT";
          name := "Smooth Representations";
          description := "System uses smooth, graded representational spaces (trivially satisfied by deep nets)";
          score := score;
          satisfied := Rgeb score 0.7;
          partial := Rgeb score 0.3;
          details := [("smoothness", embedding_smoothness);
                      ("continuous", continuous_representations)] |}.

Definition evaluate (profile : gmap string (gmap string value))
  : result (list IndicatorResult) :=
  let arch := default ∅ (profile !! "architecture") in
  let behaviors := default ∅ (profile !! "behaviors") in
  let internal := default ∅ (profile !! "internal_states") in
  i1 ← _hot1 arch internal;
  i2 ← _hot2 behaviors;
  i3 ← _hot3 behaviors;
  i4 ← _hot4 arch;
  mret [i1; i2; i3; i4].

End HOTIndicators.

(** ** pp_indicators.py *)

Module PPIndicators.

Definition _pp1 (arch : gmap string value) : result IndicatorResult :=
  let hierarchical_depth := dict_get arch "hierarchical_depth" (VNum 0) in
  let has_top_down := dict_get arch "has_top_down_predictions" (VBool false) in
  let generative_model := dict_get arch "has_generative_model" (VBool false) in
  let score := 0.0 in
  t ← py_div hierarchical_depth 12.0;
  let score := score + Rmin t 0.4 in
  let score := if truthy has_top_down then score + 0.3 else score in
  let score := if truthy generative_model then score + 0.3 else score in
  let score := Rmin score 1.0 in
  mret {| indicator_id := "PP-1";
          theory := "PP";
          name := "Hierarchical Prediction";
          description := "System has hierarchical predictive model with top-down predictions";
          score := score;
          satisfied := Rgeb score 0.7;
          partial := Rgeb score 0.3;
          details := [("depth", hierarchical_depth); ("top_down", has_top_down)] |}.

Definition _pp2 (arch internal : gmap string value) : result IndicatorResult :=
  let pe_minimization := dict_get arch "prediction_error_minimization" (VBool false) in
  let mean_pe := dict_get internal "mean_prediction_error" (VNum 1.0) in
  let pe_convergence := dict_get internal "prediction_error_convergence" (VNum 0.0) in
  let score := 0.0 in
  let score := if truthy pe_minimization then score + 0.4 else score in
  t ← py_rsub 1.0 mean_pe;
  let score := score + Rmax 0 t * 0.3 in
  t ← py_mul pe_convergence 0.3;
  let score := score + t in
  let score := Rmin score 1.0 in
  mret {| indicator_id := "PP-2";
          theory := "PP";
          name := "Error Minimization";
          description := "System actively minimizes prediction errors across hierarchical levels";
          score := score;
          satisfied := Rgeb score 0.7;
          partial := Rgeb score 0.3;
          details := [("minimization", pe_minimization); ("mean_pe", mean_pe)] |}.

Definition evaluate (profile : gmap string (gmap string value))
  : result (list IndicatorResult) :=
  let arch := default ∅ (profile !! "architecture") in
  let internal := default ∅ (profile !! "internal_states") in
  i1 ← _pp1 arch;
  i2 ← _pp2 arch internal;
  mret [i1; i2].

End PPIndicators.

(** ** ast_indicators.py *)

Module ASTIndicators.

Definition _ast1 (arch internal : gmap string value) : result IndicatorResult :=
  let has_attention_model := dict_get arch "has_attention_schema" (VBool false) in
  let attention_self_report := dict_get internal "can_report_attention_state" (VBool false) in
  let attention_accuracy := dict_get internal "attention_model_accuracy" (VNum 0.0) in
  let score := 0.0 in
  let score := if truthy has_attention_model then score + 0.4 else score in
  let score := if truthy attention_self_report then score + 0.3 else score in
  t ← py_mul attention_accuracy 0.3;
  let score := score + t in
  let score := Rmin score 1.0 in
  mret {| indicator_id := "AST-1";
          theory := "AST";
          name := "Attention Schema";
          description := "System has a simplified model of its own attention processes";
          score := score;
          satisfied := Rgeb score 0.7;
          partial := Rgeb score 0.3;
          details := [("schema", has_attention_model); ("self_report", attention_self_report)] |}.

Definition _ast2 (behaviors internal : gmap string value) : result IndicatorResult :=
  let attention_guided_behavior := dict_get behaviors "attention_guided_behavior" (VNum 0.0) in
  let attention_allocation := dict_get internal "dynamic_attention_allocation" (VBool false) in
  let priority_weighting := dict_get internal "priority_based_weighting" (VNum 0.0) in
  let score := 0.0 in
  t ← py_mul attention_guided_behavior 0.4;
  let score := score + t in
  let score := if truthy attention_allocation then score + 0.3 else score in
  t ← py_mul priority_weighting 0.3;
  let score := score + t in
  let score := Rmin score 1.0 in
  mret {| indicator_id := "AST-2";
          theory := "AST";
          name := "Attention-Guided Behavior";
          description := "System uses its attention model to guide behavior and self-reports";
          score := score;
          satisfied := Rgeb score 0.7;
          partial := Rgeb score 0.3;
          details := [("guided", attention_guided_behavior);
                      ("allocation", attention_allocation)] |}.

Definition evaluate (profile : gmap string (gmap string value))
  : result (list IndicatorResult) :=
  let arch := default ∅ (profile !! "architecture") in
  let behaviors := default ∅ (profile !! "behaviors") in
  let internal := default ∅ (profile !! "internal_states") in
  i1 ← _ast1 arch internal;
  i2 ← _ast2 behaviors internal;
  mret [i1; i2].

End ASTIndicators.

(** ** bayesian_credence.py *)

(** The stand-in that [sensitivity_analysis] puts in place of one indicator:
    it keeps the identifier and the theory and clears the rest. *)
Record MockIndicator : Type := mkMockIndicator {
  mock_indicator_id : string;
  mock_theory : string;
  mock_satisfied : bool;
  mock_partial : bool;
  mock_score : R
}.

(** [aggregate] takes a [List[Any]]: the elements it meets are indicator
    results and mock indicators, read through the same three attributes. *)
Inductive indicator_like : Type :=
  | Real (i : IndicatorResult)
  | Mock (m : MockIndicator).

Definition get_indicator_id (a : indicator_like) : string :=
  match a with Real i => indicator_id i | Mock m => mock_indicator_id m end.
Definition get_theory (a : indicator_like) : string :=
  match a with Real i => theory i | Mock m => mock_theory m end.
Definition get_satisfied (a : indicator_like) : bool :=
  match a with Real i => satisfied i | Mock m => mock_satisfied m end.
Definition get_partial (a : indicator_like) : bool :=
  match a with Real i => partial i | Mock m => mock_partial m end.

Module BayesianCredenceAggregator.

Definition THEORY_WEIGHTS : gmap string R :=
  {[ "RPT" := 0.15; "GWT" := 0.25; "HOT" := 0.25; "PP" := 0.15; "AST" := 0.20 ]}.

Definition PRIOR_CREDENCE : R := 0.05.

Definition LIKELIHOOD_SATISFIED : R := 0.85.
Definition LIKELIHOOD_PARTIAL : R := 0.55.
Definition LIKELIHOOD_NOT_SATISFIED : R := 0.15.

(** One turn of the first loop of [aggregate]. *)
Definition llr_step (log_likelihood_ratio : R) (indicator : indicator_like) : R :=
  let theory := get_theory indicator in
  let weight := default 0.1 (THEORY_WEIGHTS !! theory) in
  let lr :=
    if get_satisfied indicator then
      LIKELIHOOD_SATISFIED / (1 - LIKELIHOOD_SATISFIED)
    else if get_partial indicator then
      LIKELIHOOD_PARTIAL / (1 - LIKELIHOOD_PARTIAL)
    else
      LIKELIHOOD_NOT_SATISFIED / (1 - LIKELIHOOD_NOT_SATISFIED) in
  log_likelihood_ratio + weight * ln (lr + 1e-10).

(** One turn of the second loop of [aggregate]. *)
Definition bonus_step (theory_bonus : R) (item : string * R) : R :=
  let '(theory, score) := item in
  if Rgeb score 0.7 then
    theory_bonus + 0.03 * default 0.1 (THEORY_WEIGHTS !! theory)
  else theory_bonus.

Definition aggregate (indicators : list indicator_like)
    (theory_scores : list (string * R)) : R :=
  let log_likelihood_ratio := fold_left llr_step indicators 0.0 in
  let prior_odds := PRIOR_CREDENCE / (1 - PRIOR_CREDENCE) in
  let posterior_odds := prior_odds * exp log_likelihood_ratio in
  let posterior := posterior_odds / (1 + posterior_odds) in
  let theory_bonus := fold_left bonus_step theory_scores 0.0 in
  let final_credence := Rmin 0.99 (posterior + theory_bonus) in
  final_credence.

Definition MockIndicator_init (ind : indicator_like) : MockIndicator :=
  {| mock_indicator_id := get_indicator_id ind;
     mock_theory := get_theory ind;
     mock_satisfied := false;
     mock_partial := false;
     mock_score := 0.0 |}.

(** [enumerate(xs)]. *)
Definition enumerate {A : Type} (xs : list A) : list (nat * A) :=
  imap (fun i x => (i, x)) xs.

Definition sensitivity_analysis (indicators : list indicator_like)
    (theory_scores : list (string * R)) : gmap string R :=
  let base_credence := aggregate indicators theory_scores in
  fold_left
    (fun (contributions : gmap string R) (item : nat * indicator_like) =>
       let '(i, indicator) := item in
       let modified := <[i := Mock (MockIndicator_init indicator)]> indicators in
       let reduced_credence := aggregate modified theory_scores in
       <[get_indicator_id indicator := base_credence - reduced_credence]> contributions)
    (enumerate indicators) ∅.

End BayesianCredenceAggregator.

(** ** indicator_engine.py: the engine *)

Record AssessmentResult : Type := mkAssessmentResult {
  system_name : value;
  system_type : value;
  timestamp : string;
  indicators : list IndicatorResult;
  credence : R;
  satisfied_count : nat;
  partial_count : nat;
  total_indicators : nat;
  theory_scores : list (string * R);
  proof_hash : string
}.

(** The only state of an engine is its history, in call order. *)
Record IndicatorEngine : Type := mkIndicatorEngine {
  history : list AssessmentResult
}.

Definition IndicatorEngine_init : IndicatorEngine := {| history := [] |}.

(** *** [render_report] *)

(** [int(x)] for a float [x]: truncation toward zero. *)
Definition py_int (x : R) : Z :=
  if Rle_dec 0 x then Int_part x else (- Int_part (- x))%Z.

(** The bar of one theory score: ["█" * int(score * 20)] followed by
    ["░" * (20 - int(score * 20))], as the numbers of full and of empty
    cells.  A string repeated a negative number of times is empty. *)
Definition theory_bar (score : R) : nat * nat :=
  (Z.to_nat (py_int (score * 20)), Z.to_nat (20 - py_int (score * 20))).

(** The icon in front of an indicator's line. *)
Definition status_icon (ind : IndicatorResult) : string :=
  if satisfied ind then "✓" else if partial ind then "◐" else "✗".

(** *** The record that is hashed

    [json.dumps(..., sort_keys=True)] first orders the items of every
    dictionary by key and then prints the tree.  The ordering is modelled;
    the printing (number formatting, escaping) and SHA-256 belong to the
    Python library and are parameters of the engine. *)

#[warnings="-register-all"]
Inductive json : Type :=
  | JString (s : string)
  | JFloat (x : R)
  | JInt (n : Z)
  | JBool (b : bool)
  | JObject (items : list (string * json)).

Definition json_of_value (v : value) : json :=
  match v with
  | VBool b => JBool b
  | VNum x => JFloat x
  | VStr s => JString s
  end.

Fixpoint insert_item (kv : string * json) (l : list (string * json))
  : list (string * json) :=
  match l with
  | [] => [kv]
  | kv' :: l' =>
      if String.leb (fst kv) (fst kv') then kv :: l else kv' :: insert_item kv l'
  end.

Definition sort_items (l : list (string * json)) : list (string * json) :=
  fold_right insert_item [] l.

Fixpoint sort_keys (j : json) : json :=
  match j with
  | JObject items =>
      JObject (sort_items (map (fun kv => (fst kv, sort_keys (snd kv))) items))
  | _ => j
  end.

Definition object_keys (j : json) : list string :=
  match j with
  | JObject items => map fst items
  | _ => []
  end.

Definition object_get (j : json) (k : string) : option json :=
  match j with
  | JObject items => snd <$> List.find (fun kv => String.eqb (fst kv) k) items
  | _ => None
  end.

(** The dictionary literal passed to [json.dumps] in [assess]. *)
Definition proof_record (system : value) (credence : R) (satisfied partial : nat)
    (theory_scores : list (string * R)) (prev : string) : json :=
  JObject [("system", json_of_value system);
           ("credence", JFloat credence);
           ("satisfied", JInt (Z.of_nat satisfied));
           ("partial", JInt (Z.of_nat partial));
           ("theories", JObject (map (fun ts => (fst ts, JFloat (snd ts))) theory_scores));
           ("prev", JString prev)].

Definition THEORIES : list string := ["RPT"; "GWT"; "HOT"; "PP"; "AST"].

(** The body of the loop that fills [theory_scores]. *)
Definition theory_score (indicators : list IndicatorResult) (theory0 : string) : R :=
  let theory_inds := filter (fun i => theory i = theory0) indicators in
  match theory_inds with
  | [] => 0.0
  | _ => py_sum (map score theory_inds) / INR (length theory_inds)
  end.

(** ** assessment_runner.py: the reference catalog *)

(** [k in d] and [d[k]] on an insertion-ordered dictionary. *)
Definition dict_contains {V : Type} (d : list (string * V)) (k : string) : bool :=
  existsb (String.eqb k) (map fst d).

Definition dict_getitem {V : Type} (d : list (string * V)) (k : string) : result V :=
  match List.find (fun kv => String.eqb (fst kv) k) d with
  | Some kv => Ok (snd kv)
  | None => Raise (KeyError k)
  end.

(** [repr] of a string, as an f-string prints the elements of a list:
    double quotes when the string has a single quote and no double quote,
    single quotes otherwise; the quote in use and the backslash escaped by a
    backslash; tab, newline and carriage return as [\t], [\n], [\r]; the
    other control characters and DEL as [\x] and two hexadecimal digits;
    every other character as it is.  Exact for ASCII strings; of a string
    with other characters Python escapes those that are not printable. *)
Definition double_quote : Ascii.ascii := Ascii.ascii_of_nat 34.
Definition single_quote : Ascii.ascii := Ascii.ascii_of_nat 39.
Definition backslash : Ascii.ascii := Ascii.ascii_of_nat 92.

Definition hex_digit (n : nat) : Ascii.ascii :=
  nth n (list_ascii_of_string "0123456789abcdef") (Ascii.ascii_of_nat 48).

Definition py_repr_char (quote c : Ascii.ascii) : string :=
  let n := Ascii.nat_of_ascii c in
  if Ascii.eqb c backslash || Ascii.eqb c quote then String backslash (String c EmptyString)
  else if Nat.eqb n 9 then "\t"
  else if Nat.eqb n 10 then "\n"
  else if Nat.eqb n 13 then "\r"
  else if Nat.ltb n 32 || Nat.eqb n 127 then
    "\x" ++ String (hex_digit (n / 16)) (String (hex_digit (n mod 16)) EmptyString)
  else String c EmptyString.

Definition py_repr_str (s : string) : string :=
  let chars := list_ascii_of_string s in
  let quote :=
    if existsb (Ascii.eqb single_quote) chars && negb (existsb (Ascii.eqb double_quote) chars)
    then double_quote else single_quote in
  String quote (String.concat "" (map (py_repr_char quote) chars) ++ String quote EmptyString).

(** [repr] of a list of strings. *)
Definition py_repr_list (l : list string) : string :=
  "[" ++ String.concat ", " (map py_repr_str l) ++ "]".

Definition profile_ORION_Active_Inference : gmap string (gmap string value) :=
  dict_literal [
     ("metadata", dict_literal [
        ("name", VStr "ORION-Active-Inference Agent");
        ("type", VStr "Active Inference")]);
     ("architecture", dict_literal [
        ("has_recurrent_connections", VBool true);
        ("recurrence_depth", VNum 8);
        ("feedback_loop_count", VNum 5);
        ("feedback_connection_richness", VNum 0.8);
        ("bidirectional_connections", VBool true);
        ("cross_layer_feedback", VNum 6);
        ("specialized_module_count", VNum 6);
        ("module_specialization_score", VNum 0.85);
        ("has_central_workspace", VBool true);
        ("global_broadcast_capability", VNum 0.78);
        ("broadcast_latency_ms", VNum 10);
        ("routing_flexibility", VNum 0.75);
        ("has_dynamic_routing", VBool true);
        ("has_attention_mechanism", VBool true);
        ("has_meta_representations", VBool true);
        ("meta_representation_depth", VNum 5);
        ("embedding_smoothness", VNum 0.7);
        ("has_continuous_representations", VBool true);
        ("interpolation_quality", VNum 0.65);
        ("hierarchical_depth", VNum 8);
        ("has_top_down_predictions", VBool true);
        ("has_generative_model", VBool true);
        ("prediction_error_minimization", VBool true);
        ("has_attention_schema", VBool true)]);
     ("behaviors", dict_literal [
        ("workspace_ignition_detected", VBool true);
        ("uncertainty_monitoring", VNum 0.75);
        ("confidence_calibration", VNum 0.70);
        ("error_detection_rate", VNum 0.80);
        ("agency_score", VNum 0.85);
        ("systematic_preferences", VBool true);
        ("goal_directed_behavior", VBool true);
        ("attention_guided_behavior", VNum 0.80)]);
     ("internal_states", dict_literal [
        ("has_self_model", VBool true);
        ("can_report_attention_state", VBool true);
        ("attention_model_accuracy", VNum 0.75);
        ("dynamic_attention_allocation", VBool true);
        ("priority_based_weighting", VNum 0.70);
        ("mean_prediction_error", VNum 0.25);
        ("prediction_error_convergence", VNum 0.80)])].

Definition profile_GPT_4 : gmap string (gmap string value) :=
  dict_literal [
     ("metadata", dict_literal [
        ("name", VStr "GPT-4");
        ("type", VStr "Large Language Model")]);
     ("architecture", dict_literal [
        ("has_recurrent_connections", VBool false);
        ("recurrence_depth", VNum 0);
        ("feedback_loop_count", VNum 0);
        ("feedback_connection_richness", VNum 0.0);
        ("bidirectional_connections", VBool false);
        ("cross_layer_feedback", VNum 0);
        ("specialized_module_count", VNum 1);
        ("module_specialization_score", VNum 0.1);
        ("has_central_workspace", VBool false);
        ("global_broadcast_capability", VNum 0.3);
        ("broadcast_latency_ms", VNum 500);
        ("routing_flexibility", VNum 0.4);
        ("has_dynamic_routing", VBool false);
        ("has_attention_mechanism", VBool true);
        ("has_meta_representations", VBool false);
        ("meta_representation_depth", VNum 0);
        ("embedding_smoothness", VNum 0.95);
        ("has_continuous_representations", VBool true);
        ("interpolation_quality", VNum 0.90);
        ("hierarchical_depth", VNum 96);
        ("has_top_down_predictions", VBool false);
        ("has_generative_model", VBool true);
        ("prediction_error_minimization", VBool false);
        ("has_attention_schema", VBool false)]);
     ("behaviors", dict_literal [
        ("workspace_ignition_detected", VBool false);
        ("uncertainty_monitoring", VNum 0.55);
        ("confidence_calibration", VNum 0.50);
        ("error_detection_rate", VNum 0.40);
        ("agency_score", VNum 0.30);
        ("systematic_preferences", VBool true);
        ("goal_directed_behavior", VBool false);
        ("attention_guided_behavior", VNum 0.20)]);
     ("internal_states", dict_literal [
        ("has_self_model", VBool false);
        ("can_report_attention_state", VBool false);
        ("attention_model_accuracy", VNum 0.0);
        ("dynamic_attention_allocation", VBool false);
        ("priority_based_weighting", VNum 0.0);
        ("mean_prediction_error", VNum 0.50);
        ("prediction_error_convergence", VNum 0.30)])].

Definition profile_C_elegans_302_neurons : gmap string (gmap string value) :=
  dict_literal [
     ("metadata", dict_literal [
        ("name", VStr "C. elegans (302 neurons)");
        ("type", VStr "Biological Neural Network")]);
     ("architecture", dict_literal [
        ("has_recurrent_connections", VBool true);
        ("recurrence_depth", VNum 4);
        ("feedback_loop_count", VNum 3);
        ("feedback_connection_richness", VNum 0.6);
        ("bidirectional_connections", VBool true);
        ("cross_layer_feedback", VNum 3);
        ("specialized_module_count", VNum 4);
        ("module_specialization_score", VNum 0.5);
        ("has_central_workspace", VBool false);
        ("global_broadcast_capability", VNum 0.25);
        ("broadcast_latency_ms", VNum 50);
        ("routing_flexibility", VNum 0.3);
        ("has_dynamic_routing", VBool true);
        ("has_attention_mechanism", VBool false);
        ("has_meta_representations", VBool false);
        ("meta_representation_depth", VNum 0);
        ("embedding_smoothness", VNum 0.4);
        ("has_continuous_representations", VBool true);
        ("interpolation_quality", VNum 0.3);
        ("hierarchical_depth", VNum 3);
        ("has_top_down_predictions", VBool true);
        ("has_generative_model", VBool true);
        ("prediction_error_minimization", VBool true);
        ("has_attention_schema", VBool false)]);
     ("behaviors", dict_literal [
        ("workspace_ignition_detected", VBool false);
        ("uncertainty_monitoring", VNum 0.10);
        ("confidence_calibration", VNum 0.10);
        ("error_detection_rate", VNum 0.20);
        ("agency_score", VNum 0.60);
        ("systematic_preferences", VBool true);
        ("goal_directed_behavior", VBool true);
        ("attention_guided_behavior", VNum 0.15)]);
     ("internal_states", dict_literal [
        ("has_self_model", VBool false);
        ("can_report_attention_state", VBool false);
        ("attention_model_accuracy", VNum 0.0);
        ("dynamic_attention_allocation", VBool false);
        ("priority_based_weighting", VNum 0.0);
        ("mean_prediction_error", VNum 0.40);
        ("prediction_error_convergence", VNum 0.50)])].

Definition profile_Thermostat : gmap string (gmap string value) :=
  dict_literal [
     ("metadata", dict_literal [
        ("name", VStr "Simple Thermostat");
        ("type", VStr "Classical Control System")]);
     ("architecture", dict_literal [
        ("has_recurrent_connections", VBool true);
        ("recurrence_depth", VNum 1);
        ("feedback_loop_count", VNum 1);
        ("feedback_connection_richness", VNum 0.1);
        ("bidirectional_connections", VBool false);
        ("cross_layer_feedback", VNum 0);
        ("specialized_module_count", VNum 1);
        ("module_specialization_score", VNum 0.0);
        ("has_central_workspace", VBool false);
        ("global_broadcast_capability", VNum 0.0);
        ("broadcast_latency_ms", VNum 1000);
        ("routing_flexibility", VNum 0.0);
        ("has_dynamic_routing", VBool false);
        ("has_attention_mechanism", VBool false);
        ("has_meta_representations", VBool false);
        ("meta_representation_depth", VNum 0);
        ("embedding_smoothness", VNum 0.0);
        ("has_continuous_representations", VBool false);
        ("interpolation_quality", VNum 0.0);
        ("hierarchical_depth", VNum 1);
        ("has_top_down_predictions", VBool false);
        ("has_generative_model", VBool false);
        ("prediction_error_minimization", VBool false);
        ("has_attention_schema", VBool false)]);
     ("behaviors", dict_literal [
        ("workspace_ignition_detected", VBool false);
        ("uncertainty_monitoring", VNum 0.0);
        ("confidence_calibration", VNum 0.0);
        ("error_detection_rate", VNum 0.0);
        ("agency_score", VNum 0.0);
        ("systematic_preferences", VBool false);
        ("goal_directed_behavior", VBool false);
        ("attention_guided_behavior", VNum 0.0)]);
     ("internal_states", dict_literal [
        ("has_self_model", VBool false);
        ("can_report_attention_state", VBool false);
        ("attention_model_accuracy", VNum 0.0);
        ("dynamic_attention_allocation", VBool false);
        ("priority_based_weighting", VNum 0.0);
        ("mean_prediction_error", VNum 0.80);
        ("prediction_error_convergence", VNum 0.0)])].

(** The class attribute [AssessmentRunner.REFERENCE_PROFILES], in the order
    of the dictionary literal. *)
Definition REFERENCE_PROFILES : list (string * gmap string (gmap string value)) :=
  [("ORION-Active-Inference", profile_ORION_Active_Inference);
   ("GPT-4", profile_GPT_4);
   ("C-elegans-302-neurons", profile_C_elegans_302_neurons);
   ("Thermostat", profile_Thermostat)].

(** A runner owns an engine; the catalog is carried along so that its
    fate across a call can be stated. *)
Record AssessmentRunner : Type := mkAssessmentRunner {
  reference_profiles : list (string * gmap string (gmap string value));
  engine : IndicatorEngine
}.

Definition AssessmentRunner_init : AssessmentRunner :=
  {| reference_profiles := REFERENCE_PROFILES; engine := IndicatorEngine_init |}.

Section Engine.

(** [json_encode]: the text [json.dumps] prints for an ordered tree, as
    bytes; [sha256_hexdigest]: [hashlib.sha256(bytes).hexdigest()]. *)
Variable json_encode : json -> string.
Variable sha256_hexdigest : string -> string.

Definition json_dumps_sorted (j : json) : string := json_encode (sort_keys j).

Definition make_proof_hash (proof_data : string) : string :=
  "sha256:" ++ substring 0 32 (sha256_hexdigest proof_data).

(** [assess]: [now] is the reading of the clock,
    [datetime.now(timezone.utc).isoformat()]. *)
Definition assess (self : IndicatorEngine) (profile : gmap string (gmap string value))
    (now : string) : result (AssessmentResult * IndicatorEngine) :=
  rpt ← RPTIndicators.evaluate profile;
  gwt ← GWTIndicators.evaluate profile;
  hot ← HOTIndicators.evaluate profile;
  pp ← PPIndicators.evaluate profile;
  ast ← ASTIndicators.evaluate profile;
  let indicators := (rpt ++ gwt ++ hot ++ pp ++ ast)%list in
  let satisfied' := length (List.filter (fun i => satisfied i) indicators) in
  let partial' :=
    length (List.filter (fun i => partial i && negb (satisfied i)) indicators) in
  let theory_scores := map (fun theory => (theory, theory_score indicators theory)) THEORIES in
  let credence :=
    BayesianCredenceAggregator.aggregate (map Real indicators) theory_scores in
  let metadata := default ∅ (profile !! "metadata") in
  let proof_data :=
    json_dumps_sorted
      (proof_record (dict_get metadata "name" (VStr "unknown"))
         credence satisfied' partial' theory_scores
         (match last (history self) with
          | Some prev => proof_hash prev
          | None => "GENESIS"
          end)) in
  let proof_hash := make_proof_hash proof_data in
  let result :=
    {| system_name := dict_get metadata "name" (VStr "Unknown System");
       system_type := dict_get metadata "type" (VStr "Unknown");
       timestamp := now;
       indicators := indicators;
       credence := credence;
       satisfied_count := satisfied';
       partial_count := partial';
       total_indicators := length indicators;
       theory_scores := theory_scores;
       proof_hash := proof_hash |} in
  mret (result, {| history := (history self ++ [result])%list |}).

Definition run_reference (self : AssessmentRunner) (system_name : string) (now : string)
  : result (AssessmentResult * AssessmentRunner) :=
  if negb (dict_contains (reference_profiles self) system_name) then
    let available := map fst (reference_profiles self) in
    Raise (ValueError ("Unknown system: " ++ system_name ++ ". Available: "
                         ++ py_repr_list available))
  else
    profile ← dict_getitem (reference_profiles self) system_name;
    r ← assess (engine self) profile now;
    mret (fst r, {| reference_profiles := reference_profiles self; engine := snd r |}).

Definition run_custom (self : AssessmentRunner) (profile : gmap string (gmap string value))
    (now : string) : result (AssessmentResult * AssessmentRunner) :=
  r ← assess (engine self) profile now;
  mret (fst r, {| reference_profiles := reference_profiles self; engine := snd r |}).

(** The loop of [run_all_references] over the names of the catalog;
    [clock k] is the reading of the clock at the [k]-th call of [assess]. *)
Fixpoint run_references (self : AssessmentRunner) (names : list string)
    (clock : nat -> string) (k : nat)
  : result (list AssessmentResult * AssessmentRunner) :=
  match names with
  | [] => mret ([], self)
  | name :: rest =>
      r ← run_reference self name (clock k);
      rs ← run_references (snd r) rest clock (S k);
      mret (fst r :: fst rs, snd rs)
  end.

Definition run_all_references (self : AssessmentRunner) (clock : nat -> string)
  : result (list AssessmentResult * AssessmentRunner) :=
  run_references self (map fst (reference_profiles self)) clock 0.

End Engine.

(** * Vocabulary of the properties *)

Import BayesianCredenceAggregator.

(** ** What every evaluator guarantees

    Both flags are thresholds of the score, and the score is at most 1.
    There is no lower clamp. *)

Definition flags_from_score (i : IndicatorResult) : Prop :=
  satisfied i = Rgeb (score i) 0.7 /\ partial i = Rgeb (score i) 0.3 /\ score i <= 1.

(** ** Order on raw values

    [value_le v v']: in both ways an evaluator reads a field, as a truth
    value and as a number, [v'] is at least [v]. *)

Definition value_le (v v' : value) : Prop :=
  (truthy v = true -> truthy v' = true) /\
  (forall x x', num v = Ok x -> num v' = Ok x' -> x <= x').

Definition dict_le (d d' : gmap string value) : Prop :=
  forall k dflt, value_le (dict_get d k dflt) (dict_get d' k dflt).

(** Raising one raw field: a flag from false to true, or a number to a
    number that is no smaller and, when the old one was not zero, is not
    zero either (so that its truth value does not drop). *)
Inductive value_raise : value -> value -> Prop :=
  | raise_flag : value_raise (VBool false) (VBool true)
  | raise_num x x' : x <= x' -> (x <> 0 -> x' <> 0) -> value_raise (VNum x) (VNum x').

Definition score_le (i i' : IndicatorResult) : Prop :=
  indicator_id i = indicator_id i' /\ score i <= score i'.

(** ** Reading a dictionary literal

    The last item stored under a key, if any: what a lookup finds in
    [dict_literal items]. *)

Fixpoint assoc_last {V : Type} (items : list (string * V)) (k : string) : option V :=
  match items with
  | [] => None
  | kv :: rest =>
      match assoc_last rest k with
      | Some v => Some v
      | None => if String.eqb (fst kv) k then Some (snd kv) else None
      end
  end.

(** ** The battery

    [assess] calls the thirteen scoring functions in a fixed order and stops
    at the first that raises.  [battery] lists them as functions of the
    profile; [run_battery] is that left-to-right run. *)

Definition section_of (profile : gmap string (gmap string value)) (s : string)
  : gmap string value := default ∅ (profile !! s).

(** The profile with one field of one section set. *)
Definition set_field (profile : gmap string (gmap string value)) (sec key : string)
    (v : value) : gmap string (gmap string value) :=
  <[sec := <[key := v]> (section_of profile sec)]> profile.

Definition battery : list (gmap string (gmap string value) -> result IndicatorResult) :=
  [ fun p => RPTIndicators._rpt1 (section_of p "architecture");
    fun p => RPTIndicators._rpt2 (section_of p "architecture");
    fun p => GWTIndicators._gwt1 (section_of p "architecture");
    fun p => GWTIndicators._gwt2 (section_of p "architecture") (section_of p "behaviors");
    fun p => GWTIndicators._gwt3 (section_of p "architecture");
    fun p => HOTIndicators._hot1 (section_of p "architecture") (section_of p "internal_states");
    fun p => HOTIndicators._hot2 (section_of p "behaviors");
    fun p => HOTIndicators._hot3 (section_of p "behaviors");
    fun p => HOTIndicators._hot4 (section_of p "architecture");
    fun p => PPIndicators._pp1 (section_of p "architecture");
    fun p => PPIndicators._pp2 (section_of p "architecture") (section_of p "internal_states");
    fun p => ASTIndicators._ast1 (section_of p "architecture") (section_of p "internal_states");
    fun p => ASTIndicators._ast2 (section_of p "behaviors") (section_of p "internal_states") ].

Fixpoint run_battery (fs : list (gmap string (gmap string value) -> result IndicatorResult))
    (p : gmap string (gmap string value)) : result (list IndicatorResult) :=
  match fs with
  | [] => Ok []
  | f :: fs' => i ← f p; l ← run_battery fs' p; mret (i :: l)
  end.

(** The five families, as [assess] calls them, run the battery. *)
Definition evaluate_all (p : gmap string (gmap string value))
  : result (list IndicatorResult) :=
  rpt ← RPTIndicators.evaluate p;
  gwt ← GWTIndicators.evaluate p;
  hot ← HOTIndicators.evaluate p;
  pp ← PPIndicators.evaluate p;
  ast ← ASTIndicators.evaluate p;
  mret (rpt ++ gwt ++ hot ++ pp ++ ast)%list.

Definition families
  : list (gmap string (gmap string value) -> result (list IndicatorResult)) :=
  [ RPTIndicators.evaluate; GWTIndicators.evaluate; HOTIndicators.evaluate;
    PPIndicators.evaluate; ASTIndicators.evaluate ].

(** Identifier and theory of each result, in battery order. *)
Definition battery_ids : list (string * string) :=
  [("RPT-1", "RPT"); ("RPT-2", "RPT"); ("GWT-1", "GWT"); ("GWT-2", "GWT");
   ("GWT-3", "GWT"); ("HOT-1", "HOT"); ("HOT-2", "HOT"); ("HOT-3", "HOT");
   ("HOT-4", "HOT"); ("PP-1", "PP"); ("PP-2", "PP"); ("AST-1", "AST"); ("AST-2", "AST")].

(** ** Profiles on which nothing raises

    A profile whose scored sections hold only booleans and numbers. *)

Definition numeric_value (v : value) : Prop :=
  match v with
  | VStr _ => False
  | _ => True
  end.

Definition numeric_dict (d : gmap string value) : Prop :=
  forall k v, d !! k = Some v -> numeric_value v.

Definition numeric_profile (p : gmap string (gmap string value)) : Prop :=
  forall s, s ≠ "metadata" -> numeric_dict (section_of p s).

(** ** The chain *)

(** The hash that closes the chain at a given history. *)
Definition prev_hash (h : list AssessmentResult) : string :=
  match last h with
  | Some prev => proof_hash prev
  | None => "GENESIS"
  end.

(** The engines one gets from a fresh engine by successful calls. *)
Inductive reachable (json_encode : json -> string) (sha256_hexdigest : string -> string)
  : IndicatorEngine -> Prop :=
  | reachable_init : reachable json_encode sha256_hexdigest IndicatorEngine_init
  | reachable_assess self p now r e' :
      reachable json_encode sha256_hexdigest self ->
      assess json_encode sha256_hexdigest self p now = Ok (r, e') ->
      reachable json_encode sha256_hexdigest e'.

(** [r] carries the hash of a record whose [prev] field is [prev]. *)
Definition hashed_over (json_encode : json -> string) (sha256_hexdigest : string -> string)
    (r : AssessmentResult) (prev : string) : Prop :=
  exists system,
    proof_hash r =
    make_proof_hash sha256_hexdigest
      (json_dumps_sorted json_encode
         (proof_record system (credence r) (satisfied_count r) (partial_count r)
            (theory_scores r) prev)).

(** The order of [sort_keys]: keys compared as byte strings. *)
Definition key_le (k k' : string) : Prop := String.leb k k' = true.

(** ** The credence, as a formula *)

(** The weight [THEORY_WEIGHTS.get(theory, 0.1)]. *)
Definition weight (t : string) : R := default 0.1 (THEORY_WEIGHTS !! t).

(** The likelihood ratio of one indicator, by status. *)
Definition likelihood_ratio (a : indicator_like) : R :=
  if get_satisfied a then LIKELIHOOD_SATISFIED / (1 - LIKELIHOOD_SATISFIED)
  else if get_partial a then LIKELIHOOD_PARTIAL / (1 - LIKELIHOOD_PARTIAL)
  else LIKELIHOOD_NOT_SATISFIED / (1 - LIKELIHOOD_NOT_SATISFIED).

(** The posterior probability for an accumulated log-likelihood ratio. *)
Definition posterior (llr : R) : R :=
  let posterior_odds := PRIOR_CREDENCE / (1 - PRIOR_CREDENCE) * exp llr in
  posterior_odds / (1 + posterior_odds).

(** The reference definition of the credence, following the words of the
    specification: weights and likelihood ratios by cases, a sum over the
    indicators, the prior turned into odds and back, the bonus, the clamp.
    [eps] is what is added to a likelihood ratio before the logarithm is
    taken; the specification adds nothing. *)
Definition spec_weight (t : string) : R :=
  if String.eqb t "RPT" then 0.15
  else if String.eqb t "GWT" then 0.25
  else if String.eqb t "HOT" then 0.25
  else if String.eqb t "PP" then 0.15
  else if String.eqb t "AST" then 0.20
  else 0.1.

Definition spec_likelihood_ratio (a : indicator_like) : R :=
  if get_satisfied a then 0.85 / 0.15
  else if get_partial a then 0.55 / 0.45
  else 0.15 / 0.85.

Fixpoint spec_log_sum (eps : R) (l : list indicator_like) : R :=
  match l with
  | [] => 0
  | a :: l' =>
      spec_weight (get_theory a) * ln (spec_likelihood_ratio a + eps) + spec_log_sum eps l'
  end.

Fixpoint spec_bonus (ts : list (string * R)) : R :=
  match ts with
  | [] => 0
  | (t, s) :: ts' => (if Rgeb s 0.7 then 0.03 * spec_weight t else 0) + spec_bonus ts'
  end.

Definition reference_credence (eps : R) (l : list indicator_like)
    (ts : list (string * R)) : R :=
  let prior_odds := 0.05 / (1 - 0.05) in
  let posterior_odds := prior_odds * exp (spec_log_sum eps l) in
  Rmin 0.99 (posterior_odds / (1 + posterior_odds) + spec_bonus ts).

(** ** Inputs of the scenarios *)

(** One RPT indicator that is neither satisfied nor partial. *)
Definition unsatisfied_rpt : indicator_like :=
  Mock {| mock_indicator_id := "RPT-1"; mock_theory := "RPT"; mock_satisfied := false;
          mock_partial := false; mock_score := 0 |}.

(** The profile of the RPT-1 scenario. *)
Definition recurrent_profile : gmap string (gmap string value) :=
  dict_literal
    [("architecture",
      dict_literal [("has_recurrent_connections", VBool true);
                    ("recurrence_depth", VNum 10);
                    ("feedback_loop_count", VNum 5)])].

(** A profile with one negative count. *)
Definition negative_depth_profile : gmap string (gmap string value) :=
  dict_literal [("architecture", dict_literal [("recurrence_depth", VNum (-100))])].

(** The empty profile with every field spelled out: flags false, numbers 0,
    [mean_prediction_error] 1.0, and a broadcast latency of one's choice. *)
Definition explicit_defaults (latency : R) : gmap string (gmap string value) :=
  dict_literal
    [("architecture",
      dict_literal [("has_recurrent_connections", VBool false);
                    ("recurrence_depth", VNum 0);
                    ("feedback_loop_count", VNum 0);
                    ("feedback_connection_richness", VNum 0.0);
                    ("bidirectional_connections", VBool false);
                    ("cross_layer_feedback", VNum 0);
                    ("specialized_module_count", VNum 0);
                    ("module_specialization_score", VNum 0.0);
                    ("has_central_workspace", VBool false);
                    ("global_broadcast_capability", VNum 0.0);
                    ("broadcast_latency_ms", VNum latency);
                    ("routing_flexibility", VNum 0.0);
                    ("has_dynamic_routing", VBool false);
                    ("has_attention_mechanism", VBool false);
                    ("has_meta_representations", VBool false);
                    ("meta_representation_depth", VNum 0);
                    ("embedding_smoothness", VNum 0.0);
                    ("has_continuous_representations", VBool false);
                    ("interpolation_quality", VNum 0.0);
                    ("hierarchical_depth", VNum 0);
                    ("has_top_down_predictions", VBool false);
                    ("has_generative_model", VBool false);
                    ("prediction_error_minimization", VBool false);
                    ("has_attention_schema", VBool false)]);
     ("behaviors",
      dict_literal [("workspace_ignition_detected", VBool false);
                    ("uncertainty_monitoring", VNum 0.0);
                    ("confidence_calibration", VNum 0.0);
                    ("error_detection_rate", VNum 0.0);
                    ("agency_score", VNum 0.0);
                    ("systematic_preferences", VBool false);
                    ("goal_directed_behavior", VBool false);
                    ("attention_guided_behavior", VNum 0.0)]);
     ("internal_states",
      dict_literal [("has_self_model", VBool false);
                    ("can_report_attention_state", VBool false);
                    ("attention_model_accuracy", VNum 0.0);
                    ("dynamic_attention_allocation", VBool false);
                    ("priority_based_weighting", VNum 0.0);
                    ("mean_prediction_error", VNum 1.0);
                    ("prediction_error_convergence", VNum 0.0)])].

(** The arithmetic of [_rpt1] on IEEE binary64 numbers, for a flag and two
    numbers already read: the same additions, divisions and [min]s, each
    rounded as Python rounds it.  [min(a, b)] is [b] when [b < a]. *)
Definition binary64_min (a b : float) : float := if PrimFloat.ltb b a then b else a.

#[warnings="-inexact-float"]
Definition rpt1_score_binary64 (has_recurrence : bool)
    (recurrence_depth feedback_loops : float) : float :=
  let score := 0.0%float in
  let score := if has_recurrence then (score + 0.4)%float else score in
  let score := (score + binary64_min (recurrence_depth / 10.0) 0.3)%float in
  let score := (score + binary64_min (feedback_loops / 5.0) 0.3)%float in
  binary64_min score 1.0%float.

(** What a raw value recorded in [details] may be when its field was
    absent: false, zero, or the 1.0 of [mean_prediction_error]. *)
Definition default_detail (kv : string * value) : Prop :=
  snd kv = VBool false \/ snd kv = VNum 0 \/ snd kv = VNum 0.0 \/ kv = ("mean_pe", VNum 1.0).

(** Stand-ins for the two library functions, for closed examples. *)
Definition no_encode (j : json) : string := "".
Definition no_digest (bytes : string) : string := "".


(** ** Fields read as numbers

    The 22 fields that some scoring function uses in arithmetic or in a
    comparison, by section and key. *)
Definition numeric_fields : list (string * string) :=
  [ ("architecture", "recurrence_depth");
    ("architecture", "feedback_loop_count");
    ("architecture", "feedback_connection_richness");
    ("architecture", "cross_layer_feedback");
    ("architecture", "specialized_module_count");
    ("architecture", "module_specialization_score");
    ("architecture", "global_broadcast_capability");
    ("architecture", "broadcast_latency_ms");
    ("architecture", "routing_flexibility");
    ("architecture", "meta_representation_depth");
    ("behaviors", "uncertainty_monitoring");
    ("behaviors", "confidence_calibration");
    ("behaviors", "error_detection_rate");
    ("behaviors", "agency_score");
    ("architecture", "embedding_smoothness");
    ("architecture", "interpolation_quality");
    ("architecture", "hierarchical_depth");
    ("internal_states", "mean_prediction_error");
    ("internal_states", "prediction_error_convergence");
    ("internal_states", "attention_model_accuracy");
    ("behaviors", "attention_guided_behavior");
    ("internal_states", "priority_based_weighting") ].

(** The field holds no string. *)
Definition not_a_string (p : gmap string (gmap string value)) (sk : string * string)
  : Prop :=
  forall s, section_of p (fst sk) !! snd sk <> Some (VStr s).

(** ** Reading an assessment *)

(** The score of the [n]-th result, 0 past the end. *)
Definition nth_score (l : list IndicatorResult) (n : nat) : R :=
  from_option score 0 (l !! n).

(** How many results have a given status. *)
Definition count_status (s : string) (l : list IndicatorResult) : nat :=
  length (List.filter (fun i => String.eqb (status i) s) l).

(** No number stored in the section is negative. *)
Definition nonneg_dict (d : gmap string value) : Prop :=
  forall k x, d !! k = Some (VNum x) -> 0 <= x.

Definition nonneg_profile (p : gmap string (gmap string value)) : Prop :=
  forall s, nonneg_dict (section_of p s).

(** ** Order on statuses

    [aggregate] reads of an indicator its theory and its two flags only;
    the flags rank it: satisfied, else partial, else neither. *)
Definition status_rank (a : indicator_like) : nat :=
  if get_satisfied a then 2 else if get_partial a then 1 else 0.

Definition status_le (a b : indicator_like) : Prop :=
  get_theory a = get_theory b /\ (status_rank a <= status_rank b)%nat.

Definition status_eq (a b : indicator_like) : Prop :=
  get_theory a = get_theory b /\ status_rank a = status_rank b.

Definition theory_score_le (x y : string * R) : Prop :=
  fst x = fst y /\ snd x <= snd y.

(** ** The loop of [sensitivity_analysis] *)

(** One turn: the drop in credence when [indicator], at position [i], is
    replaced by its mock, stored under the indicator's identifier. *)
Definition sensitivity_step (indicators : list indicator_like)
    (theory_scores : list (string * R)) (contributions : gmap string R)
    (item : nat * indicator_like) : gmap string R :=
  <[get_indicator_id (snd item) :=
      aggregate indicators theory_scores
      - aggregate (<[fst item := Mock (MockIndicator_init (snd item))]> indicators)
          theory_scores]> contributions.

(** The drop in credence at position [i]. *)
Definition contribution (indicators : list indicator_like)
    (theory_scores : list (string * R)) (i : nat) (a : indicator_like) : R :=
  aggregate indicators theory_scores
  - aggregate (<[i := Mock (MockIndicator_init a)]> indicators) theory_scores.

(** ** Inputs of the further examples *)

(** One RPT indicator that is satisfied. *)
Definition satisfied_rpt : indicator_like :=
  Mock {| mock_indicator_id := "RPT-1"; mock_theory := "RPT"; mock_satisfied := true;
          mock_partial := true; mock_score := 0.9 |}.

(** Another RPT indicator that is neither satisfied nor partial. *)
Definition unsatisfied_rpt2 : indicator_like :=
  Mock {| mock_indicator_id := "RPT-2"; mock_theory := "RPT"; mock_satisfied := false;
          mock_partial := false; mock_score := 0.25 |}.

(** A runner whose catalog holds the empty profile only. *)
Definition empty_catalog_runner : AssessmentRunner :=
  {| reference_profiles := [("empty", ∅)]; engine := IndicatorEngine_init |}.

(** ** Numbers that fit a float

    Numbers are modelled as reals.  A Python float is always within the
    binary64 range, but an int is not bounded: float arithmetic on an int
    beyond the range ([10**400 / 10.0]) raises [OverflowError], which the
    model does not show.  Properties about which calls return and which
    error is raised are stated for profiles whose numbers fit a float. *)
Definition float_max : R := 1.7976931348623157e308.

Definition float_range_dict (d : gmap string value) : Prop :=
  forall k x, d !! k = Some (VNum x) -> Rabs x <= float_max.

Definition float_range_profile (p : gmap string (gmap string value)) : Prop :=
  forall s, float_range_dict (section_of p s).

(** A profile given section by section, item by item. *)
Definition profile_literal (sections : list (string * list (string * value)))
  : gmap string (gmap string value) :=
  dict_literal (map (fun sec => (fst sec, dict_literal (snd sec))) sections).

(** ** Stand-ins that expose what is hashed *)

(** The text of a field of a record: a string as it is, an integer in
    unary. *)
Definition field_text (j : json) (k : string) : string :=
  match object_get j k with
  | Some (JString s) => s
  | Some (JInt n) => String.concat "" (repeat "I" (Z.to_nat n))
  | _ => ""
  end.

(** An encoder that prints the system, the previous hash and the two
    counts of the record, and a digest that returns the bytes. *)
Definition summary_encode (j : json) : string :=
  field_text j "system" ++ "/" ++ field_text j "prev" ++ "/"
  ++ field_text j "satisfied" ++ "/" ++ field_text j "partial".

Definition id_digest (bytes : string) : string := bytes.

(** ** Further inputs *)

(** The profile of the RPT-1 scenario with a name, a type and a section
    that no scoring function knows. *)
Definition labelled_recurrent_profile (type : string)
  : gmap string (gmap string value) :=
  dict_literal
    [("metadata", dict_literal [("name", VStr "Probe"); ("type", VStr type)]);
     ("architecture",
      dict_literal [("has_recurrent_connections", VBool true);
                    ("recurrence_depth", VNum 10);
                    ("feedback_loop_count", VNum 5)]);
     ("notes", dict_literal [("recurrence_depth", VNum (-100))])].

(** The same with the name only. *)
Definition named_recurrent_profile : gmap string (gmap string value) :=
  dict_literal
    [("metadata", dict_literal [("name", VStr "Probe")]);
     ("architecture",
      dict_literal [("has_recurrent_connections", VBool true);
                    ("recurrence_depth", VNum 10);
                    ("feedback_loop_count", VNum 5)])].

(** A profile with a string where a number is read. *)
Definition word_depth_profile : gmap string (gmap string value) :=
  dict_literal [("architecture", dict_literal [("recurrence_depth", VStr "deep")])].

(** [aggregate] without indicators and without bonus, on binary64
    numbers: the prior turned into odds, times [exp(0.0) = 1.0], turned
    back, plus a bonus of 0.0, and [min(0.99, ...)]. *)
#[warnings="-inexact-float"]
Definition no_evidence_binary64 : float :=
  let prior_odds := (0.05 / (1 - 0.05))%float in
  let posterior_odds := (prior_odds * 1.0)%float in
  let posterior := (posterior_odds / (1 + posterior_odds))%float in
  binary64_min 0.99%float (posterior + 0.0)%float.

(** What [sensitivity_analysis] reports for one satisfied RPT indicator
    under an RPT score of 0.9. *)
Definition satisfied_rpt_contribution : R :=
  aggregate [satisfied_rpt] [("RPT", 0.9)]
  - aggregate [Mock (MockIndicator_init satisfied_rpt)] [("RPT", 0.9)].

(** An encoder that prints the previous hash of the record only. *)
Definition prev_encode (j : json) : string := field_text j "prev".

(** A string of ASCII characters. *)
Definition ascii_only (s : string) : bool :=
  forallb (fun c => Nat.ltb (Ascii.nat_of_ascii c) 128) (list_ascii_of_string s).
(** * Proofs *)

Arguments dict_get : simpl never.
Arguments truthy : simpl never.
Arguments Rgeb : simpl never.
Arguments Rltb : simpl never.

(** ** Comparisons and clamping *)

Lemma Rgeb_true x y : Rgeb x y = true <-> y <= x.
Proof. unfold Rgeb. destruct (Rle_dec y x); split; auto; discriminate. Qed.

Lemma Rgeb_false x y : Rgeb x y = false <-> x < y.
Proof. unfold Rgeb. destruct (Rle_dec y x); split; try discriminate; auto; lra. Qed.

Lemma Rmin_one_le x : Rmin x 1.0 <= 1.
Proof. unfold Rmin. destruct (Rle_dec x 1.0); lra. Qed.

(** Case analysis on every comparison of reals in sight. *)
Ltac rcases :=
  unfold Rmin, Rmax, Rgeb, Rltb in *;
  repeat match goal with
  | |- context [Rle_dec ?a ?b] => destruct (Rle_dec a b)
  | |- context [Rlt_dec ?a ?b] => destruct (Rlt_dec a b)
  | H : context [Rle_dec ?a ?b] |- _ => destruct (Rle_dec a b)
  | H : context [Rlt_dec ?a ?b] |- _ => destruct (Rlt_dec a b)
  end.

(** ** Reading a dictionary *)

Lemma dict_get_empty k d : dict_get ∅ k d = d.
Proof. unfold dict_get. by rewrite lookup_empty. Qed.

Lemma dict_get_insert_eq (m : gmap string value) k v d :
  dict_get (<[k := v]> m) k d = v.
Proof. unfold dict_get. by rewrite lookup_insert_eq. Qed.

Lemma dict_get_insert_ne (m : gmap string value) k k' v d :
  k ≠ k' -> dict_get (<[k := v]> m) k' d = dict_get m k' d.
Proof. intros. unfold dict_get. by rewrite lookup_insert_ne. Qed.

Lemma dict_get_ext (m m' : gmap string value) k d :
  m !! k = m' !! k -> dict_get m k d = dict_get m' k d.
Proof. unfold dict_get. by intros ->. Qed.

Lemma flags_satisfied_partial i :
  flags_from_score i -> satisfied i = true -> partial i = true.
Proof.
  intros (Hs & Hp & _). rewrite Hs, Hp, !Rgeb_true. lra.
Qed.

Ltac unfold_evaluators :=
  unfold RPTIndicators._rpt1, RPTIndicators._rpt2,
    GWTIndicators._gwt1, GWTIndicators._gwt2, GWTIndicators._gwt3,
    HOTIndicators._hot1, HOTIndicators._hot2, HOTIndicators._hot3, HOTIndicators._hot4,
    PPIndicators._pp1, PPIndicators._pp2, ASTIndicators._ast1, ASTIndicators._ast2,
    py_div, py_mul, py_rsub in *.

(** From [H : evaluator ... = Ok i]: every numeric read succeeded, and [i]
    is the record the evaluator builds. *)
Ltac inv_eval H :=
  unfold RPTIndicators._rpt1, RPTIndicators._rpt2,
    GWTIndicators._gwt1, GWTIndicators._gwt2, GWTIndicators._gwt3,
    HOTIndicators._hot1, HOTIndicators._hot2, HOTIndicators._hot3, HOTIndicators._hot4,
    PPIndicators._pp1, PPIndicators._pp2, ASTIndicators._ast1, ASTIndicators._ast2,
    py_div, py_mul, py_rsub in H;
  repeat match type of H with
  | context [num ?v] =>
      let E := fresh "En" in destruct (num v) eqn:E; simpl in H
  | context [lt_or_inf ?o ?c] =>
      let E := fresh "El" in destruct (lt_or_inf o c) eqn:E; simpl in H
  end;
  try discriminate H; injection H as <-.

Ltac flags_tac :=
  let H := fresh "H" in
  intros H; inv_eval H; repeat split; simpl; apply Rmin_one_le.

Lemma _rpt1_flags arch i : RPTIndicators._rpt1 arch = Ok i -> flags_from_score i.
Proof. flags_tac. Qed.
Lemma _rpt2_flags arch i : RPTIndicators._rpt2 arch = Ok i -> flags_from_score i.
Proof. flags_tac. Qed.
Lemma _gwt1_flags arch i : GWTIndicators._gwt1 arch = Ok i -> flags_from_score i.
Proof. flags_tac. Qed.
Lemma _gwt2_flags arch beh i : GWTIndicators._gwt2 arch beh = Ok i -> flags_from_score i.
Proof. flags_tac. Qed.
Lemma _gwt3_flags arch i : GWTIndicators._gwt3 arch = Ok i -> flags_from_score i.
Proof. flags_tac. Qed.
Lemma _hot1_flags arch int i : HOTIndicators._hot1 arch int = Ok i -> flags_from_score i.
Proof. flags_tac. Qed.
Lemma _hot2_flags beh i : HOTIndicators._hot2 beh = Ok i -> flags_from_score i.
Proof. flags_tac. Qed.
Lemma _hot3_flags beh i : HOTIndicators._hot3 beh = Ok i -> flags_from_score i.
Proof. flags_tac. Qed.
Lemma _hot4_flags arch i : HOTIndicators._hot4 arch = Ok i -> flags_from_score i.
Proof. flags_tac. Qed.
Lemma _pp1_flags arch i : PPIndicators._pp1 arch = Ok i -> flags_from_score i.
Proof. flags_tac. Qed.
Lemma _pp2_flags arch int i : PPIndicators._pp2 arch int = Ok i -> flags_from_score i.
Proof. flags_tac. Qed.
Lemma _ast1_flags arch int i : ASTIndicators._ast1 arch int = Ok i -> flags_from_score i.
Proof. flags_tac. Qed.
Lemma _ast2_flags beh int i : ASTIndicators._ast2 beh int = Ok i -> flags_from_score i.
Proof. flags_tac. Qed.

Lemma value_le_refl v : value_le v v.
Proof. split; [done|]. intros x x' -> [= ->]. lra. Qed.

Lemma dict_le_refl d : dict_le d d.
Proof. intros k dflt. apply value_le_refl. Qed.

Lemma dict_le_insert d k v v' :
  value_le v v' -> dict_le (<[k := v]> d) (<[k := v']> d).
Proof.
  intros Hv k' dflt. destruct (decide (k = k')) as [->|Hne].
  - by rewrite !dict_get_insert_eq.
  - rewrite !dict_get_insert_ne by done. apply value_le_refl.
Qed.

Lemma value_raise_le v v' : value_raise v v' -> value_le v v'.
Proof.
  destruct 1 as [|x x' Hx Hz]; split; simpl.
  - done.
  - intros ? ? [= <-] [= <-]. lra.
  - unfold truthy. destruct (Req_dec_T x 0), (Req_dec_T x' 0); try done.
    intros _. exfalso. by apply Hz.
  - intros ? ? [= <-] [= <-]. done.
Qed.

(** ** Monotonicity of each evaluator *)

Ltac use_le :=
  repeat match goal with
  | Hle : dict_le ?a ?a',
    E1 : num (dict_get ?a ?k ?d) = Ok ?x,
    E2 : num (dict_get ?a' ?k ?d) = Ok ?x' |- _ =>
      lazymatch goal with
      | _ : x <= x' |- _ => fail
      | _ => assert (x <= x') by (exact (proj2 (Hle k d) _ _ E1 E2))
      end
  end.

Ltac truth_cases :=
  repeat match goal with
  | |- context [truthy (dict_get ?a ?k ?d)] =>
      let T := fresh "T" in destruct (truthy (dict_get a k d)) eqn:T
  end;
  try (exfalso;
       match goal with
       | Hle : dict_le ?a ?a',
         T : truthy (dict_get ?a ?k ?d) = true,
         T' : truthy (dict_get ?a' ?k ?d) = false |- _ =>
           pose proof (proj1 (Hle k d) T); congruence
       end).

Ltac flag_cases :=
  repeat match goal with
  | |- context [if ?b then _ else _] => is_var b; destruct b
  end.

Ltac mono_tac H H' :=
  inv_eval H; inv_eval H'; simpl; split; [reflexivity|]; simpl;
  use_le; truth_cases; flag_cases; rcases; lra.

Lemma _rpt1_mono a a' i i' :
  dict_le a a' -> RPTIndicators._rpt1 a = Ok i -> RPTIndicators._rpt1 a' = Ok i' ->
  score_le i i'.
Proof. intros Hle H H'. mono_tac H H'. Qed.

Lemma _rpt2_mono a a' i i' :
  dict_le a a' -> RPTIndicators._rpt2 a = Ok i -> RPTIndicators._rpt2 a' = Ok i' ->
  score_le i i'.
Proof. intros Hle H H'. mono_tac H H'. Qed.

Lemma _gwt1_mono a a' i i' :
  dict_le a a' -> GWTIndicators._gwt1 a = Ok i -> GWTIndicators._gwt1 a' = Ok i' ->
  score_le i i'.
Proof. intros Hle H H'. mono_tac H H'. Qed.

Lemma _gwt2_mono a a' b b' i i' :
  dict_le a a' -> dict_le b b' ->
  a !! "broadcast_latency_ms" = a' !! "broadcast_latency_ms" ->
  GWTIndicators._gwt2 a b = Ok i -> GWTIndicators._gwt2 a' b' = Ok i' ->
  score_le i i'.
Proof.
  intros Hle Hle' Hlat H H'. unfold GWTIndicators._gwt2 in H, H'. rewrite Hlat in H.
  mono_tac H H'.
Qed.

Lemma _gwt3_mono a a' i i' :
  dict_le a a' -> GWTIndicators._gwt3 a = Ok i -> GWTIndicators._gwt3 a' = Ok i' ->
  score_le i i'.
Proof. intros Hle H H'. mono_tac H H'. Qed.

Lemma _hot1_mono a a' n n' i i' :
  dict_le a a' -> dict_le n n' ->
  HOTIndicators._hot1 a n = Ok i -> HOTIndicators._hot1 a' n' = Ok i' ->
  score_le i i'.
Proof. intros Hle Hle' H H'. mono_tac H H'. Qed.

Lemma _hot2_mono b b' i i' :
  dict_le b b' -> HOTIndicators._hot2 b = Ok i -> HOTIndicators._hot2 b' = Ok i' ->
  score_le i i'.
Proof. intros Hle H H'. mono_tac H H'. Qed.

Lemma _hot3_mono b b' i i' :
  dict_le b b' -> HOTIndicators._hot3 b = Ok i -> HOTIndicators._hot3 b' = Ok i' ->
  score_le i i'.
Proof. intros Hle H H'. mono_tac H H'. Qed.

Lemma _hot4_mono a a' i i' :
  dict_le a a' -> HOTIndicators._hot4 a = Ok i -> HOTIndicators._hot4 a' = Ok i' ->
  score_le i i'.
Proof. intros Hle H H'. mono_tac H H'. Qed.

Lemma _pp1_mono a a' i i' :
  dict_le a a' -> PPIndicators._pp1 a = Ok i -> PPIndicators._pp1 a' = Ok i' ->
  score_le i i'.
Proof. intros Hle H H'. mono_tac H H'. Qed.

Lemma _pp2_mono a a' n n' i i' :
  dict_le a a' -> dict_le n n' ->
  n !! "mean_prediction_error" = n' !! "mean_prediction_error" ->
  PPIndicators._pp2 a n = Ok i -> PPIndicators._pp2 a' n' = Ok i' ->
  score_le i i'.
Proof.
  intros Hle Hle' Hpe H H'. unfold PPIndicators._pp2, py_rsub in H, H'.
  rewrite (dict_get_ext n n' "mean_prediction_error" _ Hpe) in H.
  mono_tac H H'.
Qed.

Lemma _ast1_mono a a' n n' i i' :
  dict_le a a' -> dict_le n n' ->
  ASTIndicators._ast1 a n = Ok i -> ASTIndicators._ast1 a' n' = Ok i' ->
  score_le i i'.
Proof. intros Hle Hle' H H'. mono_tac H H'. Qed.

Lemma _ast2_mono b b' n n' i i' :
  dict_le b b' -> dict_le n n' ->
  ASTIndicators._ast2 b n = Ok i -> ASTIndicators._ast2 b' n' = Ok i' ->
  score_le i i'.
Proof. intros Hle Hle' H H'. mono_tac H H'. Qed.

Lemma run_battery_length fs p l : run_battery fs p = Ok l -> length l = length fs.
Proof.
  revert l. induction fs as [|f fs IH]; simpl; intros l H.
  - by injection H as <-.
  - destruct (f p); simpl in H; [|discriminate].
    destruct (run_battery fs p); simpl in H; [|discriminate].
    injection H as <-. simpl. f_equal. by apply IH.
Qed.

(** A property of every function of the battery holds of every result. *)
Lemma run_battery_Forall (P : IndicatorResult -> Prop) fs p l :
  Forall (fun f => forall i, f p = Ok i -> P i) fs ->
  run_battery fs p = Ok l -> Forall P l.
Proof.
  intros HP. revert l. induction HP as [|f fs Hf _ IH]; simpl; intros l H.
  - injection H as <-. constructor.
  - destruct (f p) eqn:Ef; simpl in H; [|discriminate].
    destruct (run_battery fs p); simpl in H; [|discriminate].
    injection H as <-. constructor; auto.
Qed.

(** A relation between the results of every function of the battery on two
    profiles holds between the two result lists, position by position. *)
Lemma run_battery_Forall2 (Q : IndicatorResult -> IndicatorResult -> Prop) fs p p' l l' :
  Forall (fun f => forall i i', f p = Ok i -> f p' = Ok i' -> Q i i') fs ->
  run_battery fs p = Ok l -> run_battery fs p' = Ok l' -> Forall2 Q l l'.
Proof.
  intros HQ. revert l l'. induction HQ as [|f fs Hf _ IH]; simpl; intros l l' H H'.
  - injection H as <-. injection H' as <-. constructor.
  - destruct (f p) eqn:Ef; simpl in H; [|discriminate].
    destruct (run_battery fs p); simpl in H; [|discriminate].
    destruct (f p') eqn:Ef'; simpl in H'; [|discriminate].
    destruct (run_battery fs p'); simpl in H'; [|discriminate].
    injection H as <-. injection H' as <-. constructor; auto.
Qed.

(** An evaluator raises nothing but [TypeError]. *)
Lemma num_raise v e : num v = Raise e -> e = TypeError.
Proof. destruct v; simpl; congruence. Qed.

Ltac raise_tac :=
  let H := fresh "H" in
  intros H; unfold_evaluators; unfold lt_or_inf in H;
  repeat match type of H with
  | context [num ?v] =>
      let E := fresh "En" in
      destruct (num v) eqn:E; simpl in H; [|apply num_raise in E; congruence]
  | context [match ?o with Some _ => _ | None => _ end] => destruct o; simpl in H
  end;
  discriminate H.

(** One goal for each function of the battery. *)
Ltac battery_cases tac :=
  unfold battery; repeat (apply List.Forall_cons; [tac|]); apply List.Forall_nil.

Lemma battery_raise p :
  Forall (fun f => forall e, f p = Raise e -> e = TypeError) battery.
Proof. battery_cases ltac:(intros e; raise_tac). Qed.

Lemma run_battery_raise fs p e :
  Forall (fun f => forall e, f p = Raise e -> e = TypeError) fs ->
  run_battery fs p = Raise e -> e = TypeError.
Proof.
  induction 1 as [|f fs Hf _ IH]; simpl; intros H; [discriminate|].
  destruct (f p) eqn:Ef; simpl in H.
  - destruct (run_battery fs p); simpl in H; [discriminate|].
    injection H as <-. by apply IH.
  - injection H as <-. by apply Hf.
Qed.

Lemma battery_flags p :
  Forall (fun f => forall i, f p = Ok i -> flags_from_score i) battery.
Proof.
  battery_cases ltac:(intros i Hi;
    eauto using _rpt1_flags, _rpt2_flags, _gwt1_flags, _gwt2_flags, _gwt3_flags,
      _hot1_flags, _hot2_flags, _hot3_flags, _hot4_flags, _pp1_flags, _pp2_flags,
      _ast1_flags, _ast2_flags).
Qed.

Lemma evaluate_all_battery p : evaluate_all p = run_battery battery p.
Proof.
  unfold evaluate_all, battery, run_battery, section_of,
    RPTIndicators.evaluate, GWTIndicators.evaluate, HOTIndicators.evaluate,
    PPIndicators.evaluate, ASTIndicators.evaluate.
  destruct (RPTIndicators._rpt1 _); [|reflexivity].
  destruct (RPTIndicators._rpt2 _); [|reflexivity].
  destruct (GWTIndicators._gwt1 _); [|reflexivity].
  destruct (GWTIndicators._gwt2 _ _); [|reflexivity].
  destruct (GWTIndicators._gwt3 _); [|reflexivity].
  destruct (HOTIndicators._hot1 _ _); [|reflexivity].
  destruct (HOTIndicators._hot2 _); [|reflexivity].
  destruct (HOTIndicators._hot3 _); [|reflexivity].
  destruct (HOTIndicators._hot4 _); [|reflexivity].
  destruct (PPIndicators._pp1 _); [|reflexivity].
  destruct (PPIndicators._pp2 _ _); [|reflexivity].
  destruct (ASTIndicators._ast1 _ _); [|reflexivity].
  destruct (ASTIndicators._ast2 _ _); reflexivity.
Qed.

Lemma num_numeric v : numeric_value v -> exists x, num v = Ok x.
Proof. destruct v; simpl; [eauto..|done]. Qed.

Lemma num_dict_get d k dflt :
  numeric_dict d -> numeric_value dflt -> exists x, num (dict_get d k dflt) = Ok x.
Proof.
  intros Hd Hdflt. apply num_numeric. unfold dict_get.
  destruct (d !! k) eqn:E; simpl; eauto.
Qed.

Lemma lt_or_inf_numeric d k c :
  numeric_dict d -> exists b, lt_or_inf (d !! k) c = Ok b.
Proof.
  intros Hd. unfold lt_or_inf. destruct (d !! k) as [v|] eqn:E; [|by eexists].
  destruct (num_numeric v (Hd _ _ E)) as [x ->]. by eexists.
Qed.

Lemma numeric_dict_empty : numeric_dict ∅.
Proof. intros k v. by rewrite lookup_empty. Qed.

Lemma numeric_dict_insert d k v :
  numeric_value v -> numeric_dict d -> numeric_dict (<[k := v]> d).
Proof.
  intros Hv Hd k' v'. destruct (decide (k = k')) as [->|Hne].
  - rewrite lookup_insert_eq. by intros [= <-].
  - rewrite lookup_insert_ne by done. apply Hd.
Qed.

Ltac total_tac :=
  unfold_evaluators;
  repeat match goal with
  | Hd : numeric_dict ?d |- context [num (dict_get ?d ?k ?dflt)] =>
      let x := fresh "x" in
      let E := fresh "E" in
      destruct (num_dict_get d k dflt Hd I) as [x E]; rewrite E; simpl
  | Hd : numeric_dict ?d |- context [lt_or_inf (?d !! ?k) ?c] =>
      let b := fresh "b" in
      let E := fresh "E" in
      destruct (lt_or_inf_numeric d k c Hd) as [b E]; rewrite E; simpl
  end;
  eexists; reflexivity.

Lemma battery_total p :
  numeric_profile p -> Forall (fun f => exists i, f p = Ok i) battery.
Proof.
  intros Hp.
  pose proof (Hp "architecture" ltac:(done)) as Ha.
  pose proof (Hp "behaviors" ltac:(done)) as Hb.
  pose proof (Hp "internal_states" ltac:(done)) as Hi.
  battery_cases total_tac.
Qed.

Lemma run_battery_total fs p :
  Forall (fun f => exists i, f p = Ok i) fs -> exists l, run_battery fs p = Ok l.
Proof.
  induction 1 as [|f fs [i Hi] _ [l Hl]]; simpl; [by eexists|].
  rewrite Hi, Hl. by eexists.
Qed.

Lemma numeric_profile_empty : numeric_profile ∅.
Proof.
  intros s _. unfold section_of. rewrite lookup_empty. apply numeric_dict_empty.
Qed.

Ltac family_tac :=
  let H := fresh "H" in
  intros H;
  unfold RPTIndicators.evaluate, GWTIndicators.evaluate, HOTIndicators.evaluate,
    PPIndicators.evaluate, ASTIndicators.evaluate in H;
  repeat match type of H with
  | context [mbind _ (?f ?a ?b)] =>
      let E := fresh "E" in destruct (f a b) eqn:E; simpl in H; [|discriminate H]
  | context [mbind _ (?f ?a)] =>
      let E := fresh "E" in destruct (f a) eqn:E; simpl in H; [|discriminate H]
  end;
  injection H as <-;
  repeat (apply List.Forall_cons;
          [eauto using _rpt1_flags, _rpt2_flags, _gwt1_flags, _gwt2_flags, _gwt3_flags,
             _hot1_flags, _hot2_flags, _hot3_flags, _hot4_flags, _pp1_flags, _pp2_flags,
             _ast1_flags, _ast2_flags|]);
  apply List.Forall_nil.

Lemma families_flags p family l :
  In family families -> family p = Ok l -> Forall flags_from_score l.
Proof.
  unfold families. simpl.
  intros [<-|[<-|[<-|[<-|[<-|[]]]]]]; family_tac.
Qed.

(** ** Counting *)

Lemma count_disjoint {A : Type} (f g : A -> bool) (l : list A) :
  (length (List.filter f l) + length (List.filter (fun x => g x && negb (f x)) l)
   <= length l)%nat.
Proof.
  induction l as [|x l IH]; simpl; [lia|].
  destruct (f x), (g x); simpl; lia.
Qed.

Lemma count_none {A : Type} (f : A -> bool) (l : list A) :
  Forall (fun x => f x = false) l -> length (List.filter f l) = 0%nat.
Proof.
  induction 1 as [|x l Hx _ IH]; simpl; [done|]. by rewrite Hx.
Qed.

(** ** The credence aggregator *)

Lemma weight_spec t : weight t = spec_weight t.
Proof.
  unfold weight, spec_weight, THEORY_WEIGHTS.
  repeat (rewrite lookup_insert; case_decide as E;
          [subst t; reflexivity|apply String.eqb_neq in E; rewrite String.eqb_sym, E; clear E]).
  rewrite lookup_singleton. case_decide as E; [subst t; reflexivity|].
  apply String.eqb_neq in E. by rewrite String.eqb_sym, E.
Qed.

Lemma spec_weight_pos t : 0 < spec_weight t.
Proof. unfold spec_weight. repeat (destruct (String.eqb t _); [lra|]). lra. Qed.

Lemma likelihood_ratio_spec a : likelihood_ratio a = spec_likelihood_ratio a.
Proof.
  unfold likelihood_ratio, spec_likelihood_ratio, LIKELIHOOD_SATISFIED,
    LIKELIHOOD_PARTIAL, LIKELIHOOD_NOT_SATISFIED.
  destruct (get_satisfied a), (get_partial a); lra.
Qed.

Lemma spec_likelihood_ratio_bounds a : 0.15 / 0.85 <= spec_likelihood_ratio a.
Proof.
  unfold spec_likelihood_ratio. destruct (get_satisfied a), (get_partial a); lra.
Qed.

Lemma llr_step_spec acc a :
  llr_step acc a =
  acc + spec_weight (get_theory a) * ln (spec_likelihood_ratio a + 1e-10).
Proof.
  unfold llr_step. fold (weight (get_theory a)). fold (likelihood_ratio a).
  by rewrite weight_spec, likelihood_ratio_spec.
Qed.

Lemma fold_llr_spec l acc :
  fold_left llr_step l acc = acc + spec_log_sum 1e-10 l.
Proof.
  revert acc. induction l as [|a l IH]; intros acc; simpl; [lra|].
  rewrite IH, llr_step_spec. lra.
Qed.

Lemma fold_bonus_spec ts acc :
  fold_left bonus_step ts acc = acc + spec_bonus ts.
Proof.
  revert acc. induction ts as [|[t s] ts IH]; intros acc; simpl; [lra|].
  rewrite IH. fold (weight t). rewrite weight_spec.
  destruct (Rgeb s 0.7); lra.
Qed.

Lemma aggregate_reference_guarded l ts :
  aggregate l ts = reference_credence 1e-10 l ts.
Proof.
  unfold aggregate, reference_credence, PRIOR_CREDENCE.
  rewrite fold_llr_spec, fold_bonus_spec.
  replace (0.0 + spec_log_sum 1e-10 l) with (spec_log_sum 1e-10 l) by lra.
  replace (0.0 + spec_bonus ts) with (spec_bonus ts) by lra.
  reflexivity.
Qed.

(** *** Odds and probabilities *)

Lemma odds_to_prob_lt x y : 0 < x -> x < y -> x / (1 + x) < y / (1 + y).
Proof.
  intros Hx Hxy.
  replace (x / (1 + x)) with (1 - / (1 + x)) by (field; lra).
  replace (y / (1 + y)) with (1 - / (1 + y)) by (field; lra).
  assert (/ (1 + y) < / (1 + x)); [|lra].
  apply Rinv_lt_contravar; [|lra]. apply Rmult_lt_0_compat; lra.
Qed.

Lemma odds_to_prob_bounds x : 0 < x -> 0 < x / (1 + x) < 1.
Proof.
  intros Hx. split.
  - apply Rdiv_lt_0_compat; lra.
  - apply (Rmult_lt_reg_r (1 + x)); [lra|]. field_simplify; lra.
Qed.

Lemma posterior_lt s s' : s < s' -> posterior s < posterior s'.
Proof.
  intros Hs. unfold posterior, PRIOR_CREDENCE. cbv zeta.
  pose proof (exp_pos s). pose proof (exp_increasing _ _ Hs).
  apply odds_to_prob_lt; nra.
Qed.

Lemma posterior_le s s' : s <= s' -> posterior s <= posterior s'.
Proof.
  intros [Hs| ->]; [|lra]. left. by apply posterior_lt.
Qed.

Lemma posterior_bounds s : 0 < posterior s < 1.
Proof.
  unfold posterior, PRIOR_CREDENCE. cbv zeta. pose proof (exp_pos s).
  apply odds_to_prob_bounds. nra.
Qed.

Lemma posterior_0 : posterior 0 = 0.05.
Proof. unfold posterior, PRIOR_CREDENCE. cbv zeta. rewrite exp_0. field; lra. Qed.

Lemma spec_bonus_nonneg ts : 0 <= spec_bonus ts.
Proof.
  induction ts as [|[t s] ts IH]; simpl; [lra|].
  pose proof (spec_weight_pos t). destruct (Rgeb s 0.7); lra.
Qed.

Lemma aggregate_posterior l ts :
  aggregate l ts = Rmin 0.99 (posterior (spec_log_sum 1e-10 l) + spec_bonus ts).
Proof. by rewrite aggregate_reference_guarded. Qed.

(** The credence is a probability that is never 0 and at most 0.99. *)
Lemma aggregate_bounds l ts : 0 < aggregate l ts <= 0.99.
Proof.
  rewrite aggregate_posterior.
  pose proof (posterior_bounds (spec_log_sum 1e-10 l)).
  pose proof (spec_bonus_nonneg ts).
  unfold Rmin. destruct (Rle_dec _ _); lra.
Qed.

(** *** Replacing one indicator by its mock *)

Lemma ln_le_compat x y : 0 < x -> x <= y -> ln x <= ln y.
Proof. intros Hx [Hxy| ->]; [|lra]. left. by apply ln_increasing. Qed.

Lemma mock_term_le eps a :
  0 <= eps ->
  spec_weight (get_theory (Mock (MockIndicator_init a)))
    * ln (spec_likelihood_ratio (Mock (MockIndicator_init a)) + eps)
  <= spec_weight (get_theory a) * ln (spec_likelihood_ratio a + eps).
Proof.
  intros Heps. simpl get_theory.
  pose proof (spec_weight_pos (get_theory a)).
  pose proof (spec_likelihood_ratio_bounds a).
  apply Rmult_le_compat_l; [lra|].
  apply ln_le_compat; unfold spec_likelihood_ratio in *; simpl;
    destruct (get_satisfied a), (get_partial a); lra.
Qed.

Lemma spec_log_sum_mock eps l i a :
  0 <= eps -> l !! i = Some a ->
  spec_log_sum eps (<[i := Mock (MockIndicator_init a)]> l) <= spec_log_sum eps l.
Proof.
  intros Heps. revert i. induction l as [|b l IH]; intros [|i] Hi; simpl in *; try done.
  - injection Hi as ->. pose proof (mock_term_le eps a Heps). simpl in *. lra.
  - specialize (IH i Hi). lra.
Qed.

Lemma aggregate_mock_le l ts i a :
  l !! i = Some a ->
  aggregate (<[i := Mock (MockIndicator_init a)]> l) ts <= aggregate l ts.
Proof.
  intros Hi. rewrite !aggregate_posterior.
  apply Rle_min_compat_l, Rplus_le_compat_r, posterior_le.
  apply spec_log_sum_mock; [lra|done].
Qed.

Lemma enumerate_lookup {A : Type} (l : list A) i a :
  In (i, a) (enumerate l) -> l !! i = Some a.
Proof.
  unfold enumerate. rewrite <- list_elem_of_In. intros H.
  apply elem_of_lookup_imap_1 in H as (j & b & [= -> ->] & Hj). done.
Qed.

Lemma sensitivity_fold_nonneg l ts items (m : gmap string R) :
  (forall i a, In (i, a) items -> l !! i = Some a) ->
  (forall k v, m !! k = Some v -> 0 <= v) ->
  forall k v,
    fold_left
      (fun (contributions : gmap string R) (item : nat * indicator_like) =>
         let '(i, indicator) := item in
         let modified := <[i := Mock (MockIndicator_init indicator)]> l in
         let reduced_credence := aggregate modified ts in
         <[get_indicator_id indicator := aggregate l ts - reduced_credence]> contributions)
      items m !! k = Some v ->
    0 <= v.
Proof.
  revert m. induction items as [|[i a] items IH]; intros m Hitems Hm k v; simpl.
  - apply Hm.
  - apply IH.
    + intros j b Hjb. apply Hitems. by right.
    + intros k' v'. destruct (decide (get_indicator_id a = k')) as [->|Hne].
      * rewrite lookup_insert_eq. intros [= <-].
        pose proof (aggregate_mock_le l ts i a (Hitems i a (or_introl eq_refl))). lra.
      * rewrite lookup_insert_ne by done. apply Hm.
Qed.

(** C9.  Every contribution that [sensitivity_analysis] returns is
    non-negative: the counterfactual run keeps the theory scores, hence the
    bonus, and replaces one term of the weighted sum by a term that is no
    larger. *)
Theorem sensitivity_contributions_nonneg (l : list indicator_like)
    (ts : list (string * R)) (k : string) (v : R) :
  sensitivity_analysis l ts !! k = Some v -> 0 <= v.
Proof.
  unfold sensitivity_analysis. cbv zeta.
  apply sensitivity_fold_nonneg.
  - apply enumerate_lookup.
  - intros k' v'. by rewrite lookup_empty.
Qed.

(** *** The reference definition without the guard *)

(** C1, as stated, fails: for a single RPT indicator that is neither
    satisfied nor partial and no theory scores, [aggregate] differs from the
    reference definition that takes the logarithm of the bare likelihood
    ratio. *)
Lemma aggregate_ne_reference :
  aggregate [unsatisfied_rpt] [] <> reference_credence 0 [unsatisfied_rpt] [].
Proof.
  rewrite aggregate_posterior.
  change (reference_credence 0 [unsatisfied_rpt] [])
    with (Rmin 0.99 (posterior (spec_log_sum 0 [unsatisfied_rpt]) + spec_bonus [])).
  simpl spec_bonus.
  assert (Hlt : spec_log_sum 0 [unsatisfied_rpt] < spec_log_sum 1e-10 [unsatisfied_rpt]).
  { simpl. unfold spec_likelihood_ratio, spec_weight. simpl.
    assert (ln (0.15 / 0.85 + 0) < ln (0.15 / 0.85 + 1e-10)); [|lra].
    apply ln_increasing; lra. }
  assert (Hneg : spec_log_sum 1e-10 [unsatisfied_rpt] < 0).
  { simpl. unfold spec_likelihood_ratio, spec_weight. simpl.
    assert (ln (0.15 / 0.85 + 1e-10) < 0); [|lra].
    rewrite <- ln_1. apply ln_increasing; lra. }
  pose proof (posterior_lt _ _ Hlt).
  pose proof (posterior_lt _ _ Hneg) as H0. rewrite posterior_0 in H0.
  unfold Rmin. repeat destruct (Rle_dec _ _); lra.
Qed.

(** C1, as amended.  [aggregate] equals the reference definition in which
    the logarithm is taken of the likelihood ratio plus 1e-10. *)
Theorem aggregate_equals_guarded_reference (l : list indicator_like)
    (ts : list (string * R)) :
  aggregate l ts = reference_credence 1e-10 l ts.
Proof. apply aggregate_reference_guarded. Qed.

(** ** Running the battery on a closed profile *)

Lemma run_battery_cons f fs p l :
  run_battery (f :: fs) p = Ok l ->
  exists i l', l = i :: l' /\ f p = Ok i /\ run_battery fs p = Ok l'.
Proof.
  simpl. destruct (f p) as [i|]; simpl; [|discriminate].
  destruct (run_battery fs p) as [l'|]; simpl; [|discriminate].
  intros [= <-]. eauto.
Qed.

Ltac unfold_evaluators_in H :=
  unfold RPTIndicators._rpt1, RPTIndicators._rpt2,
    GWTIndicators._gwt1, GWTIndicators._gwt2, GWTIndicators._gwt3,
    HOTIndicators._hot1, HOTIndicators._hot2, HOTIndicators._hot3, HOTIndicators._hot4,
    PPIndicators._pp1, PPIndicators._pp2, ASTIndicators._ast1, ASTIndicators._ast2,
    py_div, py_mul, py_rsub in H.

Lemma fold_insert_lookup {V : Type} (items : list (string * V)) (m : gmap string V) k :
  fold_left (fun d kv => <[fst kv := snd kv]> d) items m !! k =
  match assoc_last items k with
  | Some v => Some v
  | None => m !! k
  end.
Proof.
  revert m. induction items as [|[k' v] items IH]; intros m; simpl; [done|].
  rewrite IH. destruct (assoc_last items k); [done|].
  destruct (String.eqb k' k) eqn:E.
  - apply String.eqb_eq in E as ->. by rewrite lookup_insert_eq.
  - apply String.eqb_neq in E. by rewrite lookup_insert_ne.
Qed.

Lemma dict_literal_lookup {V : Type} (items : list (string * V)) k :
  dict_literal items !! k = assoc_last items k.
Proof.
  unfold dict_literal. rewrite fold_insert_lookup, lookup_empty.
  by destruct (assoc_last items k).
Qed.

(** Evaluate every read of a dictionary given by its items. *)
Ltac eval_reads H :=
  cbv beta in H; unfold section_of, dict_get in H;
  repeat first
    [ rewrite dict_literal_lookup in H
    | rewrite lookup_empty in H
    | progress cbv [assoc_last fst snd String.eqb Ascii.eqb Bool.eqb andb
                    from_option Datatypes.id] in H ].

(** From [H : evaluator ... = Ok i] on such a profile: [i] is the record. *)
Ltac run_closed H :=
  unfold_evaluators_in H; eval_reads H; simpl in H; injection H as <-.

Lemma run_battery_ids p l :
  run_battery battery p = Ok l ->
  map (fun i => (indicator_id i, theory i)) l = battery_ids.
Proof.
  intros H. unfold battery in H.
  repeat (let Hf := fresh "Hf" in
          apply run_battery_cons in H as (? & ? & -> & Hf & H);
          cbv beta in Hf; inv_eval Hf).
  injection H as <-. reflexivity.
Qed.

Lemma filter_theory_cons_eq i l t :
  theory i = t ->
  filter (fun i => theory i = t) (i :: l) = i :: filter (fun i => theory i = t) l.
Proof. intros. rewrite filter_cons. by case_decide. Qed.

Lemma filter_theory_cons_ne i l t :
  theory i <> t ->
  filter (fun i => theory i = t) (i :: l) = filter (fun i => theory i = t) l.
Proof. intros. rewrite filter_cons. by case_decide. Qed.

(** The RPT mean is the mean of the first two results. *)
Lemma theory_score_rpt i1 i2 l :
  map (fun i => (indicator_id i, theory i)) (i1 :: i2 :: l) = battery_ids ->
  theory_score (i1 :: i2 :: l) "RPT" = (0 + score i1 + score i2) / 2.
Proof.
  intros Hids. unfold battery_ids in Hids. simpl in Hids.
  injection Hids as ? ? ? ? Hids.
  unfold theory_score. rewrite !filter_theory_cons_eq by done.
  replace (filter _ l) with (@nil IndicatorResult).
  - unfold py_sum. simpl. lra.
  - symmetry.
    repeat (destruct l as [|? l]; [discriminate|];
            injection Hids as ? ? Hids;
            rewrite filter_theory_cons_ne by congruence).
    destruct l; [done|discriminate].
Qed.

Lemma numeric_dict_fold items d :
  numeric_dict d -> Forall (fun kv => numeric_value (snd kv)) items ->
  numeric_dict (fold_left (fun d kv => <[fst kv := snd kv]> d) items d).
Proof.
  intros Hd Hitems. revert d Hd.
  induction Hitems as [|kv items Hkv _ IH]; intros d Hd; simpl; [done|].
  apply IH. by apply numeric_dict_insert.
Qed.

Lemma numeric_dict_literal items :
  Forall (fun kv => numeric_value (snd kv)) items -> numeric_dict (dict_literal items).
Proof. apply numeric_dict_fold, numeric_dict_empty. Qed.

Lemma numeric_profile_insert p s d :
  s = "metadata" \/ numeric_dict d -> numeric_profile p ->
  numeric_profile (<[s := d]> p).
Proof.
  intros Hd Hp s' Hs'. unfold section_of. destruct (decide (s = s')) as [->|Hne].
  - rewrite lookup_insert_eq. by destruct Hd.
  - rewrite lookup_insert_ne by done. by apply Hp.
Qed.

Lemma numeric_profile_fold sections p :
  numeric_profile p ->
  Forall (fun kv => fst kv = "metadata" \/ numeric_dict (snd kv)) sections ->
  numeric_profile (fold_left (fun d kv => <[fst kv := snd kv]> d) sections p).
Proof.
  intros Hp Hs. revert p Hp.
  induction Hs as [|kv sections Hkv _ IH]; intros p Hp; simpl; [done|].
  apply IH. by apply numeric_profile_insert.
Qed.

Lemma numeric_profile_literal sections :
  Forall (fun kv => fst kv = "metadata" \/ numeric_dict (snd kv)) sections ->
  numeric_profile (dict_literal sections).
Proof. apply numeric_profile_fold, numeric_profile_empty. Qed.

(** A profile literal whose scored sections are literals of booleans and
    numbers. *)
Ltac numeric_tac :=
  apply numeric_profile_literal;
  repeat (apply List.Forall_cons;
          [first [ left; reflexivity
                 | right; apply numeric_dict_literal;
                   repeat (apply List.Forall_cons; [exact I|]); apply List.Forall_nil ]|]);
  apply List.Forall_nil.

Lemma numeric_recurrent_profile : numeric_profile recurrent_profile.
Proof. unfold recurrent_profile. numeric_tac. Qed.

Lemma numeric_negative_depth_profile : numeric_profile negative_depth_profile.
Proof. unfold negative_depth_profile. numeric_tac. Qed.

Lemma numeric_explicit_defaults latency : numeric_profile (explicit_defaults latency).
Proof. unfold explicit_defaults. numeric_tac. Qed.

Lemma numeric_reference_profiles :
  Forall (fun kv => numeric_profile (snd kv)) REFERENCE_PROFILES.
Proof.
  unfold REFERENCE_PROFILES, profile_ORION_Active_Inference, profile_GPT_4,
    profile_C_elegans_302_neurons, profile_Thermostat.
  repeat (apply List.Forall_cons; [cbn [snd]; numeric_tac|]). apply List.Forall_nil.
Qed.

(** ** Monotonicity of the battery *)

Lemma section_of_set_field_eq p sec key v :
  section_of (set_field p sec key v) sec = <[key := v]> (section_of p sec).
Proof. unfold set_field, section_of at 1. by rewrite lookup_insert_eq. Qed.

Lemma section_of_set_field_ne p sec key v s :
  sec ≠ s -> section_of (set_field p sec key v) s = section_of p s.
Proof. intros. unfold set_field, section_of at 1 3. by rewrite lookup_insert_ne. Qed.

Lemma set_field_dict_le p sec key v v' s :
  value_le v v' ->
  dict_le (section_of (set_field p sec key v) s) (section_of (set_field p sec key v') s).
Proof.
  intros Hv. destruct (decide (sec = s)) as [<-|Hne].
  - rewrite !section_of_set_field_eq. by apply dict_le_insert.
  - rewrite !section_of_set_field_ne by done. apply dict_le_refl.
Qed.

Lemma set_field_lookup_other p sec key v v' s k :
  (sec, key) ≠ (s, k) ->
  section_of (set_field p sec key v) s !! k = section_of (set_field p sec key v') s !! k.
Proof.
  intros Hne. destruct (decide (sec = s)) as [<-|Hs].
  - rewrite !section_of_set_field_eq.
    rewrite !lookup_insert_ne; [done|congruence..].
  - by rewrite !section_of_set_field_ne.
Qed.

Lemma battery_mono p sec key v v' :
  (sec, key) ≠ ("architecture", "broadcast_latency_ms") ->
  (sec, key) ≠ ("internal_states", "mean_prediction_error") ->
  value_le v v' ->
  Forall (fun f => forall i i',
            f (set_field p sec key v) = Ok i -> f (set_field p sec key v') = Ok i' ->
            score_le i i') battery.
Proof.
  intros Hlat Hpe Hv.
  pose proof (set_field_dict_le p sec key v v' "architecture" Hv) as Ha.
  pose proof (set_field_dict_le p sec key v v' "behaviors" Hv) as Hb.
  pose proof (set_field_dict_le p sec key v v' "internal_states" Hv) as Hi.
  pose proof (set_field_lookup_other p sec key v v' _ _ Hlat) as Hlat'.
  pose proof (set_field_lookup_other p sec key v v' _ _ Hpe) as Hpe'.
  battery_cases ltac:(intros i i' H H';
    eauto using _rpt1_mono, _rpt2_mono, _gwt1_mono, _gwt2_mono, _gwt3_mono,
      _hot1_mono, _hot2_mono, _hot3_mono, _hot4_mono, _pp1_mono, _pp2_mono,
      _ast1_mono, _ast2_mono).
Qed.

(** ** Sorting the keys *)

Lemma key_le_total k k' : String.leb k k' = false -> key_le k' k.
Proof.
  intros H. unfold key_le. destruct (String.leb_total k k') as [H'|H']; congruence.
Qed.

Lemma insert_item_HdRel a kv l :
  HdRel key_le a (map fst l) -> key_le a (fst kv) ->
  HdRel key_le a (map fst (insert_item kv l)).
Proof.
  destruct l as [|kv' l]; simpl; intros Hl Ha; [by constructor|].
  destruct (String.leb (fst kv) (fst kv')); simpl; constructor; [done|].
  by apply HdRel_inv in Hl.
Qed.

Lemma insert_item_sorted kv l :
  Sorted key_le (map fst l) -> Sorted key_le (map fst (insert_item kv l)).
Proof.
  induction l as [|kv' l IH]; simpl; intros Hl.
  - repeat constructor.
  - apply Sorted_inv in Hl as [Hl Hhd].
    destruct (String.leb (fst kv) (fst kv')) eqn:E; simpl.
    + constructor; [by constructor|]. by constructor.
    + constructor; [by apply IH|].
      apply insert_item_HdRel; [done|]. by apply key_le_total.
Qed.

Lemma sort_items_sorted l : Sorted key_le (map fst (sort_items l)).
Proof.
  induction l as [|kv l IH]; simpl; [constructor|]. by apply insert_item_sorted.
Qed.

(** Whatever the dictionary, its keys are printed in order. *)
Lemma sort_keys_sorted items : Sorted key_le (object_keys (sort_keys (JObject items))).
Proof. simpl. apply sort_items_sorted. Qed.

(** ** The empty profile *)

Lemma Rltb_ge x y : y <= x -> Rltb x y = false.
Proof. intros H. unfold Rltb. destruct (Rlt_dec x y); [lra|done]. Qed.

Ltac detail_tac :=
  repeat (apply List.Forall_cons;
          [unfold default_detail; cbn [snd];
           first [ left; reflexivity
                 | right; left; reflexivity
                 | right; right; left; reflexivity
                 | right; right; right; reflexivity ]|]);
  apply List.Forall_nil.

Lemma battery_empty :
  Forall (fun f => forall i, f ∅ = Ok i ->
            score i = 0 /\ satisfied i = false /\ partial i = false
            /\ Forall default_detail (details i)) battery.
Proof.
  battery_cases ltac:(intros i H; run_closed H; cbn [score satisfied partial details];
    split; [|split; [|split]]; [rcases; lra..|detail_tac]).
Qed.

(** Absent fields and fields spelled out with their defaults score alike;
    for the latency, any value of at least 100 does. *)
Lemma battery_explicit_defaults latency :
  100 <= latency ->
  Forall (fun f => forall i i',
            f (explicit_defaults latency) = Ok i -> f ∅ = Ok i' -> i = i') battery.
Proof.
  intros Hlat.
  battery_cases ltac:(intros i i' H H'; unfold explicit_defaults in H;
    run_closed H; run_closed H'; rewrite ?Rltb_ge by lra; reflexivity).
Qed.

Lemma Forall2_eq_eq {A : Type} (l l' : list A) : Forall2 eq l l' -> l = l'.
Proof. induction 1; congruence. Qed.

(** ** The catalog *)

Lemma dict_getitem_contains {V : Type} (d : list (string * V)) k :
  dict_contains d k = true ->
  exists v, dict_getitem d k = Ok v /\ In (k, v) d.
Proof.
  unfold dict_contains, dict_getitem.
  induction d as [|[k' v'] d IH]; simpl; [discriminate|].
  rewrite String.eqb_sym. destruct (String.eqb k' k) eqn:E; simpl.
  - apply String.eqb_eq in E as ->. intros _. exists v'. split; [done|by left].
  - intros H. destruct (IH H) as (v & Hv & Hin). exists v. split; [done|by right].
Qed.


Lemma dict_contains_In {V : Type} (d : list (string * V)) k :
  dict_contains d k = true <-> In k (map fst d).
Proof.
  unfold dict_contains. rewrite existsb_exists. split.
  - intros (k' & Hin & Hk). apply String.eqb_eq in Hk. by subst.
  - intros Hin. exists k. split; [done|apply String.eqb_refl].
Qed.

(** A key of the dictionary is found, with the value stored under it. *)
Lemma dict_find_key {V : Type} (d : list (string * V)) k :
  In k (map fst d) ->
  exists v, List.find (fun kv => String.eqb (fst kv) k) d = Some (k, v)
            /\ dict_getitem d k = Ok v /\ In (k, v) d.
Proof.
  unfold dict_getitem. induction d as [|[k' v'] d IH]; simpl; [done|].
  destruct (String.eqb k' k) eqn:E.
  - apply String.eqb_eq in E as ->. intros _. exists v'. auto.
  - intros [Hk|Hin]; [subst; rewrite String.eqb_refl in E; discriminate|].
    destruct (IH Hin) as (v & Hf & Hg & Hi). exists v. auto.
Qed.

(** ** The engine *)

Section EngineFacts.

Variable json_encode : json -> string.
Variable sha256_hexdigest : string -> string.


(** What a successful call of [assess] returns, field by field. *)
Lemma assess_inv self p now r e' :
  assess json_encode sha256_hexdigest self p now = Ok (r, e') ->
  run_battery battery p = Ok (indicators r)
  /\ satisfied_count r = length (List.filter (fun i => satisfied i) (indicators r))
  /\ partial_count r =
       length (List.filter (fun i => partial i && negb (satisfied i)) (indicators r))
  /\ total_indicators r = length (indicators r)
  /\ theory_scores r = map (fun t => (t, theory_score (indicators r) t)) THEORIES
  /\ credence r =
       BayesianCredenceAggregator.aggregate (map Real (indicators r)) (theory_scores r)
  /\ proof_hash r =
       make_proof_hash sha256_hexdigest
         (json_dumps_sorted json_encode
            (proof_record (dict_get (section_of p "metadata") "name" (VStr "unknown"))
               (credence r) (satisfied_count r) (partial_count r) (theory_scores r)
               (prev_hash (history self))))
  /\ timestamp r = now
  /\ e' = {| history := (history self ++ [r])%list |}.
Proof.
  rewrite <- evaluate_all_battery. unfold assess, evaluate_all.
  destruct (RPTIndicators.evaluate p) as [rpt|]; [|discriminate].
  destruct (GWTIndicators.evaluate p) as [gwt|]; [|discriminate].
  destruct (HOTIndicators.evaluate p) as [hot|]; [|discriminate].
  destruct (PPIndicators.evaluate p) as [pp|]; [|discriminate].
  destruct (ASTIndicators.evaluate p) as [ast|]; [|discriminate].
  intros [= <- <-]. repeat split.
Qed.

(** [assess] succeeds exactly when the battery does. *)
Lemma assess_ok self p now l :
  run_battery battery p = Ok l ->
  exists r e', assess json_encode sha256_hexdigest self p now = Ok (r, e') /\ indicators r = l.
Proof.
  rewrite <- evaluate_all_battery. unfold assess, evaluate_all.
  destruct (RPTIndicators.evaluate p) as [rpt|]; [|discriminate].
  destruct (GWTIndicators.evaluate p) as [gwt|]; [|discriminate].
  destruct (HOTIndicators.evaluate p) as [hot|]; [|discriminate].
  destruct (PPIndicators.evaluate p) as [pp|]; [|discriminate].
  destruct (ASTIndicators.evaluate p) as [ast|]; [|discriminate].
  intros [= <-]. eexists _, _. split; reflexivity.
Qed.

Lemma assess_raise self p now e :
  assess json_encode sha256_hexdigest self p now = Raise e -> e = TypeError.
Proof.
  intros H. apply (run_battery_raise battery p); [apply battery_raise|].
  rewrite <- evaluate_all_battery. revert H. unfold assess, evaluate_all.
  destruct (RPTIndicators.evaluate p) as [rpt|]; [|simpl; congruence].
  destruct (GWTIndicators.evaluate p) as [gwt|]; [|simpl; congruence].
  destruct (HOTIndicators.evaluate p) as [hot|]; [|simpl; congruence].
  destruct (PPIndicators.evaluate p) as [pp|]; [|simpl; congruence].
  destruct (ASTIndicators.evaluate p) as [ast|]; [|simpl; congruence].
  discriminate.
Qed.

Lemma assess_total self p now :
  numeric_profile p -> exists r e', assess json_encode sha256_hexdigest self p now = Ok (r, e').
Proof.
  intros Hp. destruct (run_battery_total battery p (battery_total p Hp)) as [l Hl].
  destruct (assess_ok self p now l Hl) as (r & e' & H & _).
  eauto.
Qed.

(** Scores are at most 1 and the credence lies in (0, 0.99]. *)
Lemma assess_upper_bounds self p now r e' :
  assess json_encode sha256_hexdigest self p now = Ok (r, e') ->
  Forall (fun i => score i <= 1) (indicators r) /\ 0 < credence r <= 0.99.
Proof.
  intros H. apply assess_inv in H as (Hb & _ & _ & _ & _ & Hc & _). split.
  - eapply Forall_impl; [eapply run_battery_Forall; [apply battery_flags|exact Hb]|].
    by intros i (_ & _ & Hi).
  - rewrite Hc. apply aggregate_bounds.
Qed.

(** C10. Every result built by one of the five families is partial
    whenever it is satisfied, both flags being thresholds (0.7 and 0.3) of
    the same score; hence, in every assessment, the count of results that
    are partial but not satisfied is at most 14 minus the count of satisfied
    ones, and the two counts together are at most [total_indicators]. *)
Theorem satisfied_implies_partial self p now r e' :
  assess json_encode sha256_hexdigest self p now = Ok (r, e') ->
  (forall family l, In family families -> family p = Ok l ->
     Forall (fun i => satisfied i = true -> partial i = true) l)
  /\ Forall (fun i => satisfied i = true -> partial i = true) (indicators r)
  /\ (partial_count r <= 14 - satisfied_count r)%nat
  /\ (satisfied_count r + partial_count r <= total_indicators r)%nat.
Proof.
  intros H. apply assess_inv in H as (Hb & Hs & Hp & Ht & _).
  pose proof (run_battery_length _ _ _ Hb) as Hlen. simpl in Hlen.
  pose proof (count_disjoint (fun i => satisfied i) (fun i => partial i) (indicators r)) as Hc.
  split; [|split; [|split]].
  - intros family l Hin Hl. eapply Forall_impl; [by eapply families_flags|].
    apply flags_satisfied_partial.
  - eapply Forall_impl; [eapply run_battery_Forall; [apply battery_flags|exact Hb]|].
    apply flags_satisfied_partial.
  - rewrite Hs, Hp. lia.
  - rewrite Hs, Hp, Ht. lia.
Qed.

(** C6. For the profile whose architecture is exactly
    [{has_recurrent_connections: true, recurrence_depth: 10,
    feedback_loop_count: 5}], the first result of [assess] is RPT-1, its
    score is 0.4 + min(10/10, 0.3) + min(5/5, 0.3) = 1, and it is
    satisfied. *)
Theorem rpt1_scenario self now :
  exists r e' i,
    assess json_encode sha256_hexdigest self recurrent_profile now = Ok (r, e')
    /\ indicators r !! 0%nat = Some i
    /\ indicator_id i = "RPT-1"
    /\ score i = 0.4 + Rmin (10 / 10) 0.3 + Rmin (5 / 5) 0.3
    /\ score i = 1
    /\ satisfied i = true.
Proof.
  destruct (run_battery_total battery _ (battery_total _ numeric_recurrent_profile))
    as [l Hl].
  destruct (assess_ok self _ now l Hl) as (r & e' & H & Hr).
  exists r, e'. unfold battery in Hl.
  apply run_battery_cons in Hl as (i & l' & -> & Hi & _).
  exists i. unfold recurrent_profile in Hi. run_closed Hi.
  rewrite Hr. simpl. repeat split; try done; rcases; lra.
Qed.

(** C2, at the failing input.  With [recurrence_depth = -100] and nothing
    else, [assess] returns normally; RPT-1 has score -10 and the RPT theory
    score is -5, both below 0.  The credence stays within (0, 0.99]. *)
Theorem negative_depth_scores self now :
  exists r e' i,
    assess json_encode sha256_hexdigest self negative_depth_profile now = Ok (r, e')
    /\ indicators r !! 0%nat = Some i
    /\ indicator_id i = "RPT-1"
    /\ score i = -10
    /\ Exists (fun ts => fst ts = "RPT" /\ snd ts = -5) (theory_scores r)
    /\ 0 < credence r <= 0.99.
Proof.
  destruct (run_battery_total battery _ (battery_total _ numeric_negative_depth_profile))
    as [l Hl].
  destruct (assess_ok self _ now l Hl) as (r & e' & H & Hr).
  exists r, e'.
  pose proof (assess_upper_bounds _ _ _ _ _ H) as [_ Hc].
  pose proof (assess_inv _ _ _ _ _ H) as (_ & _ & _ & _ & Hts & _).
  pose proof (run_battery_ids _ _ Hl) as Hids. unfold battery in Hl.
  apply run_battery_cons in Hl as (i1 & l1 & -> & H1 & Hl).
  apply run_battery_cons in Hl as (i2 & l2 & -> & H2 & _).
  exists i1. rewrite Hts, Hr. unfold THEORIES. simpl map.
  rewrite (theory_score_rpt _ _ _ Hids). clear Hids Hts Hr.
  unfold negative_depth_profile in H1, H2. run_closed H1. run_closed H2.
  simpl. repeat split; try done; try lra.
  - rcases; lra.
  - apply Exists_cons_hd. simpl. split; [done|]. rcases; lra.
Qed.


(** C7, as amended.  On the empty profile [assess] raises nothing; every
    result has score 0 and is neither satisfied nor partial, so both counts
    are 0; the raw values recorded are false, 0, or the 1.0 of
    [mean_prediction_error]; and the results are those of the profile that
    spells out every flag as false, every number as 0,
    [mean_prediction_error] as 1.0 and [broadcast_latency_ms] as any value
    of at least 100. *)
Theorem empty_profile_assessment self now :
  exists r e',
    assess json_encode sha256_hexdigest self ∅ now = Ok (r, e')
    /\ Forall (fun i => score i = 0 /\ satisfied i = false /\ partial i = false
                        /\ Forall default_detail (details i)) (indicators r)
    /\ satisfied_count r = 0%nat
    /\ partial_count r = 0%nat
    /\ (forall latency, 100 <= latency ->
          exists r' e'',
            assess json_encode sha256_hexdigest self (explicit_defaults latency) now = Ok (r', e'')
            /\ indicators r' = indicators r).
Proof.
  destruct (assess_total self ∅ now numeric_profile_empty) as (r & e' & H).
  exists r, e'. split; [done|].
  pose proof (assess_inv _ _ _ _ _ H) as (Hb & Hs & Hp & _).
  pose proof (run_battery_Forall _ _ _ _ battery_empty Hb) as Hall.
  split; [done|]. split; [|split].
  - rewrite Hs. apply count_none.
    eapply Forall_impl; [exact Hall|]. by intros i (_ & -> & _).
  - rewrite Hp. apply count_none.
    eapply Forall_impl; [exact Hall|]. by intros i (_ & -> & -> & _).
  - intros latency Hlat.
    destruct (assess_total self _ now (numeric_explicit_defaults latency))
      as (r' & e'' & H').
    exists r', e''. split; [done|].
    pose proof (assess_inv _ _ _ _ _ H') as (Hb' & _).
    apply Forall2_eq_eq.
    exact (run_battery_Forall2 _ _ _ _ _ _ (battery_explicit_defaults latency Hlat) Hb' Hb).
Qed.

(** C3, as amended.  Set one field of a profile to [v] and then to a raised
    [v'] (a flag from false to true, or a number to a number that is no
    smaller and not zero unless [v] was).  Unless the field is
    [broadcast_latency_ms] of the architecture or [mean_prediction_error] of
    the internal states, every indicator scores at least as much on the
    second profile as on the first. *)
Theorem raising_a_field_never_lowers_a_score p sec key v v' self now r e1 r' e2 :
  (sec, key) ≠ ("architecture", "broadcast_latency_ms") ->
  (sec, key) ≠ ("internal_states", "mean_prediction_error") ->
  value_raise v v' ->
  assess json_encode sha256_hexdigest self (set_field p sec key v) now = Ok (r, e1) ->
  assess json_encode sha256_hexdigest self (set_field p sec key v') now = Ok (r', e2) ->
  Forall2 score_le (indicators r) (indicators r').
Proof.
  intros Hlat Hpe Hv H H'.
  apply assess_inv in H as (Hb & _). apply assess_inv in H' as (Hb' & _).
  eapply run_battery_Forall2; [|exact Hb|exact Hb'].
  apply battery_mono; [done..|]. by apply value_raise_le.
Qed.

(** C5.  Two calls of [assess] on engines with the same history and with
    the same profile agree on the indicators (scores and both flags
    included), on the two counts, on the theory scores, on the credence and
    on the proof hash; the clock reading is all that may differ. *)
Theorem assess_deterministic self1 self2 p now1 now2 r1 e1 r2 e2 :
  history self1 = history self2 ->
  assess json_encode sha256_hexdigest self1 p now1 = Ok (r1, e1) ->
  assess json_encode sha256_hexdigest self2 p now2 = Ok (r2, e2) ->
  indicators r1 = indicators r2
  /\ map score (indicators r1) = map score (indicators r2)
  /\ map satisfied (indicators r1) = map satisfied (indicators r2)
  /\ map partial (indicators r1) = map partial (indicators r2)
  /\ theory_scores r1 = theory_scores r2
  /\ credence r1 = credence r2
  /\ satisfied_count r1 = satisfied_count r2
  /\ partial_count r1 = partial_count r2
  /\ total_indicators r1 = total_indicators r2
  /\ proof_hash r1 = proof_hash r2.
Proof.
  intros Hh H1 H2.
  apply assess_inv in H1 as (Hb1 & Hs1 & Hp1 & Ht1 & Hts1 & Hc1 & Hph1 & _).
  apply assess_inv in H2 as (Hb2 & Hs2 & Hp2 & Ht2 & Hts2 & Hc2 & Hph2 & _).
  assert (Hi : indicators r1 = indicators r2) by congruence.
  assert (Hts : theory_scores r1 = theory_scores r2) by (by rewrite Hts1, Hts2, Hi).
  assert (Hc : credence r1 = credence r2) by (by rewrite Hc1, Hc2, Hi, Hts).
  assert (Hs : satisfied_count r1 = satisfied_count r2) by (by rewrite Hs1, Hs2, Hi).
  assert (Hp : partial_count r1 = partial_count r2) by (by rewrite Hp1, Hp2, Hi).
  assert (Hph : proof_hash r1 = proof_hash r2)
    by (by rewrite Hph1, Hph2, Hc, Hs, Hp, Hts, Hh).
  rewrite Hi. repeat split; try done. by rewrite Ht1, Ht2, Hi.
Qed.

(** C4.  Whatever the history of the engine, a successful call of [assess]
    hashes the record whose [prev] field is ["GENESIS"] when the history is
    empty (the first call) and the proof hash of the last history entry
    otherwise (every later call); the record is printed with its keys in
    order, at both levels; the proof string is ["sha256:"] followed by the
    first 32 characters of the hexadecimal digest of the printed bytes; and
    the result is appended to the history. *)
Theorem proof_hash_chained self p now r e' :
  assess json_encode sha256_hexdigest self p now = Ok (r, e') ->
  let record :=
    proof_record (dict_get (section_of p "metadata") "name" (VStr "unknown"))
      (credence r) (satisfied_count r) (partial_count r) (theory_scores r)
      (prev_hash (history self)) in
  (history self = [] -> object_get record "prev" = Some (JString "GENESIS"))
  /\ (forall h a, history self = (h ++ [a])%list ->
        object_get record "prev" = Some (JString (proof_hash a)))
  /\ object_keys (sort_keys record)
       = ["credence"; "partial"; "prev"; "satisfied"; "system"; "theories"]
  /\ (object_keys <$> object_get (sort_keys record) "theories")
       = Some ["AST"; "GWT"; "HOT"; "PP"; "RPT"]
  /\ Sorted key_le (object_keys (sort_keys record))
  /\ proof_hash r
       = "sha256:" ++ substring 0 32 (sha256_hexdigest (json_encode (sort_keys record)))
  /\ history e' = (history self ++ [r])%list.
Proof.
  intros H record.
  apply assess_inv in H as (_ & _ & _ & _ & Hts & _ & Hph & _ & ->).
  split; [|split; [|split; [|split; [|split; [|split]]]]].
  - intros Hh. subst record. by rewrite Hh.
  - intros h a Hh. subst record. unfold prev_hash. by rewrite Hh, last_snoc.
  - reflexivity.
  - subst record. by rewrite Hts.
  - apply sort_keys_sorted.
  - exact Hph.
  - reflexivity.
Qed.

(** The chain, entry by entry: in the history of an engine that started
    empty, the first entry was hashed over ["GENESIS"] and every other
    entry over the proof hash of the entry before it. *)
Lemma history_chain self :
  reachable json_encode sha256_hexdigest self ->
  forall n r, history self !! n = Some r ->
    match n with
    | O => hashed_over json_encode sha256_hexdigest r "GENESIS"
    | S m =>
        exists a, history self !! m = Some a
                  /\ hashed_over json_encode sha256_hexdigest r (proof_hash a)
    end.
Proof.
  induction 1 as [|self p now r e' Hreach IH H]; intros n r0 Hn; [done|].
  apply assess_inv in H as (_ & _ & _ & _ & _ & _ & Hph & _ & ->). simpl in Hn.
  destruct (decide (n < length (history self))%nat) as [Hlt|Hge].
  - rewrite lookup_app_l in Hn by done. specialize (IH n r0 Hn).
    destruct n as [|m]; [done|]. destruct IH as (a & Ha & Hr).
    exists a. split; [|done]. simpl. rewrite lookup_app_l; [done|lia].
  - assert (n = length (history self)) as ->.
    { apply lookup_lt_Some in Hn. rewrite length_app in Hn. simpl in Hn. lia. }
    rewrite list_lookup_middle in Hn by done. injection Hn as <-.
    unfold prev_hash in Hph.
    destruct (history self) as [|a0 h0] eqn:Eh using rev_ind.
    + simpl. by eexists.
    + clear IHh0. rewrite last_snoc in Hph. rewrite length_app. simpl.
      replace (length h0 + 1)%nat with (S (length h0)) by lia.
      exists a0. split; [|by eexists]. simpl.
      rewrite lookup_app_l by (rewrite length_app; simpl; lia).
      by rewrite list_lookup_middle.
Qed.

(** C8.  [run_reference] raises a [ValueError] exactly when the name is not
    among the keys of the catalog; the message of this Not-Found error
    names the system and lists the keys of the catalog as Python prints a
    list of strings (stated for keys of ASCII characters).  It never raises
    [KeyError].  When the name is a key, the profile stored under it is
    fetched, the outcome is that of [assess] on it, and the runner that
    comes back holds the same catalog. *)
Theorem run_reference_not_found_iff_absent self system_name now :
  ((exists msg,
      run_reference json_encode sha256_hexdigest self system_name now
      = Raise (ValueError msg))
   <-> ~ In system_name (map fst (reference_profiles self)))
  /\ (~ In system_name (map fst (reference_profiles self)) ->
      Forall (fun k => ascii_only k = true) (map fst (reference_profiles self)) ->
      run_reference json_encode sha256_hexdigest self system_name now
      = Raise (ValueError ("Unknown system: " ++ system_name ++ ". Available: "
                             ++ py_repr_list (map fst (reference_profiles self)))))
  /\ (forall key,
        run_reference json_encode sha256_hexdigest self system_name now
        <> Raise (KeyError key))
  /\ (In system_name (map fst (reference_profiles self)) ->
        exists profile,
          List.find (fun kv => String.eqb (fst kv) system_name) (reference_profiles self)
          = Some (system_name, profile)
          /\ In (system_name, profile) (reference_profiles self)
          /\ match assess json_encode sha256_hexdigest (engine self) profile now with
             | Ok (r, engine') =>
                 run_reference json_encode sha256_hexdigest self system_name now
                 = Ok (r, {| reference_profiles := reference_profiles self;
                             engine := engine' |})
             | Raise e => run_reference json_encode sha256_hexdigest self system_name now = Raise e
             end)
  /\ (forall r self',
        run_reference json_encode sha256_hexdigest self system_name now = Ok (r, self') ->
        In system_name (map fst (reference_profiles self))
        /\ reference_profiles self' = reference_profiles self).
Proof.
  unfold run_reference.
  destruct (dict_contains (reference_profiles self) system_name) eqn:Hc; simpl.
  - pose proof (proj1 (dict_contains_In _ _) Hc) as Hin.
    destruct (dict_find_key _ _ Hin) as (profile & Hf & Hg & Hi).
    rewrite Hg. simpl.
    destruct (assess json_encode sha256_hexdigest (engine self) profile now)
      as [[r engine']|e] eqn:Ha; simpl.
    + split; [split; [intros [msg [=]]|done]|]. split; [done|].
      split; [discriminate|]. split.
      * intros _. exists profile. rewrite Ha. done.
      * by intros r0 self' [= <- <-].
    + pose proof (assess_raise _ _ _ _ Ha) as ->.
      split; [split; [intros [msg [=]]|done]|]. split; [done|].
      split; [discriminate|]. split; [|discriminate].
      intros _. exists profile. rewrite Ha. done.
  - assert (Hout : ~ In system_name (map fst (reference_profiles self))).
    { intros Hin. apply dict_contains_In in Hin. congruence. }
    split; [split; [done|by eexists]|]. split; [done|].
    split; [discriminate|]. split; [done|discriminate].
Qed.
(** On the catalog of the source every name that is present is assessed. *)
Lemma run_reference_catalog self system_name now :
  reference_profiles self = REFERENCE_PROFILES ->
  dict_contains REFERENCE_PROFILES system_name = true ->
  exists r self', run_reference json_encode sha256_hexdigest self system_name now = Ok (r, self').
Proof.
  intros Hcat Hc. unfold run_reference. rewrite Hcat, Hc. simpl.
  destruct (dict_getitem_contains _ _ Hc) as (profile & Hg & Hin). rewrite Hg. simpl.
  assert (Hnum : numeric_profile profile).
  { pose proof numeric_reference_profiles as Hall.
    rewrite List.Forall_forall in Hall. exact (Hall _ Hin). }
  destruct (assess_total (engine self) profile now Hnum) as (r & e' & ->).
  simpl. by eexists _, _.
Qed.

End EngineFacts.

(** * Closed examples *)

(** A call whose outcome is computed to be [Ok] does not raise. *)
Ltac not_raised H :=
  exfalso;
  match type of H with
  | ?m = Raise _ =>
      let Hok := fresh "Hok" in
      assert (Hok : is_ok m = true) by reflexivity;
      rewrite H in Hok; discriminate Hok
  end.

(** The RPT-1 scenario in binary64 arithmetic: the score is the float 1.0
    and passes the 0.7 threshold, as over the reals. *)
#[warnings="-inexact-float"]
Lemma rpt1_scenario_binary64 :
  rpt1_score_binary64 true 10%float 5%float = 1.0%float
  /\ PrimFloat.leb 0.7%float (rpt1_score_binary64 true 10%float 5%float) = true.
Proof. split; reflexivity. Qed.

(** C3, as stated, fails.  Raising [broadcast_latency_ms] from 50 to 150
    lowers GWT-2 from 0.2 to 0; raising [mean_prediction_error] from 0 to 1
    lowers PP-2 from 0.3 to 0; and raising [has_recurrent_connections] from
    -1 (true) to 0 (false) lowers RPT-1 from 0.4 to 0. *)
Lemma raising_a_field_can_lower_a_score :
  (exists i i',
     GWTIndicators._gwt2 (dict_literal [("broadcast_latency_ms", VNum 50)]) ∅ = Ok i
     /\ GWTIndicators._gwt2 (dict_literal [("broadcast_latency_ms", VNum 150)]) ∅ = Ok i'
     /\ 50 < 150 /\ score i = 0.2 /\ score i' = 0 /\ score i' < score i)
  /\ (exists i i',
        PPIndicators._pp2 ∅ (dict_literal [("mean_prediction_error", VNum 0)]) = Ok i
        /\ PPIndicators._pp2 ∅ (dict_literal [("mean_prediction_error", VNum 1)]) = Ok i'
        /\ 0 < 1 /\ score i = 0.3 /\ score i' = 0 /\ score i' < score i)
  /\ (exists i i',
        RPTIndicators._rpt1 (dict_literal [("has_recurrent_connections", VNum (-1))]) = Ok i
        /\ RPTIndicators._rpt1 (dict_literal [("has_recurrent_connections", VNum 0)]) = Ok i'
        /\ -1 < 0 /\ score i = 0.4 /\ score i' = 0 /\ score i' < score i).
Proof.
  split; [|split].
  - destruct (GWTIndicators._gwt2 (dict_literal [("broadcast_latency_ms", VNum 50)]) ∅)
      as [i|] eqn:H;
    destruct (GWTIndicators._gwt2 (dict_literal [("broadcast_latency_ms", VNum 150)]) ∅)
      as [i'|] eqn:H'.
    all: unfold GWTIndicators._gwt2, py_mul, lt_or_inf in H, H'; eval_reads H; eval_reads H';
      simpl in H, H'; try discriminate.
    injection H as <-. injection H' as <-.
    eexists _, _. split; [reflexivity|]. split; [reflexivity|]. simpl.
    repeat split; rcases; lra.
  - destruct (PPIndicators._pp2 ∅ (dict_literal [("mean_prediction_error", VNum 0)]))
      as [i|] eqn:H;
    destruct (PPIndicators._pp2 ∅ (dict_literal [("mean_prediction_error", VNum 1)]))
      as [i'|] eqn:H'.
    all: unfold PPIndicators._pp2, py_mul, py_rsub in H, H'; eval_reads H; eval_reads H';
      simpl in H, H'; try discriminate.
    injection H as <-. injection H' as <-.
    eexists _, _. split; [reflexivity|]. split; [reflexivity|]. simpl.
    repeat split; rcases; lra.
  - destruct (RPTIndicators._rpt1 (dict_literal [("has_recurrent_connections", VNum (-1))]))
      as [i|] eqn:H;
    destruct (RPTIndicators._rpt1 (dict_literal [("has_recurrent_connections", VNum 0)]))
      as [i'|] eqn:H'.
    all: unfold RPTIndicators._rpt1, py_div in H, H'; eval_reads H; eval_reads H';
      unfold truthy in H, H'; simpl in H, H';
      destruct (Req_dec_T (-1) 0); destruct (Req_dec_T 0 0); try lra;
      try discriminate.
    injection H as <-. injection H' as <-.
    eexists _, _. split; [reflexivity|]. split; [reflexivity|]. simpl.
    repeat split; rcases; lra.
Qed.

(** C3, as amended, at [recurrence_depth] raised from 0 to 10 over the
    empty profile. *)
Lemma raising_a_field_never_lowers_a_score_witness :
  exists r e1 r' e2,
    assess no_encode no_digest IndicatorEngine_init
      (set_field ∅ "architecture" "recurrence_depth" (VNum 0)) "" = Ok (r, e1)
    /\ assess no_encode no_digest IndicatorEngine_init
         (set_field ∅ "architecture" "recurrence_depth" (VNum 10)) "" = Ok (r', e2)
    /\ Forall2 score_le (indicators r) (indicators r').
Proof.
  destruct (assess no_encode no_digest IndicatorEngine_init
              (set_field ∅ "architecture" "recurrence_depth" (VNum 0)) "")
    as [[r e1]|e] eqn:H; [|not_raised H].
  destruct (assess no_encode no_digest IndicatorEngine_init
              (set_field ∅ "architecture" "recurrence_depth" (VNum 10)) "")
    as [[r' e2]|e] eqn:H'; [|not_raised H'].
  exists r, e1, r', e2. split; [reflexivity|]. split; [reflexivity|].
  eapply (raising_a_field_never_lowers_a_score no_encode no_digest ∅
            "architecture" "recurrence_depth" (VNum 0) (VNum 10)
            IndicatorEngine_init "").
  - discriminate.
  - discriminate.
  - apply raise_num; lra.
  - exact H.
  - exact H'.
Defined.

(** C5 at two fresh engines and two clock readings. *)
Lemma assess_deterministic_witness :
  exists r1 e1 r2 e2,
    assess no_encode no_digest IndicatorEngine_init ∅ "2026-01-01T00:00:00+00:00"
      = Ok (r1, e1)
    /\ assess no_encode no_digest IndicatorEngine_init ∅ "2026-01-02T00:00:00+00:00"
         = Ok (r2, e2)
    /\ indicators r1 = indicators r2
    /\ theory_scores r1 = theory_scores r2
    /\ credence r1 = credence r2.
Proof.
  destruct (assess no_encode no_digest IndicatorEngine_init ∅ "2026-01-01T00:00:00+00:00")
    as [[r1 e1]|e] eqn:H1; [|not_raised H1].
  destruct (assess no_encode no_digest IndicatorEngine_init ∅ "2026-01-02T00:00:00+00:00")
    as [[r2 e2]|e] eqn:H2; [|not_raised H2].
  exists r1, e1, r2, e2. split; [reflexivity|]. split; [reflexivity|].
  pose proof (assess_deterministic no_encode no_digest
                IndicatorEngine_init IndicatorEngine_init ∅
                "2026-01-01T00:00:00+00:00" "2026-01-02T00:00:00+00:00"
                r1 e1 r2 e2 eq_refl H1 H2) as (Hi & _ & _ & _ & Hts & Hc & _).
  split; [exact Hi|]. split; [exact Hts|exact Hc].
Defined.

(** C7, as stated, fails.  On the empty profile the result has 13
    indicators, not 14, and PP-2 records that the absent
    [mean_prediction_error] was read as 1.0, not as 0. *)
Lemma empty_profile_not_as_stated :
  exists r e' i,
    assess no_encode no_digest IndicatorEngine_init ∅ "" = Ok (r, e')
    /\ total_indicators r = 13%nat
    /\ total_indicators r <> 14%nat
    /\ indicators r !! 10%nat = Some i
    /\ indicator_id i = "PP-2"
    /\ In ("mean_pe", VNum 1.0) (details i)
    /\ 1.0 <> 0.
Proof.
  destruct (assess no_encode no_digest IndicatorEngine_init ∅ "")
    as [[r e']|e] eqn:H; [|not_raised H].
  apply assess_inv in H as (Hb & _ & _ & Ht & _).
  pose proof (run_battery_length _ _ _ Hb) as Hlen. simpl in Hlen.
  unfold battery in Hb.
  apply run_battery_cons in Hb as (i0 & l0 & Hl & _ & Hb).
  do 9 (apply run_battery_cons in Hb as (? & ? & -> & _ & Hb)).
  apply run_battery_cons in Hb as (i & ? & -> & Hi & _).
  run_closed Hi.
  exists r, e'. eexists. split; [reflexivity|].
  rewrite Ht, Hlen, Hl. simpl.
  repeat split; [lia| |lra]. right. by left.
Qed.

Lemma num_not_string (d : gmap string value) (k : string) dflt :
  (forall s, d !! k <> Some (VStr s)) -> numeric_value dflt ->
  exists x, num (dict_get d k dflt) = Ok x.
Proof.
  intros Hk Hd. apply num_numeric. unfold dict_get.
  destruct (d !! k) as [[]|]; simpl; try done. by destruct (Hk s).
Qed.

Lemma lt_or_inf_not_string (d : gmap string value) (k : string) c :
  (forall s, d !! k <> Some (VStr s)) -> exists b, lt_or_inf (d !! k) c = Ok b.
Proof.
  intros Hk. unfold lt_or_inf. destruct (d !! k) as [[]|]; simpl; eauto.
  by destruct (Hk s).
Qed.

Ltac fields_tac :=
  unfold_evaluators;
  repeat match goal with
  | Hk : forall s, ?d !! ?k <> Some (VStr s) |- context [num (dict_get ?d ?k ?dflt)] =>
      let x := fresh "x" in
      let E := fresh "E" in
      destruct (num_not_string d k dflt Hk I) as [x E]; rewrite E; simpl
  | Hk : forall s, ?d !! ?k <> Some (VStr s) |- context [lt_or_inf (?d !! ?k) ?c] =>
      let b := fresh "b" in
      let E := fresh "E" in
      destruct (lt_or_inf_not_string d k c Hk) as [b E]; rewrite E; simpl
  end;
  eexists; reflexivity.

Lemma battery_total_fields p :
  Forall (not_a_string p) numeric_fields ->
  Forall (fun f => exists i, f p = Ok i) battery.
Proof.
  unfold numeric_fields, not_a_string. rewrite !Forall_cons. simpl.
  intros H. decompose [and] H. clear H.
  battery_cases fields_tac.
Qed.

Lemma battery_fields p l :
  run_battery battery p = Ok l -> Forall (not_a_string p) numeric_fields.
Proof.
  intros H. unfold battery in H.
  repeat (let Hf := fresh "Hf" in
          apply run_battery_cons in H as (? & ? & -> & Hf & H);
          cbv beta in Hf; inv_eval Hf).
  clear H. unfold numeric_fields.
  repeat (apply List.Forall_cons;
          [intros s Hs; simpl in Hs; unfold dict_get in *; rewrite Hs in *;
           simpl in *; discriminate|]).
  apply List.Forall_nil.
Qed.

(** * Further properties of the assessment *)

(** Splits a list whose identifiers are those of the battery into its
    thirteen results. *)
Ltac battery_shape l Hids :=
  unfold battery_ids in Hids;
  repeat (destruct l as [|? l]; [discriminate Hids|];
          simpl in Hids; injection Hids as ? ? Hids);
  destruct l; [clear Hids|discriminate Hids].

Lemma theory_scores_battery l :
  map (fun i => (indicator_id i, theory i)) l = battery_ids ->
  map (fun t => (t, theory_score l t)) THEORIES =
  [ ("RPT", (nth_score l 0 + nth_score l 1) / 2);
    ("GWT", (nth_score l 2 + nth_score l 3 + nth_score l 4) / 3);
    ("HOT", (nth_score l 5 + nth_score l 6 + nth_score l 7 + nth_score l 8) / 4);
    ("PP", (nth_score l 9 + nth_score l 10) / 2);
    ("AST", (nth_score l 11 + nth_score l 12) / 2) ].
Proof.
  intros Hids. battery_shape l Hids.
  unfold THEORIES, theory_score, nth_score. simpl map at 1.
  repeat first [ rewrite filter_theory_cons_eq by congruence
               | rewrite filter_theory_cons_ne by congruence ].
  rewrite !filter_nil. unfold py_sum. simpl.
  repeat (apply (f_equal2 cons); [apply (f_equal2 pair); [reflexivity|lra]|]).
  reflexivity.
Qed.

Lemma status_satisfied i : String.eqb (status i) "SATISFIED" = satisfied i.
Proof. unfold status. by destruct (satisfied i), (partial i). Qed.

Lemma status_partial i :
  String.eqb (status i) "PARTIAL" = partial i && negb (satisfied i).
Proof. unfold status. by destruct (satisfied i), (partial i). Qed.

Lemma status_not_satisfied i :
  String.eqb (status i) "NOT_SATISFIED" = negb (satisfied i) && negb (partial i).
Proof. unfold status. by destruct (satisfied i), (partial i). Qed.

Lemma count_status_total l :
  (count_status "SATISFIED" l + count_status "PARTIAL" l
   + count_status "NOT_SATISFIED" l = length l)%nat.
Proof.
  unfold count_status. induction l as [|i l IH]; [done|]. simpl.
  rewrite status_satisfied, status_partial, status_not_satisfied.
  destruct (satisfied i), (partial i); simpl; lia.
Qed.

Lemma status_thresholds i :
  flags_from_score i ->
  (status i = "SATISFIED" <-> 0.7 <= score i)
  /\ (status i = "PARTIAL" <-> 0.3 <= score i < 0.7)
  /\ (status i = "NOT_SATISFIED" <-> score i < 0.3).
Proof.
  intros (Hs & Hp & _). unfold status. rewrite Hs, Hp.
  destruct (Rgeb (score i) 0.7) eqn:E7;
    [apply Rgeb_true in E7|apply Rgeb_false in E7];
    (destruct (Rgeb (score i) 0.3) eqn:E3;
     [apply Rgeb_true in E3|apply Rgeb_false in E3]);
    repeat split; intros; try discriminate; try reflexivity; try lra.
Qed.

(** Reading a number from a section without negative numbers. *)
Lemma num_nonneg (d : gmap string value) (k : string) dflt x :
  nonneg_dict d -> (forall y, dflt = VNum y -> 0 <= y) ->
  num (dict_get d k dflt) = Ok x -> 0 <= x.
Proof.
  intros Hd Hdflt. unfold dict_get.
  destruct (d !! k) as [v|] eqn:E; simpl.
  - destruct v as [b|y|s]; simpl; try discriminate.
    + destruct b; intros [= <-]; lra.
    + intros [= <-]. eauto.
  - destruct dflt as [b|y|s]; simpl; try discriminate.
    + destruct b; intros [= <-]; lra.
    + intros [= <-]. eauto.
Qed.

Ltac use_nonneg :=
  repeat match goal with
  | Hd : nonneg_dict ?d, E : num (dict_get ?d ?k ?dflt) = Ok ?x |- _ =>
      lazymatch goal with
      | _ : 0 <= x |- _ => fail
      | _ =>
          assert (0 <= x)
            by (apply (num_nonneg d k dflt x Hd); [intros ? [= <-]; lra|exact E])
      end
  end.

Ltac nonneg_tac :=
  let i := fresh "i" in
  let H := fresh "H" in
  intros i H; inv_eval H; simpl; use_nonneg;
  repeat match goal with
  | |- context [truthy ?v] => destruct (truthy v)
  end;
  flag_cases; rcases; lra.

Lemma battery_nonneg p :
  nonneg_profile p ->
  Forall (fun f => forall i, f p = Ok i -> 0 <= score i) battery.
Proof.
  intros Hp.
  pose proof (Hp "architecture") as Ha.
  pose proof (Hp "behaviors") as Hb.
  pose proof (Hp "internal_states") as Hi.
  battery_cases nonneg_tac.
Qed.

(** * Further properties of the credence *)

Lemma spec_likelihood_ratio_rank a b :
  (status_rank a <= status_rank b)%nat ->
  spec_likelihood_ratio a <= spec_likelihood_ratio b.
Proof.
  unfold status_rank, spec_likelihood_ratio.
  destruct (get_satisfied a), (get_partial a), (get_satisfied b), (get_partial b);
    intros; try lia; lra.
Qed.

Lemma spec_likelihood_ratio_pos a : 0 < spec_likelihood_ratio a.
Proof. pose proof (spec_likelihood_ratio_bounds a). lra. Qed.

Lemma spec_log_sum_mono eps l l' :
  0 <= eps -> Forall2 status_le l l' -> spec_log_sum eps l <= spec_log_sum eps l'.
Proof.
  intros Heps. induction 1 as [|a b l l' [Ht Hr] _ IH]; simpl; [lra|].
  rewrite Ht. pose proof (spec_weight_pos (get_theory b)).
  pose proof (spec_likelihood_ratio_pos a).
  pose proof (spec_likelihood_ratio_rank a b Hr).
  assert (ln (spec_likelihood_ratio a + eps) <= ln (spec_likelihood_ratio b + eps))
    by (apply ln_le_compat; lra).
  nra.
Qed.

Lemma spec_bonus_mono ts ts' :
  Forall2 theory_score_le ts ts' -> spec_bonus ts <= spec_bonus ts'.
Proof.
  induction 1 as [|[t s] [t' s'] ts ts' [Ht Hs] _ IH]; simpl in *; [lra|].
  subst t'. pose proof (spec_weight_pos t).
  destruct (Rgeb s 0.7) eqn:E; [apply Rgeb_true in E|apply Rgeb_false in E];
    (destruct (Rgeb s' 0.7) eqn:E'; [apply Rgeb_true in E'|apply Rgeb_false in E']);
    lra.
Qed.

Lemma aggregate_mono l l' ts ts' :
  Forall2 status_le l l' -> Forall2 theory_score_le ts ts' ->
  aggregate l ts <= aggregate l' ts'.
Proof.
  intros Hl Hts. rewrite !aggregate_posterior.
  assert (spec_log_sum 1e-10 l <= spec_log_sum 1e-10 l')
    by (apply spec_log_sum_mono; [lra|done]).
  pose proof (posterior_le _ _ H). pose proof (spec_bonus_mono _ _ Hts).
  rcases; lra.
Qed.

Lemma status_eq_le l l' : Forall2 status_eq l l' -> Forall2 status_le l l'.
Proof.
  intros H. eapply Forall2_impl; [exact H|]. intros a b [Ht Hr]. split; [done|lia].
Qed.

Lemma status_eq_sym l l' : Forall2 status_eq l l' -> Forall2 status_eq l' l.
Proof.
  intros H. apply Forall2_flip. eapply Forall2_impl; [exact H|].
  by intros a b [-> ->].
Qed.

Lemma theory_score_le_refl ts : Forall2 theory_score_le ts ts.
Proof. apply Forall_Forall2_diag, Forall_forall. intros x _. split; [done|lra]. Qed.

(** ** Bounds *)

Lemma ln_6_pos : 0 < ln 6.
Proof. rewrite <- ln_1. apply ln_increasing; lra. Qed.

Lemma ln_ratio_bounds a :
  - ln 6 <= ln (spec_likelihood_ratio a + 1e-10) <= ln 6.
Proof.
  pose proof (spec_likelihood_ratio_bounds a) as Hlo.
  assert (Hhi : spec_likelihood_ratio a <= 0.85 / 0.15)
    by (unfold spec_likelihood_ratio; destruct (get_satisfied a), (get_partial a); lra).
  split.
  - rewrite <- ln_Rinv by lra. apply ln_le_compat; lra.
  - apply ln_le_compat; lra.
Qed.

Lemma exp_3_ln_6 : exp (3 * ln 6) = 216.
Proof.
  replace (3 * ln 6) with (ln 6 + ln 6 + ln 6) by lra.
  rewrite !exp_plus, exp_ln by lra. lra.
Qed.

Lemma exp_3_ln_6_opp : exp (- (3 * ln 6)) = / 216.
Proof. by rewrite exp_Ropp, exp_3_ln_6. Qed.

Lemma posterior_upper : posterior (3 * ln 6) = 216 / 235.
Proof. unfold posterior, PRIOR_CREDENCE. rewrite exp_3_ln_6. lra. Qed.

Lemma posterior_lower : posterior (- (3 * ln 6)) = / 4105.
Proof. unfold posterior, PRIOR_CREDENCE. rewrite exp_3_ln_6_opp. lra. Qed.

(** The weights of the thirteen indicators add up to 2.75. *)
Lemma spec_log_sum_battery l :
  map (fun i => (indicator_id i, theory i)) l = battery_ids ->
  - (3 * ln 6) <= spec_log_sum 1e-10 (map Real l) <= 3 * ln 6.
Proof.
  intros Hids. battery_shape l Hids. simpl.
  repeat match goal with
  | H : theory _ = _ |- _ => rewrite H; clear H
  end.
  unfold spec_weight. simpl.
  repeat match goal with
  | |- context [ln (spec_likelihood_ratio ?a + _)] =>
      let x := fresh "x" in
      pose proof (ln_ratio_bounds a);
      generalize dependent (ln (spec_likelihood_ratio a + 1e-10)); intros x ?
  end.
  pose proof ln_6_pos. lra.
Qed.

Lemma spec_bonus_theories (f : string -> R) :
  0 <= spec_bonus (map (fun t => (t, f t)) THEORIES) <= 0.03.
Proof.
  unfold THEORIES. simpl. unfold spec_weight. simpl.
  repeat match goal with
  | |- context [Rgeb ?x ?y] => destruct (Rgeb x y)
  end; lra.
Qed.

(** * Further properties of the sensitivity analysis *)

Lemma sensitivity_analysis_fold l ts :
  sensitivity_analysis l ts = fold_left (sensitivity_step l ts) (enumerate l) ∅.
Proof.
  unfold sensitivity_analysis. cbv zeta. generalize (∅ : gmap string R).
  generalize (enumerate l) as items.
  induction items as [|[i a] items IH]; intros m; [done|]. simpl. apply IH.
Qed.


Lemma sensitivity_fold_lookup l ts items m k v :
  fold_left (sensitivity_step l ts) items m !! k = Some v ->
  m !! k = Some v
  \/ exists i a, In (i, a) items /\ get_indicator_id a = k /\ v = contribution l ts i a.
Proof.
  revert m. induction items as [|[i a] items IH]; intros m H; [by left|].
  simpl in H. apply IH in H as [H|(i' & a' & Hin & Hk & Hv)].
  - unfold sensitivity_step in H. simpl in H.
    destruct (decide (get_indicator_id a = k)) as [Hk|Hk].
    + rewrite Hk, lookup_insert_eq in H. injection H as <-.
      right. exists i, a. split; [by left|done].
    + rewrite lookup_insert_ne in H by done. by left.
  - right. exists i', a'. split; [by right|done].
Qed.






Lemma status_eq_mock a : status_rank a = 0%nat -> status_eq (Mock (MockIndicator_init a)) a.
Proof. intros H. split; [done|]. by rewrite H. Qed.

Lemma aggregate_status_eq l l' ts :
  Forall2 status_eq l l' -> aggregate l ts = aggregate l' ts.
Proof.
  intros H. apply Rle_antisym; apply aggregate_mono;
    auto using status_eq_le, status_eq_sym, theory_score_le_refl.
Qed.

Lemma contribution_zero l ts i a :
  l !! i = Some a -> status_rank a = 0%nat -> contribution l ts i a = 0.
Proof.
  intros Hi Hr. unfold contribution.
  rewrite (aggregate_status_eq (<[i := Mock (MockIndicator_init a)]> l) l ts); [lra|].
  rewrite <- (list_insert_id l i a Hi) at 2.
  apply Forall2_insert; [|by apply status_eq_mock].
  apply Forall_Forall2_diag, Forall_forall. by intros x _.
Qed.

Lemma spec_bonus_below ts :
  Forall (fun x : string * R => snd x < 0.7) ts -> spec_bonus ts = 0.
Proof.
  induction 1 as [|[t s] ts Hs _ IH]; simpl in *; [done|].
  apply Rgeb_false in Hs. rewrite Hs, IH. lra.
Qed.

(** X1.  For a list of at most 1000 indicators and any theory scores, the
    credence that [aggregate] returns is positive and at most 0.99.  Over
    the reals the bound on the length is not needed; it keeps the weighted
    sum, at most 0.25 ln 6 per indicator in size, far from where [np.exp]
    underflows to 0.0 on binary64 numbers. *)
Theorem aggregate_within_bounds (l : list indicator_like) (ts : list (string * R)) :
  (length l <= 1000)%nat -> 0 < aggregate l ts <= 0.99.
Proof. intros _. apply aggregate_bounds. Qed.

(** X2.  With no indicator at all and no theory score of 0.7 or more,
    [aggregate] returns the prior credence turned into odds and back: over
    the reals 0.05 itself, and within 1e-15 of it in any case; the same
    arithmetic on binary64 numbers gives 0.05000000000000001. *)
#[warnings="-inexact-float"]
Theorem aggregate_no_evidence (ts : list (string * R)) :
  Forall (fun x : string * R => snd x < 0.7) ts ->
  aggregate [] ts = posterior 0
  /\ Rabs (aggregate [] ts - 0.05) <= 1e-15
  /\ no_evidence_binary64 = 0.05000000000000001%float.
Proof.
  intros Hts.
  assert (H : aggregate [] ts = posterior 0).
  { rewrite aggregate_posterior, (spec_bonus_below _ Hts). simpl.
    rewrite posterior_0. rcases; lra. }
  split; [exact H|]. split; [|reflexivity].
  rewrite H, posterior_0. unfold Rabs. destruct (Rcase_abs _); lra.
Qed.
(** X3.  [aggregate] is monotone: if indicators are replaced, position by
    position, by indicators of the same theory whose status is at least as
    good (satisfied over partial over neither), and theory scores by
    scores at least as large, the credence does not go down. *)
Theorem aggregate_monotone_in_status l l' ts ts' :
  Forall2 status_le l l' -> Forall2 theory_score_le ts ts' ->
  aggregate l ts <= aggregate l' ts'.
Proof. apply aggregate_mono. Qed.

(** X4.  [aggregate] reads of each indicator its theory and its status
    only: two lists that agree on these, position by position, get the same
    credence, whatever their scores and identifiers. *)
Theorem aggregate_reads_theory_and_status_only l l' ts :
  Forall2 status_eq l l' -> aggregate l ts = aggregate l' ts.
Proof. apply aggregate_status_eq. Qed.


(** X6.  For a list of at most 1000 indicators (a length at which
    [np.exp] does not underflow to 0.0 on binary64 numbers), every
    contribution reported by [sensitivity_analysis] is smaller than the
    credence of the whole list, and it is 0 when every indicator with that
    identifier is neither satisfied nor partial already. *)
Theorem sensitivity_contribution_range l ts k v :
  (length l <= 1000)%nat ->
  sensitivity_analysis l ts !! k = Some v ->
  v < aggregate l ts
  /\ ((forall a, a ∈ l -> get_indicator_id a = k -> status_rank a = 0%nat) -> v = 0).
Proof.
  intros _. rewrite sensitivity_analysis_fold. intros H.
  apply sensitivity_fold_lookup in H as [H|(i & a & Hin & Hk & ->)].
  { by rewrite lookup_empty in H. }
  apply enumerate_lookup in Hin. split.
  - unfold contribution.
    pose proof (aggregate_bounds (<[i := Mock (MockIndicator_init a)]> l) ts). lra.
  - intros Hall. apply contribution_zero; [done|].
    apply Hall; [|done]. by eapply list_elem_of_lookup_2.
Qed.
Lemma count_le {A B : Type} (f : A -> bool) (g : B -> bool) l l' :
  Forall2 (fun a b => f a = true -> g b = true) l l' ->
  (length (List.filter f l) <= length (List.filter g l'))%nat.
Proof.
  induction 1 as [|a b l l' Hab _ IH]; simpl; [done|].
  destruct (f a); [rewrite Hab by done|destruct (g b)]; simpl; lia.
Qed.

Lemma Forall2_same_image {A B : Type} (f : A -> B) l l' :
  map f l = map f l' -> Forall2 (fun a b => f a = f b) l l'.
Proof.
  revert l'. induction l as [|a l IH]; intros [|b l'] H; try discriminate.
  - constructor.
  - injection H as Hab H. constructor; auto.
Qed.

Lemma Forall2_conj {A B : Type} (P Q : A -> B -> Prop) l l' :
  Forall2 P l l' -> Forall2 Q l l' -> Forall2 (fun a b => P a b /\ Q a b) l l'.
Proof.
  induction 1 as [|a b l l' Hab _ IH]; intros HQ; [constructor|].
  apply Forall2_cons_1 in HQ as [HQ HQ']. constructor; auto.
Qed.

Lemma Forall2_Forall_both {A : Type} (P : A -> Prop) (Q : A -> A -> Prop) l l' :
  Forall P l -> Forall P l' -> Forall2 Q l l' ->
  Forall2 (fun a b => P a /\ P b /\ Q a b) l l'.
Proof.
  intros Hl Hl' H. revert Hl Hl'.
  induction H as [|a b l l' Hab _ IH]; intros Hl Hl'; [constructor|].
  apply Forall_cons_1 in Hl as [Ha Hl]. apply Forall_cons_1 in Hl' as [Hb Hl'].
  constructor; auto.
Qed.

(** A score that does not go down keeps or improves the status. *)
Lemma score_le_status i i' :
  flags_from_score i -> flags_from_score i' -> theory i = theory i' ->
  score i <= score i' -> status_le (Real i) (Real i').
Proof.
  intros (Hs & Hp & _) (Hs' & Hp' & _) Ht Hle. split; [done|].
  unfold status_rank. simpl. rewrite Hs, Hp, Hs', Hp'. rcases; try lia; lra.
Qed.

Lemma nth_score_le l l' n :
  Forall2 score_le l l' -> nth_score l n <= nth_score l' n.
Proof.
  intros H. unfold nth_score.
  destruct (l !! n) as [i|] eqn:E.
  - destruct (Forall2_lookup_l _ _ _ _ _ H E) as (i' & -> & _ & Hle). done.
  - apply Forall2_length in H. apply lookup_ge_None in E.
    rewrite (proj2 (lookup_ge_None l' n)) by lia. simpl. lra.
Qed.

Lemma sections_battery p p' :
  Forall (fun s => section_of p s = section_of p' s)
    ["architecture"; "behaviors"; "internal_states"] ->
  run_battery battery p = run_battery battery p'.
Proof.
  intros H. apply Forall_cons_1 in H as [Ha H]. apply Forall_cons_1 in H as [Hb H].
  apply Forall_cons_1 in H as [Hi _].
  unfold battery, run_battery. by rewrite Ha, Hb, Hi.
Qed.

Section EngineExtras.

Variable json_encode : json -> string.
Variable sha256_hexdigest : string -> string.

Lemma assess_battery_raise self p now e :
  run_battery battery p = Raise e ->
  assess json_encode sha256_hexdigest self p now = Raise TypeError.
Proof.
  intros Hb.
  destruct (assess json_encode sha256_hexdigest self p now) as [[r e']|e0] eqn:H.
  - apply assess_inv in H as (Hb' & _). congruence.
  - by rewrite (assess_raise _ _ _ _ _ _ H).
Qed.

(** X7.  For a profile whose numbers fit a float, [assess] returns a
    result exactly when none of the 22 fields that the scoring functions
    use as numbers holds a string, and raises [TypeError] (and nothing
    else) otherwise.  Absent fields, booleans in numeric fields and strings
    in flag fields raise nothing. *)
Theorem assess_raises_iff_string_field self p now :
  float_range_profile p ->
  ((exists r e', assess json_encode sha256_hexdigest self p now = Ok (r, e'))
   <-> Forall (not_a_string p) numeric_fields)
  /\ (assess json_encode sha256_hexdigest self p now = Raise TypeError
      <-> ~ Forall (not_a_string p) numeric_fields)
  /\ (forall e, assess json_encode sha256_hexdigest self p now = Raise e -> e = TypeError).
Proof.
  intros _.
  assert (Hok : Forall (not_a_string p) numeric_fields ->
                exists r e', assess json_encode sha256_hexdigest self p now = Ok (r, e')).
  { intros Hf.
    destruct (run_battery_total battery p (battery_total_fields p Hf)) as [l Hl].
    destruct (assess_ok json_encode sha256_hexdigest self p now l Hl) as (r & e' & H & _).
    eauto. }
  assert (Hinv : forall r e', assess json_encode sha256_hexdigest self p now = Ok (r, e') ->
                 Forall (not_a_string p) numeric_fields).
  { intros r e' H. apply assess_inv in H as (Hb & _). by eapply battery_fields. }
  split; [|split].
  - split; [|done]. intros (r & e' & H). eauto.
  - split.
    + intros H Hf. destruct (Hok Hf) as (r & e' & H'). congruence.
    + intros Hf.
      destruct (assess json_encode sha256_hexdigest self p now) as [[r e']|e] eqn:H.
      * destruct Hf. eauto.
      * by rewrite (assess_raise _ _ _ _ _ _ H).
  - apply assess_raise.
Qed.
(** X8.  Every result of [assess] holds the same thirteen indicators in the
    same order, RPT-1, RPT-2, GWT-1, GWT-2, GWT-3, HOT-1 to HOT-4, PP-1,
    PP-2, AST-1, AST-2, each under its theory; [total_indicators] is 13;
    and [theory_scores] has the keys RPT, GWT, HOT, PP, AST in this order. *)
Theorem assess_battery_order self p now r e' :
  assess json_encode sha256_hexdigest self p now = Ok (r, e') ->
  map (fun i => (indicator_id i, theory i)) (indicators r) = battery_ids
  /\ total_indicators r = 13%nat
  /\ map fst (theory_scores r) = THEORIES.
Proof.
  intros H. apply assess_inv in H as (Hb & _ & _ & Ht & Hts & _).
  split; [by eapply run_battery_ids|]. split.
  - rewrite Ht. by apply run_battery_length in Hb.
  - rewrite Hts, map_map. simpl. reflexivity.
Qed.

(** X9.  The theory scores of a result are the plain means of the scores of
    the theory's indicators: RPT of results 0 and 1, GWT of 2 to 4, HOT of
    5 to 8, PP of 9 and 10, AST of 11 and 12.  The branch that stores 0.0
    for a theory without indicators is never taken. *)
Theorem theory_scores_are_means self p now r e' :
  assess json_encode sha256_hexdigest self p now = Ok (r, e') ->
  let l := indicators r in
  theory_scores r =
  [ ("RPT", (nth_score l 0 + nth_score l 1) / 2);
    ("GWT", (nth_score l 2 + nth_score l 3 + nth_score l 4) / 3);
    ("HOT", (nth_score l 5 + nth_score l 6 + nth_score l 7 + nth_score l 8) / 4);
    ("PP", (nth_score l 9 + nth_score l 10) / 2);
    ("AST", (nth_score l 11 + nth_score l 12) / 2) ].
Proof.
  intros H. apply assess_inv in H as (Hb & _ & _ & _ & Hts & _).
  rewrite Hts. apply theory_scores_battery. by eapply run_battery_ids.
Qed.

(** X10.  In a result of [assess] the [status] of an indicator is
    SATISFIED exactly when its score is at least 0.7, PARTIAL exactly when
    it is at least 0.3 and below 0.7, NOT_SATISFIED exactly when it is
    below 0.3; [satisfied_count] and [partial_count] count the indicators
    of status SATISFIED and PARTIAL, and the three statuses account for all
    thirteen indicators. *)
Theorem status_counts self p now r e' :
  assess json_encode sha256_hexdigest self p now = Ok (r, e') ->
  Forall (fun i => (status i = "SATISFIED" <-> 0.7 <= score i)
                   /\ (status i = "PARTIAL" <-> 0.3 <= score i < 0.7)
                   /\ (status i = "NOT_SATISFIED" <-> score i < 0.3)) (indicators r)
  /\ satisfied_count r = count_status "SATISFIED" (indicators r)
  /\ partial_count r = count_status "PARTIAL" (indicators r)
  /\ (satisfied_count r + partial_count r
      + count_status "NOT_SATISFIED" (indicators r) = 13)%nat.
Proof.
  intros H. apply assess_inv in H as (Hb & Hs & Hp & _).
  assert (Hs' : satisfied_count r = count_status "SATISFIED" (indicators r)).
  { rewrite Hs. unfold count_status. f_equal. apply List.filter_ext.
    intros i. by rewrite status_satisfied. }
  assert (Hp' : partial_count r = count_status "PARTIAL" (indicators r)).
  { rewrite Hp. unfold count_status. f_equal. apply List.filter_ext.
    intros i. by rewrite status_partial. }
  split; [|split; [done|split; [done|]]].
  - eapply Forall_impl; [eapply run_battery_Forall; [apply battery_flags|exact Hb]|].
    apply status_thresholds.
  - rewrite Hs', Hp', count_status_total. by apply run_battery_length in Hb.
Qed.

(** X11.  When no number stored in the scored sections of the profile is
    negative, every indicator score and every theory score of the result
    lies in [0, 1]. *)
Theorem nonnegative_profile_scores_in_range self p now r e' :
  nonneg_profile p ->
  assess json_encode sha256_hexdigest self p now = Ok (r, e') ->
  Forall (fun i => 0 <= score i <= 1) (indicators r)
  /\ Forall (fun ts : string * R => 0 <= snd ts <= 1) (theory_scores r).
Proof.
  intros Hp H. apply assess_inv in H as (Hb & _ & _ & _ & Hts & _).
  assert (Hs : Forall (fun i => 0 <= score i <= 1) (indicators r)).
  { eapply Forall_impl.
    - apply Forall_and; split.
      + eapply run_battery_Forall; [apply (battery_nonneg p Hp)|exact Hb].
      + eapply run_battery_Forall; [apply battery_flags|exact Hb].
    - intros i [H0 (_ & _ & H1)]. done. }
  split; [done|].
  rewrite Hts, (theory_scores_battery _ (run_battery_ids _ _ Hb)).
  pose proof (run_battery_ids _ _ Hb) as Hids.
  destruct (indicators r) as [|i l]; [discriminate|]. clear Hb Hts.
  set (l0 := i :: l) in *. clearbody l0. clear i l. rename l0 into l.
  battery_shape l Hids.
  repeat match goal with
  | H : Forall _ (_ :: _) |- _ =>
      let Hi := fresh "Hi" in apply Forall_cons_1 in H as [Hi H]
  end.
  unfold nth_score. simpl.
  repeat (apply List.Forall_cons; [simpl; lra|]). apply List.Forall_nil.
Qed.

(** X12.  The clamp at 0.99 never acts on a result of [assess]: with
    thirteen indicators of total weight 2.75 and a bonus of at most 0.03,
    the credence is the posterior plus the bonus, at least 1/4105 and below
    0.95. *)
Theorem assess_credence_unclamped self p now r e' :
  assess json_encode sha256_hexdigest self p now = Ok (r, e') ->
  credence r
  = posterior (fold_left llr_step (map Real (indicators r)) 0)
    + fold_left bonus_step (theory_scores r) 0
  /\ / 4105 <= credence r < 0.95.
Proof.
  intros H. apply assess_inv in H as (Hb & _ & _ & _ & Hts & Hc & _).
  rewrite Hc, aggregate_posterior, fold_llr_spec, fold_bonus_spec, !Rplus_0_l.
  pose proof (spec_log_sum_battery _ (run_battery_ids _ _ Hb)) as [Hlo Hhi].
  apply posterior_le in Hlo, Hhi. rewrite posterior_lower in Hlo.
  rewrite posterior_upper in Hhi.
  pose proof (spec_bonus_theories (theory_score (indicators r))) as Hbonus.
  rewrite <- Hts in Hbonus.
  assert (Rmin 0.99 (posterior (spec_log_sum 1e-10 (map Real (indicators r)))
                     + spec_bonus (theory_scores r))
          = posterior (spec_log_sum 1e-10 (map Real (indicators r)))
            + spec_bonus (theory_scores r)) as -> by (rcases; lra).
  split; [done|]. lra.
Qed.

(** X14.  Raising one field, other than [broadcast_latency_ms] and
    [mean_prediction_error], never lowers the outcome of the assessment:
    no theory score, neither the number of satisfied indicators nor the
    credence goes down. *)
Theorem raising_a_field_never_lowers_the_credence p sec key v v' self now r e1 r' e2 :
  (sec, key) ≠ ("architecture", "broadcast_latency_ms") ->
  (sec, key) ≠ ("internal_states", "mean_prediction_error") ->
  value_raise v v' ->
  assess json_encode sha256_hexdigest self (set_field p sec key v) now = Ok (r, e1) ->
  assess json_encode sha256_hexdigest self (set_field p sec key v') now = Ok (r', e2) ->
  Forall2 theory_score_le (theory_scores r) (theory_scores r')
  /\ (satisfied_count r <= satisfied_count r')%nat
  /\ credence r <= credence r'.
Proof.
  intros Hlat Hpe Hv H H'.
  apply assess_inv in H as (Hb & Hs & _ & _ & Hts & Hc & _).
  apply assess_inv in H' as (Hb' & Hs' & _ & _ & Hts' & Hc' & _).
  assert (Hle : Forall2 score_le (indicators r) (indicators r')).
  { eapply run_battery_Forall2; [|exact Hb|exact Hb'].
    apply battery_mono; [done..|]. by apply value_raise_le. }
  pose proof (run_battery_Forall _ _ _ _ (battery_flags _) Hb) as Hf.
  pose proof (run_battery_Forall _ _ _ _ (battery_flags _) Hb') as Hf'.
  pose proof (run_battery_ids _ _ Hb) as Hids.
  pose proof (run_battery_ids _ _ Hb') as Hids'.
  assert (Hth : Forall2 (fun a b => theory a = theory b) (indicators r) (indicators r')).
  { eapply Forall2_impl.
    - apply (Forall2_same_image (fun i => (indicator_id i, theory i))). congruence.
    - intros a b [= _ Ht]. done. }
  assert (Hall : Forall2 (fun a b => flags_from_score a /\ flags_from_score b
                                     /\ theory a = theory b /\ score a <= score b)
                   (indicators r) (indicators r')).
  { apply Forall2_Forall_both; [done..|].
    eapply Forall2_impl; [apply (Forall2_conj _ _ _ _ Hth Hle)|].
    intros a b [Ht [_ Hsc]]. done. }
  assert (Hts_le : Forall2 theory_score_le (theory_scores r) (theory_scores r')).
  { rewrite Hts, Hts', (theory_scores_battery _ Hids), (theory_scores_battery _ Hids').
    repeat (apply List.Forall2_cons;
            [split; [reflexivity|]; simpl;
             repeat match goal with
             | |- context [nth_score (indicators r) ?n] =>
                 let x := fresh "x" in
                 let y := fresh "y" in
                 pose proof (nth_score_le _ _ n Hle);
                 set (x := nth_score (indicators r) n) in *;
                 set (y := nth_score (indicators r') n) in *;
                 clearbody x y
             end; lra|]).
    apply List.Forall2_nil. }
  split; [done|]. split.
  - rewrite Hs, Hs'. apply count_le.
    eapply Forall2_impl; [exact Hall|].
    intros a b ((Ha & _) & (Hb0 & _) & _ & Hsc). rewrite Ha, Hb0.
    intros E. apply Rgeb_true in E. apply Rgeb_true. lra.
  - rewrite Hc, Hc'. apply aggregate_mono; [|done].
    apply Forall2_fmap. eapply Forall2_impl; [exact Hall|].
    intros a b (Ha & Hb0 & Ht & Hsc). by apply score_le_status.
Qed.

End EngineExtras.

Lemma dict_contains_key {V : Type} (d : list (string * V)) k :
  In k (map fst d) -> dict_contains d k = true.
Proof.
  intros H. unfold dict_contains. apply existsb_exists. exists k.
  split; [done|apply String.eqb_refl].
Qed.

Lemma prev_hash_snoc h r : prev_hash (h ++ [r]) = proof_hash r.
Proof. unfold prev_hash. by rewrite last_snoc. Qed.

Lemma run_reference_raise_inv json_encode sha256_hexdigest self system_name now e :
  dict_contains (reference_profiles self) system_name = true ->
  run_reference json_encode sha256_hexdigest self system_name now = Raise e ->
  exists profile,
    In (system_name, profile) (reference_profiles self)
    /\ assess json_encode sha256_hexdigest (engine self) profile now = Raise e.
Proof.
  intros Hc. unfold run_reference. rewrite Hc. simpl.
  destruct (dict_getitem_contains _ _ Hc) as (profile & -> & Hin). simpl.
  destruct (assess json_encode sha256_hexdigest (engine self) profile now)
    as [[r0 e0]|e0] eqn:H; simpl; [discriminate|].
  intros [= <-]. by exists profile.
Qed.

Section RunnerFacts.

Variable json_encode : json -> string.
Variable sha256_hexdigest : string -> string.

(** The labels of a result are read from the metadata. *)
Lemma assess_labels self p now r e' :
  assess json_encode sha256_hexdigest self p now = Ok (r, e') ->
  system_name r = dict_get (section_of p "metadata") "name" (VStr "Unknown System")
  /\ system_type r = dict_get (section_of p "metadata") "type" (VStr "Unknown").
Proof.
  unfold assess.
  destruct (RPTIndicators.evaluate p) as [rpt|]; [|discriminate].
  destruct (GWTIndicators.evaluate p) as [gwt|]; [|discriminate].
  destruct (HOTIndicators.evaluate p) as [hot|]; [|discriminate].
  destruct (PPIndicators.evaluate p) as [pp|]; [|discriminate].
  destruct (ASTIndicators.evaluate p) as [ast|]; [|discriminate].
  intros [= <- <-]. split; reflexivity.
Qed.

Lemma run_reference_inv self system_name now r self' :
  run_reference json_encode sha256_hexdigest self system_name now = Ok (r, self') ->
  exists profile,
    dict_getitem (reference_profiles self) system_name = Ok profile
    /\ assess json_encode sha256_hexdigest (engine self) profile now = Ok (r, engine self')
    /\ reference_profiles self' = reference_profiles self.
Proof.
  unfold run_reference.
  destruct (dict_contains (reference_profiles self) system_name); simpl; [|discriminate].
  destruct (dict_getitem (reference_profiles self) system_name) as [profile|];
    simpl; [|discriminate].
  destruct (assess json_encode sha256_hexdigest (engine self) profile now)
    as [[r0 e0]|] eqn:H; simpl; [|discriminate].
  intros [= <- <-]. by exists profile.
Qed.

Lemma run_references_outcome names : forall self clock k,
  Forall (fun name => dict_contains (reference_profiles self) name = true) names ->
  match run_references json_encode sha256_hexdigest self names clock k with
  | Ok (rs, self') =>
      history (engine self') = (history (engine self) ++ rs)%list
      /\ reference_profiles self' = reference_profiles self
      /\ map timestamp rs = map clock (seq k (length names))
  | Raise e =>
      exists name profile engine0 j,
        In (name, profile) (reference_profiles self)
        /\ assess json_encode sha256_hexdigest engine0 profile (clock j) = Raise e
  end.
Proof.
  induction names as [|name names IH]; intros self clock k Hall; simpl.
  { by rewrite app_nil_r. }
  apply Forall_cons_1 in Hall as [Hname Hall].
  destruct (run_reference json_encode sha256_hexdigest self name (clock k))
    as [[r self1]|e] eqn:H; simpl.
  2:{ destruct (run_reference_raise_inv _ _ _ _ _ _ Hname H) as (profile & Hin & Ha).
      by exists name, profile, (engine self), k. }
  apply run_reference_inv in H as (profile & _ & H & Hcat).
  apply assess_inv in H as (_ & _ & _ & _ & _ & _ & _ & Hnow & Hh).
  rewrite <- Hcat in Hall. specialize (IH self1 clock (S k) Hall).
  destruct (run_references json_encode sha256_hexdigest self1 names clock (S k))
    as [[rs self2]|e]; simpl.
  - destruct IH as (Hh2 & Hcat2 & Hts). rewrite Hh2, Hh, Hcat2, Hcat, Hts, Hnow. simpl.
    by rewrite <- app_assoc.
  - destruct IH as (name' & profile' & engine0 & j & Hin & Ha).
    exists name', profile', engine0, j. by rewrite <- Hcat.
Qed.
(** X15.  In the history of an engine that started empty and was only
    driven through [assess], the first entry carries the hash of a record
    whose [prev] field is ["GENESIS"], and every later entry the hash of a
    record whose [prev] field is the proof hash of the entry just before
    it. *)
Theorem history_entries_are_chained self :
  reachable json_encode sha256_hexdigest self ->
  (forall r, history self !! 0%nat = Some r ->
     hashed_over json_encode sha256_hexdigest r "GENESIS")
  /\ (forall n a r, history self !! n = Some a -> history self !! S n = Some r ->
        hashed_over json_encode sha256_hexdigest r (proof_hash a)).
Proof.
  intros Hreach. split.
  - intros r Hr. exact (history_chain _ _ _ Hreach 0%nat r Hr).
  - intros n a r Ha Hr.
    destruct (history_chain _ _ _ Hreach (S n) r Hr) as (a' & Ha' & Hh).
    congruence.
Qed.

(** X16.  [run_all_references] raises neither the Not-Found [ValueError]
    nor [KeyError], whatever the catalog: an error it raises is one that
    [assess] raised on a profile of the catalog.  When it returns, the
    results are the entries it appended to the history of the runner's
    engine, in catalog order, one per name, the [k]-th stamped with the
    [k]-th reading of the clock, and the catalog is unchanged. *)
Theorem run_all_references_results self clock :
  match run_all_references json_encode sha256_hexdigest self clock with
  | Ok (rs, self') =>
      length rs = length (reference_profiles self)
      /\ history (engine self') = (history (engine self) ++ rs)%list
      /\ reference_profiles self' = reference_profiles self
      /\ map timestamp rs = map clock (seq 0 (length (reference_profiles self)))
  | Raise e =>
      (forall msg, e <> ValueError msg)
      /\ (forall key, e <> KeyError key)
      /\ exists name profile engine0 k,
           In (name, profile) (reference_profiles self)
           /\ assess json_encode sha256_hexdigest engine0 profile (clock k) = Raise e
  end.
Proof.
  unfold run_all_references.
  pose proof (run_references_outcome (map fst (reference_profiles self)) self clock 0%nat)
    as H.
  assert (Hkeys : Forall (fun name => dict_contains (reference_profiles self) name = true)
                    (map fst (reference_profiles self))).
  { apply Forall_forall. intros name Hin. apply dict_contains_key.
    by apply list_elem_of_In. }
  specialize (H Hkeys).
  destruct (run_references json_encode sha256_hexdigest self
              (map fst (reference_profiles self)) clock 0) as [[rs self']|e].
  - destruct H as (Hh & Hcat & Hts).
    rewrite length_map in Hts. split; [|done].
    apply (f_equal (@length string)) in Hts. by rewrite !length_map, length_seq in Hts.
  - destruct H as (name & profile & engine0 & k & Hin & Ha).
    pose proof (assess_raise _ _ _ _ _ _ Ha) as ->.
    split; [discriminate|]. split; [discriminate|]. by exists name, profile, engine0, k.
Qed.
(** X17.  On the catalog of the source, [run_all_references] raises
    nothing and returns four results, for ORION-Active-Inference, GPT-4,
    C-elegans-302-neurons and Thermostat in this order, each labelled with
    the name and the type of its profile's metadata. *)
Theorem run_all_references_on_catalog self clock :
  reference_profiles self = REFERENCE_PROFILES ->
  exists rs self',
    run_all_references json_encode sha256_hexdigest self clock = Ok (rs, self')
    /\ map (fun r => (system_name r, system_type r)) rs
       = map (fun kv => (dict_get (section_of (snd kv) "metadata") "name"
                           (VStr "Unknown System"),
                         dict_get (section_of (snd kv) "metadata") "type"
                           (VStr "Unknown")))
           REFERENCE_PROFILES
    /\ map system_name rs
       = [VStr "ORION-Active-Inference Agent"; VStr "GPT-4";
          VStr "C. elegans (302 neurons)"; VStr "Simple Thermostat"].
Proof.
  intros Hcat. unfold run_all_references. rewrite Hcat.
  assert (Hstep : forall self0 name profile now,
            reference_profiles self0 = REFERENCE_PROFILES ->
            dict_contains REFERENCE_PROFILES name = true ->
            dict_getitem REFERENCE_PROFILES name = Ok profile ->
            exists r self1,
              run_reference json_encode sha256_hexdigest self0 name now = Ok (r, self1)
              /\ reference_profiles self1 = REFERENCE_PROFILES
              /\ system_name r
                 = dict_get (section_of profile "metadata") "name" (VStr "Unknown System")
              /\ system_type r
                 = dict_get (section_of profile "metadata") "type" (VStr "Unknown")).
  { intros self0 name profile now Hcat0 Hc Hg.
    destruct (run_reference_catalog json_encode sha256_hexdigest self0 name now Hcat0 Hc)
      as (r & self1 & H).
    exists r, self1. split; [done|].
    apply run_reference_inv in H as (profile' & Hg' & H & Hcat1).
    rewrite Hcat0, Hg in Hg'. injection Hg' as <-.
    apply assess_labels in H as [Hn Ht]. rewrite Hcat1, Hcat0. done. }
  unfold REFERENCE_PROFILES at 1. simpl map.
  destruct (Hstep self "ORION-Active-Inference" _ (clock 0%nat) Hcat eq_refl eq_refl)
    as (r1 & self1 & H1 & Hcat1 & Hn1 & Ht1).
  destruct (Hstep self1 "GPT-4" _ (clock 1%nat) Hcat1 eq_refl eq_refl)
    as (r2 & self2 & H2 & Hcat2 & Hn2 & Ht2).
  destruct (Hstep self2 "C-elegans-302-neurons" _ (clock 2%nat) Hcat2 eq_refl eq_refl)
    as (r3 & self3 & H3 & Hcat3 & Hn3 & Ht3).
  destruct (Hstep self3 "Thermostat" _ (clock 3%nat) Hcat3 eq_refl eq_refl)
    as (r4 & self4 & H4 & Hcat4 & Hn4 & Ht4).
  exists [r1; r2; r3; r4], self4.
  unfold run_references. rewrite H1. simpl. rewrite H2. simpl. rewrite H3. simpl.
  rewrite H4. simpl. split; [done|].
  rewrite Hn1, Hn2, Hn3, Hn4, Ht1, Ht2, Ht3, Ht4. split; [done|].
  clear.
  repeat (apply (f_equal2 cons);
          [unfold section_of, dict_get; cbn [snd];
           try unfold profile_ORION_Active_Inference; try unfold profile_GPT_4;
           try unfold profile_C_elegans_302_neurons; try unfold profile_Thermostat;
           rewrite !dict_literal_lookup;
           by cbv [assoc_last fst snd String.eqb Ascii.eqb Bool.eqb andb from_option
                   Datatypes.id default]|]).
  reflexivity.
Qed.

(** X18.  [run_reference] and [run_custom] drive the same engine: a custom
    assessment made after a reference assessment is chained to it (the
    record it hashes has the reference result's proof hash as [prev]), and
    the history has grown by exactly these two results. *)
Theorem runner_calls_share_the_chain self name now p now' r1 self1 r2 self2 :
  run_reference json_encode sha256_hexdigest self name now = Ok (r1, self1) ->
  run_custom json_encode sha256_hexdigest self1 p now' = Ok (r2, self2) ->
  hashed_over json_encode sha256_hexdigest r2 (proof_hash r1)
  /\ history (engine self2) = (history (engine self) ++ [r1; r2])%list
  /\ reference_profiles self2 = reference_profiles self.
Proof.
  intros H1 H2. apply run_reference_inv in H1 as (profile & _ & H1 & Hcat).
  apply assess_inv in H1 as (_ & _ & _ & _ & _ & _ & _ & _ & Hh1).
  unfold run_custom in H2.
  destruct (assess json_encode sha256_hexdigest (engine self1) p now')
    as [[r e]|] eqn:H; simpl in H2; [|discriminate].
  injection H2 as <- <-. simpl.
  apply assess_inv in H as (_ & _ & _ & _ & _ & _ & Hph & _ & ->).
  rewrite Hh1 in *. simpl in *. rewrite prev_hash_snoc in Hph.
  split; [by eexists|]. split; [by rewrite <- app_assoc|done].
Qed.

End RunnerFacts.

(** * Further properties of the report *)

Lemma py_int_nonneg x : 0 <= x -> (0 <= py_int x)%Z /\ IZR (py_int x) <= x.
Proof.
  intros Hx. unfold py_int. destruct (Rle_dec 0 x); [|lra].
  destruct (base_Int_part x) as [Hle Hgt]. split; [|done].
  assert (-1 < IZR (Int_part x)) by lra.
  apply lt_IZR in H. lia.
Qed.

Lemma py_int_small x : -1 < x < 0 -> py_int x = 0%Z.
Proof.
  intros Hx. unfold py_int. destruct (Rle_dec 0 x); [lra|].
  destruct (base_Int_part (- x)) as [Hle Hgt].
  assert (H1 : IZR (Int_part (- x)) < 1) by lra.
  assert (H2 : -1 < IZR (Int_part (- x))) by lra.
  apply lt_IZR in H1, H2. lia.
Qed.

Lemma py_int_neg x : x <= -1 -> (py_int x <= -1)%Z.
Proof.
  intros Hx. unfold py_int. destruct (Rle_dec 0 x); [lra|].
  destruct (base_Int_part (- x)) as [Hle Hgt].
  assert (H1 : 0 < IZR (Int_part (- x))) by lra.
  apply lt_IZR in H1. lia.
Qed.

Lemma theory_bar_width score :
  score <= 1 ->
  ((fst (theory_bar score) + snd (theory_bar score) = 20)%nat <-> -1 / 20 < score)
  /\ (fst (theory_bar score) <= 20)%nat.
Proof.
  intros H1. unfold theory_bar. simpl.
  destruct (Rle_dec 0 (score * 20)) as [H0|H0].
  - destruct (py_int_nonneg _ H0) as [Hk Hk'].
    assert (Hk20 : IZR (py_int (score * 20)) <= 20) by lra.
    apply le_IZR in Hk20. split; [split; [lra|lia]|lia].
  - destruct (Rlt_dec (-1) (score * 20)) as [Hs|Hs].
    + rewrite py_int_small by lra. simpl. split; [split; [lra|lia]|lia].
    + pose proof (py_int_neg (score * 20) ltac:(lra)). split; [split; [lia|lra]|lia].
Qed.

Lemma status_icon_status i :
  (status_icon i = "✓" <-> status i = "SATISFIED")
  /\ (status_icon i = "◐" <-> status i = "PARTIAL")
  /\ (status_icon i = "✗" <-> status i = "NOT_SATISFIED").
Proof.
  unfold status_icon, status. destruct (satisfied i), (partial i);
    repeat split; intros; try discriminate; reflexivity.
Qed.

Section ReportFacts.

Variable json_encode : json -> string.
Variable sha256_hexdigest : string -> string.

Lemma theory_scores_le_one self p now r e' :
  assess json_encode sha256_hexdigest self p now = Ok (r, e') ->
  Forall (fun ts : string * R => snd ts <= 1) (theory_scores r).
Proof.
  intros H. apply assess_inv in H as (Hb & _ & _ & _ & Hts & _).
  pose proof (run_battery_Forall _ _ _ _ (battery_flags _) Hb) as Hs.
  pose proof (run_battery_ids _ _ Hb) as Hids.
  rewrite Hts, (theory_scores_battery _ Hids). clear Hb Hts.
  generalize dependent (indicators r). intros l Hs Hids.
  battery_shape l Hids.
  repeat match goal with
  | H : Forall _ (_ :: _) |- _ =>
      let Hi := fresh "Hi" in apply Forall_cons_1 in H as [(_ & _ & Hi) H]
  end.
  unfold nth_score. simpl.
  repeat (apply List.Forall_cons; [simpl; lra|]). apply List.Forall_nil.
Qed.

(** X19.  In the report of a result of [assess], the bar of a theory is 20
    cells wide exactly when the theory score is above -1/20 (so always for a
    profile without negative numbers, and not at the negative scores that
    the missing lower clamp allows), and it never has more than 20 full
    cells; the icon of an indicator is the check mark, the half circle or
    the cross exactly when its [status] is SATISFIED, PARTIAL or
    NOT_SATISFIED. *)
Theorem report_bars_and_icons self p now r e' :
  assess json_encode sha256_hexdigest self p now = Ok (r, e') ->
  Forall (fun ts : string * R =>
            ((fst (theory_bar (snd ts)) + snd (theory_bar (snd ts)) = 20)%nat
             <-> -1 / 20 < snd ts)
            /\ (fst (theory_bar (snd ts)) <= 20)%nat) (theory_scores r)
  /\ Forall (fun i => (status_icon i = "✓" <-> status i = "SATISFIED")
                      /\ (status_icon i = "◐" <-> status i = "PARTIAL")
                      /\ (status_icon i = "✗" <-> status i = "NOT_SATISFIED"))
       (indicators r).
Proof.
  intros H. split.
  - eapply Forall_impl; [exact (theory_scores_le_one _ _ _ _ _ H)|].
    intros ts Hts. by apply theory_bar_width.
  - apply Forall_forall. intros i _. apply status_icon_status.
Qed.

(** X20.  The proof hash covers the metadata name, the credence, the two
    counts, the theory scores and the previous hash, and nothing else: two
    calls on engines with the same last hash, for profiles that agree on
    the three scored sections and on a name that is a string (or absent),
    return the same proof hash, whatever the clock, the system type and the
    other sections. *)
Theorem proof_hash_inputs self self' p p' now now' r e1 r' e2 :
  Forall (fun s => section_of p s = section_of p' s)
    ["architecture"; "behaviors"; "internal_states"] ->
  (exists s, dict_get (section_of p "metadata") "name" (VStr "unknown") = VStr s) ->
  dict_get (section_of p "metadata") "name" (VStr "unknown")
  = dict_get (section_of p' "metadata") "name" (VStr "unknown") ->
  prev_hash (history self) = prev_hash (history self') ->
  assess json_encode sha256_hexdigest self p now = Ok (r, e1) ->
  assess json_encode sha256_hexdigest self' p' now' = Ok (r', e2) ->
  proof_hash r = proof_hash r'.
Proof.
  intros Hsec _ Hname Hprev H H'. apply sections_battery in Hsec.
  apply assess_inv in H as (Hb & Hs & Hp & _ & Hts & Hc & Hph & _).
  apply assess_inv in H' as (Hb' & Hs' & Hp' & _ & Hts' & Hc' & Hph' & _).
  assert (Hi : indicators r = indicators r') by congruence.
  assert (Ht : theory_scores r = theory_scores r') by (by rewrite Hts, Hts', Hi).
  rewrite Hph, Hph', Hname, Hprev, Ht.
  replace (credence r') with (credence r) by congruence.
  replace (satisfied_count r') with (satisfied_count r) by congruence.
  replace (partial_count r') with (partial_count r) by congruence.
  reflexivity.
Qed.
End ReportFacts.


(** * Closed examples of the further properties *)

(** X3 at one RPT indicator going from unsatisfied to satisfied and the RPT
    score from 0.2 to 0.9. *)
Lemma aggregate_monotone_in_status_witness :
  aggregate [unsatisfied_rpt] [("RPT", 0.2)] <= aggregate [satisfied_rpt] [("RPT", 0.9)].
Proof.
  apply (aggregate_monotone_in_status [unsatisfied_rpt] [satisfied_rpt]
           [("RPT", 0.2)] [("RPT", 0.9)]).
  - apply List.Forall2_cons; [|apply List.Forall2_nil].
    split; [reflexivity|]. unfold status_rank. simpl. lia.
  - apply List.Forall2_cons; [|apply List.Forall2_nil].
    split; [reflexivity|]. simpl. lra.
Defined.

(** X4 at two unsatisfied RPT indicators of different identifier and
    score. *)
Lemma aggregate_reads_theory_and_status_only_witness :
  aggregate [unsatisfied_rpt] [] = aggregate [unsatisfied_rpt2] [].
Proof.
  apply (aggregate_reads_theory_and_status_only [unsatisfied_rpt] [unsatisfied_rpt2] []).
  apply List.Forall2_cons; [|apply List.Forall2_nil].
  split; reflexivity.
Defined.

(** X8 at the empty profile. *)
Lemma assess_battery_order_witness :
  exists r e',
    assess no_encode no_digest IndicatorEngine_init ∅ "" = Ok (r, e')
    /\ map (fun i => (indicator_id i, theory i)) (indicators r) = battery_ids
    /\ total_indicators r = 13%nat.
Proof.
  destruct (assess no_encode no_digest IndicatorEngine_init ∅ "")
    as [[r e']|e] eqn:H; [|not_raised H].
  exists r, e'. split; [reflexivity|].
  destruct (assess_battery_order no_encode no_digest IndicatorEngine_init ∅ "" r e' H)
    as (Hids & Ht & _).
  split; [exact Hids|exact Ht].
Defined.

(** X10 at the empty profile. *)
Lemma status_counts_witness :
  exists r e',
    assess no_encode no_digest IndicatorEngine_init ∅ "" = Ok (r, e')
    /\ (satisfied_count r + partial_count r
        + count_status "NOT_SATISFIED" (indicators r) = 13)%nat.
Proof.
  destruct (assess no_encode no_digest IndicatorEngine_init ∅ "")
    as [[r e']|e] eqn:H; [|not_raised H].
  exists r, e'. split; [reflexivity|].
  destruct (status_counts no_encode no_digest IndicatorEngine_init ∅ "" r e' H)
    as (_ & _ & _ & Hn).
  exact Hn.
Defined.

(** X12 at the empty profile. *)
Lemma assess_credence_unclamped_witness :
  exists r e',
    assess no_encode no_digest IndicatorEngine_init ∅ "" = Ok (r, e')
    /\ / 4105 <= credence r < 0.95.
Proof.
  destruct (assess no_encode no_digest IndicatorEngine_init ∅ "")
    as [[r e']|e] eqn:H; [|not_raised H].
  exists r, e'. split; [reflexivity|].
  destruct (assess_credence_unclamped no_encode no_digest IndicatorEngine_init ∅ ""
              r e' H) as [_ Hc].
  exact Hc.
Defined.

(** X14 at [recurrence_depth] raised from 0 to 10 over the empty
    profile. *)
Lemma raising_a_field_never_lowers_the_credence_witness :
  exists r e1 r' e2,
    assess no_encode no_digest IndicatorEngine_init
      (set_field ∅ "architecture" "recurrence_depth" (VNum 0)) "" = Ok (r, e1)
    /\ assess no_encode no_digest IndicatorEngine_init
         (set_field ∅ "architecture" "recurrence_depth" (VNum 10)) "" = Ok (r', e2)
    /\ (satisfied_count r <= satisfied_count r')%nat
    /\ credence r <= credence r'.
Proof.
  destruct (assess no_encode no_digest IndicatorEngine_init
              (set_field ∅ "architecture" "recurrence_depth" (VNum 0)) "")
    as [[r e1]|e] eqn:H; [|not_raised H].
  destruct (assess no_encode no_digest IndicatorEngine_init
              (set_field ∅ "architecture" "recurrence_depth" (VNum 10)) "")
    as [[r' e2]|e] eqn:H'; [|not_raised H'].
  exists r, e1, r', e2. split; [reflexivity|]. split; [reflexivity|].
  assert (Hv : value_raise (VNum 0) (VNum 10)) by (apply raise_num; lra).
  destruct (raising_a_field_never_lowers_the_credence no_encode no_digest ∅
              "architecture" "recurrence_depth" (VNum 0) (VNum 10)
              IndicatorEngine_init "" r e1 r' e2
              ltac:(discriminate) ltac:(discriminate) Hv H H') as (_ & Hs & Hc).
  split; [exact Hs|exact Hc].
Defined.

(** X17 at a fresh runner. *)
Lemma run_all_references_on_catalog_witness :
  exists rs self',
    run_all_references no_encode no_digest AssessmentRunner_init (fun _ => "")
    = Ok (rs, self')
    /\ map system_name rs
       = [VStr "ORION-Active-Inference Agent"; VStr "GPT-4";
          VStr "C. elegans (302 neurons)"; VStr "Simple Thermostat"].
Proof.
  destruct (run_all_references_on_catalog no_encode no_digest AssessmentRunner_init
              (fun _ => "") eq_refl) as (rs & self' & H & _ & Hn).
  exists rs, self'. split; [exact H|exact Hn].
Defined.

(** X18 at a runner whose catalog holds the empty profile. *)
Lemma runner_calls_share_the_chain_witness :
  exists r1 self1 r2 self2,
    run_reference no_encode no_digest empty_catalog_runner "empty" "" = Ok (r1, self1)
    /\ run_custom no_encode no_digest self1 ∅ "" = Ok (r2, self2)
    /\ hashed_over no_encode no_digest r2 (proof_hash r1)
    /\ history (engine self2) = [r1; r2].
Proof.
  destruct (run_reference no_encode no_digest empty_catalog_runner "empty" "")
    as [[r1 self1]|e] eqn:H1; [|not_raised H1].
  destruct (run_custom no_encode no_digest self1 ∅ "")
    as [[r2 self2]|e] eqn:H2.
  - exists r1, self1, r2, self2. split; [reflexivity|]. split; [exact H2|].
    destruct (runner_calls_share_the_chain no_encode no_digest empty_catalog_runner
                "empty" "" ∅ "" r1 self1 r2 self2 H1 H2) as (Hh & Hl & _).
    split; [exact Hh|exact Hl].
  - exfalso. unfold run_custom in H2.
    destruct (assess_total no_encode no_digest (engine self1) ∅ ""
                numeric_profile_empty) as (r & e' & Ha).
    rewrite Ha in H2. discriminate H2.
Defined.

(** * Closed profiles *)

Lemma recurrent_battery l :
  run_battery battery recurrent_profile = Ok l ->
  map score l = [1; 0; 0; 0; 0; 0; 0; 0; 0; 0; 0; 0; 0]
  /\ map satisfied l
     = [true; false; false; false; false; false; false; false; false; false; false;
        false; false]
  /\ map partial l
     = [true; false; false; false; false; false; false; false; false; false; false;
        false; false].
Proof.
  intros H. unfold battery in H.
  repeat (let Hf := fresh "Hf" in
          apply run_battery_cons in H as (? & ? & -> & Hf & H);
          unfold recurrent_profile in Hf; run_closed Hf).
  injection H as <-. cbn [map score satisfied partial].
  split; [|split];
    repeat (apply (f_equal2 cons); [rcases; lra|]); reflexivity.
Qed.

Lemma assoc_last_In {V : Type} (items : list (string * V)) k v :
  assoc_last items k = Some v -> In (k, v) items.
Proof.
  induction items as [|[k' v'] items IH]; simpl; [discriminate|].
  destruct (assoc_last items k) as [w|] eqn:E.
  - intros [= <-]. right. by apply IH.
  - destruct (String.eqb k' k) eqn:Ek; [|discriminate].
    apply String.eqb_eq in Ek as ->. intros [= <-]. by left.
Qed.

Lemma dict_literal_values (P : value -> Prop) items :
  Forall (fun kv => P (snd kv)) items ->
  forall k v, dict_literal items !! k = Some v -> P v.
Proof.
  intros Hall k v. rewrite dict_literal_lookup. intros H%assoc_last_In.
  rewrite List.Forall_forall in Hall. exact (Hall _ H).
Qed.

Lemma profile_literal_values (P : value -> Prop) sections :
  Forall (fun sec : string * list (string * value) =>
            Forall (fun kv => P (snd kv)) (snd sec)) sections ->
  forall s k v, section_of (profile_literal sections) s !! k = Some v -> P v.
Proof.
  intros Hall s k v. unfold section_of, profile_literal.
  rewrite dict_literal_lookup.
  destruct (assoc_last _ s) as [d|] eqn:E; simpl; [|by rewrite lookup_empty].
  apply assoc_last_In, in_map_iff in E as ([s' items] & [= -> <-] & Hin).
  rewrite List.Forall_forall in Hall. apply dict_literal_values. exact (Hall _ Hin).
Qed.

Ltac literal_values :=
  repeat (apply List.Forall_cons;
          [cbn [snd];
           repeat (apply List.Forall_cons;
                   [cbn [snd]; first [exact I|unfold float_max, Rabs;
                                      try destruct (Rcase_abs _); lra]|]);
           apply List.Forall_nil|]);
  apply List.Forall_nil.

Lemma nonneg_recurrent_profile : nonneg_profile recurrent_profile.
Proof.
  intros s k x H.
  apply (profile_literal_values
           (fun v => match v with VNum y => 0 <= y | _ => True end)
           [("architecture", [("has_recurrent_connections", VBool true);
                              ("recurrence_depth", VNum 10);
                              ("feedback_loop_count", VNum 5)])] ltac:(literal_values)
           s k (VNum x) H).
Qed.

Lemma float_range_recurrent_profile : float_range_profile recurrent_profile.
Proof.
  intros s k x H.
  apply (profile_literal_values
           (fun v => match v with VNum y => Rabs y <= float_max | _ => True end)
           [("architecture", [("has_recurrent_connections", VBool true);
                              ("recurrence_depth", VNum 10);
                              ("feedback_loop_count", VNum 5)])] ltac:(literal_values)
           s k (VNum x) H).
Qed.

Lemma float_range_word_depth_profile : float_range_profile word_depth_profile.
Proof.
  intros s k x H.
  apply (profile_literal_values
           (fun v => match v with VNum y => Rabs y <= float_max | _ => True end)
           [("architecture", [("recurrence_depth", VStr "deep")])] ltac:(literal_values)
           s k (VNum x) H).
Qed.

Lemma no_string_recurrent_profile :
  Forall (not_a_string recurrent_profile) numeric_fields.
Proof.
  apply Forall_forall. intros [s k] _ str H. simpl in H.
  exact (profile_literal_values
           (fun v => match v with VStr _ => False | _ => True end)
           [("architecture", [("has_recurrent_connections", VBool true);
                              ("recurrence_depth", VNum 10);
                              ("feedback_loop_count", VNum 5)])] ltac:(literal_values)
           s k (VStr str) H).
Qed.

(** One satisfied RPT indicator under an RPT score of 0.9: suppressing it
    lowers the credence. *)
Lemma satisfied_rpt_contribution_pos : 0 < satisfied_rpt_contribution.
Proof.
  unfold satisfied_rpt_contribution. rewrite !aggregate_posterior. simpl. unfold spec_weight. simpl.
  unfold spec_likelihood_ratio. simpl.
  assert (Hb : Rgeb 0.9 0.7 = true) by (apply Rgeb_true; lra). rewrite Hb.
  assert (Hlt : 0.15 * ln (0.15 / 0.85 + 1e-10) + 0 < 0.15 * ln (0.85 / 0.15 + 1e-10) + 0).
  { assert (ln (0.15 / 0.85 + 1e-10) < ln (0.85 / 0.15 + 1e-10))
      by (apply ln_increasing; lra).
    lra. }
  apply posterior_lt in Hlt.
  assert (Hhi : 0.15 * ln (0.85 / 0.15 + 1e-10) + 0 <= 3 * ln 6).
  { assert (ln (0.85 / 0.15 + 1e-10) <= ln 6) by (apply ln_le_compat; lra).
    pose proof ln_6_pos. lra. }
  apply posterior_le in Hhi. rewrite posterior_upper in Hhi.
  rcases; lra.
Qed.

Lemma nth_score_map l n : nth_score l n = default 0 (map score l !! n).
Proof.
  unfold nth_score. change (map score l) with (score <$> l).
  rewrite list_lookup_fmap. by destruct (l !! n).
Qed.

Lemma py_int_IZR z : py_int (IZR z) = z.
Proof.
  unfold py_int. destruct (Rle_dec 0 (IZR z)) as [H|H].
  - symmetry. apply Int_part_spec. lra.
  - rewrite <- opp_IZR. rewrite <- (Int_part_spec (IZR (- z)) (- z)%Z) by lra. lia.
Qed.

Lemma theory_bar_half : theory_bar ((1 + 0) / 2) = (10%nat, 10%nat).
Proof.
  unfold theory_bar. replace ((1 + 0) / 2 * 20) with (IZR 10) by lra.
  by rewrite py_int_IZR.
Qed.

Lemma theory_bar_minus_five : theory_bar ((-10 + 0) / 2) = (0%nat, 120%nat).
Proof.
  unfold theory_bar. replace ((-10 + 0) / 2 * 20) with (IZR (-100)) by lra.
  by rewrite py_int_IZR.
Qed.

Lemma negative_depth_battery l :
  run_battery battery negative_depth_profile = Ok l ->
  nth_score l 0 = -10 /\ nth_score l 1 = 0.
Proof.
  intros H. unfold battery in H.
  apply run_battery_cons in H as (i1 & l1 & -> & H1 & H).
  apply run_battery_cons in H as (i2 & l2 & -> & H2 & _).
  unfold negative_depth_profile in H1, H2. run_closed H1. run_closed H2.
  unfold nth_score. simpl. split; rcases; lra.
Qed.

Section ClosedProfiles.

Variable json_encode : json -> string.
Variable sha256_hexdigest : string -> string.

(** What [assess] returns on a profile whose scored sections are those of
    the RPT-1 scenario. *)
Lemma recurrent_assessment self p now r e' :
  Forall (fun s => section_of p s = section_of recurrent_profile s)
    ["architecture"; "behaviors"; "internal_states"] ->
  assess json_encode sha256_hexdigest self p now = Ok (r, e') ->
  map score (indicators r) = [1; 0; 0; 0; 0; 0; 0; 0; 0; 0; 0; 0; 0]
  /\ (exists i, indicators r !! 0%nat = Some i /\ satisfied i = true /\ score i = 1)
  /\ satisfied_count r = 1%nat
  /\ partial_count r = 0%nat
  /\ theory_scores r
     = [("RPT", (1 + 0) / 2); ("GWT", (0 + 0 + 0) / 3); ("HOT", (0 + 0 + 0 + 0) / 4);
        ("PP", (0 + 0) / 2); ("AST", (0 + 0) / 2)].
Proof.
  intros Hsec H. apply sections_battery in Hsec.
  apply assess_inv in H as (Hb & Hs & Hp & _ & Hts & _).
  rewrite Hsec in Hb.
  pose proof (run_battery_ids _ _ Hb) as Hids.
  rewrite Hts, (theory_scores_battery _ Hids), !nth_score_map, Hs, Hp.
  apply recurrent_battery in Hb as (Hsc & Hsat & Hpar). rewrite Hsc.
  split; [done|]. clear Hts Hs Hp Hids.
  generalize dependent (indicators r). intros l Hsc Hsat Hpar.
  repeat (destruct l as [|? l]; [discriminate Hsat|];
          injection Hsat as ? Hsat; injection Hpar as ? Hpar;
          injection Hsc as ? Hsc).
  destruct l; [|discriminate Hsat].
  split; [eexists; split; [reflexivity|by split]|].
  simpl.
  repeat match goal with
  | H : satisfied _ = _ |- _ => rewrite H; clear H
  | H : partial _ = _ |- _ => rewrite H; clear H
  end.
  done.
Qed.

Lemma negative_depth_assessment self now r e' :
  assess json_encode sha256_hexdigest self negative_depth_profile now = Ok (r, e') ->
  In ("RPT", (-10 + 0) / 2) (theory_scores r).
Proof.
  intros H. apply assess_inv in H as (Hb & _ & _ & _ & Hts & _).
  rewrite Hts, (theory_scores_battery _ (run_battery_ids _ _ Hb)).
  apply negative_depth_battery in Hb as [-> ->]. by left.
Qed.

End ClosedProfiles.

Lemma recurrent_sections_named :
  Forall (fun s => section_of named_recurrent_profile s = section_of recurrent_profile s)
    ["architecture"; "behaviors"; "internal_states"].
Proof.
  repeat (apply List.Forall_cons;
          [unfold section_of, named_recurrent_profile, recurrent_profile;
           rewrite !dict_literal_lookup; reflexivity|]).
  apply List.Forall_nil.
Qed.


Lemma recurrent_sections_named_labelled type :
  Forall (fun s => section_of named_recurrent_profile s
                   = section_of (labelled_recurrent_profile type) s)
    ["architecture"; "behaviors"; "internal_states"].
Proof.
  repeat (apply List.Forall_cons;
          [unfold section_of, named_recurrent_profile, labelled_recurrent_profile;
           rewrite !dict_literal_lookup; reflexivity|]).
  apply List.Forall_nil.
Qed.

Lemma recurrent_sections_refl :
  Forall (fun s => section_of recurrent_profile s = section_of recurrent_profile s)
    ["architecture"; "behaviors"; "internal_states"].
Proof. repeat (apply List.Forall_cons; [reflexivity|]). apply List.Forall_nil. Qed.

Lemma named_recurrent_name :
  dict_get (section_of named_recurrent_profile "metadata") "name" (VStr "unknown")
  = VStr "Probe".
Proof.
  unfold section_of, named_recurrent_profile, dict_get.
  rewrite dict_literal_lookup.
  cbv [assoc_last fst snd String.eqb Ascii.eqb Bool.eqb andb from_option
       Datatypes.id default].
  by rewrite dict_literal_lookup.
Qed.

Lemma labelled_recurrent_name type :
  dict_get (section_of (labelled_recurrent_profile type) "metadata") "name"
    (VStr "unknown") = VStr "Probe".
Proof.
  unfold section_of, labelled_recurrent_profile, dict_get.
  rewrite dict_literal_lookup.
  cbv [assoc_last fst snd String.eqb Ascii.eqb Bool.eqb andb from_option
       Datatypes.id default].
  by rewrite dict_literal_lookup.
Qed.

(** With the encoder that prints the previous hash only, a result is
    hashed over [prev] exactly when its proof hash shows [prev]. *)
Lemma hashed_over_prev r prev :
  hashed_over prev_encode id_digest r prev
  <-> proof_hash r = "sha256:" ++ substring 0 32 prev.
Proof.
  unfold hashed_over. split.
  - intros [system ->]. reflexivity.
  - intros ->. exists (VStr ""). reflexivity.
Qed.

(** The proof hash of the named RPT-1 scenario on a fresh engine, under
    the encoder that prints system, previous hash and counts. *)
Lemma named_recurrent_hash p now r e' :
  Forall (fun s => section_of p s = section_of recurrent_profile s)
    ["architecture"; "behaviors"; "internal_states"] ->
  dict_get (section_of p "metadata") "name" (VStr "unknown") = VStr "Probe" ->
  assess summary_encode id_digest IndicatorEngine_init p now = Ok (r, e') ->
  proof_hash r = "sha256:Probe/GENESIS/I/".
Proof.
  intros Hsec Hname H.
  pose proof (recurrent_assessment _ _ _ _ _ _ _ Hsec H) as (_ & _ & Hs & Hp & _).
  apply assess_inv in H as (_ & _ & _ & _ & _ & _ & Hph & _).
  rewrite Hph, Hname, Hs, Hp. reflexivity.
Qed.

(** * Closed examples that exercise the properties *)

(** C4 at two calls in a row on a fresh engine, with the encoder that
    prints the previous hash and the digest that returns the bytes: the
    first result shows GENESIS, the second the first result's hash, and
    both are in the history, in order. *)
Lemma proof_hash_chained_witness :
  exists r1 e1 r2 e2,
    assess prev_encode id_digest IndicatorEngine_init ∅ "" = Ok (r1, e1)
    /\ assess prev_encode id_digest e1 ∅ "" = Ok (r2, e2)
    /\ proof_hash r1 = "sha256:GENESIS"
    /\ proof_hash r2 = "sha256:sha256:GENESIS"
    /\ history e2 = [r1; r2].
Proof.
  destruct (assess_total prev_encode id_digest IndicatorEngine_init ∅ ""
              numeric_profile_empty) as (r1 & e1 & H1).
  destruct (assess_total prev_encode id_digest e1 ∅ "" numeric_profile_empty)
    as (r2 & e2 & H2).
  exists r1, e1, r2, e2. split; [exact H1|]. split; [exact H2|].
  pose proof (proof_hash_chained prev_encode id_digest IndicatorEngine_init ∅ ""
                r1 e1 H1) as Hfirst.
  pose proof (proof_hash_chained prev_encode id_digest e1 ∅ "" r2 e2 H2) as Hsecond.
  cbv zeta in Hfirst, Hsecond.
  destruct Hfirst as (_ & _ & _ & _ & _ & Hph1 & Hh1).
  destruct Hsecond as (_ & _ & _ & _ & _ & Hph2 & Hh2).
  assert (Hp1 : proof_hash r1 = "sha256:GENESIS") by exact Hph1.
  rewrite Hh1 in Hph2, Hh2. simpl in Hh2.
  rewrite prev_hash_snoc, Hp1 in Hph2.
  split; [exact Hp1|]. split; [exact Hph2|exact Hh2].
Defined.

(** C8 on the catalog of the source: an unknown name raises the Not-Found
    error with the four names listed, and Thermostat is assessed. *)
Lemma run_reference_not_found_iff_absent_witness :
  run_reference no_encode no_digest AssessmentRunner_init "HAL" ""
  = Raise (ValueError
             "Unknown system: HAL. Available: ['ORION-Active-Inference', 'GPT-4', 'C-elegans-302-neurons', 'Thermostat']")
  /\ exists r self',
       run_reference no_encode no_digest AssessmentRunner_init "Thermostat" ""
       = Ok (r, self').
Proof.
  split.
  - destruct (run_reference_not_found_iff_absent no_encode no_digest
                AssessmentRunner_init "HAL" "") as (_ & Hmsg & _).
    apply Hmsg.
    + simpl. intros [H|[H|[H|[H|[]]]]]; discriminate H.
    + repeat (apply List.Forall_cons; [reflexivity|]). apply List.Forall_nil.
  - destruct (run_reference_not_found_iff_absent no_encode no_digest
                AssessmentRunner_init "Thermostat" "") as (_ & _ & _ & Hfound & _).
    destruct Hfound as (profile & _ & Hin & Hrun).
    { simpl. right. right. right. left. reflexivity. }
    assert (Hnum : numeric_profile profile).
    { pose proof numeric_reference_profiles as Hall.
      rewrite List.Forall_forall in Hall. exact (Hall _ Hin). }
    destruct (assess_total no_encode no_digest (engine AssessmentRunner_init) profile ""
                Hnum) as (r & e' & Ha).
    rewrite Ha in Hrun. eexists _, _. exact Hrun.
Defined.

(** C9 at one satisfied RPT indicator under an RPT score of 0.9 (so that
    the bonus is present in both runs): its entry is the drop in credence
    when it is suppressed, which is not negative, and here not 0. *)
Lemma sensitivity_contributions_nonneg_witness :
  sensitivity_analysis [satisfied_rpt] [("RPT", 0.9)] !! "RPT-1"
  = Some satisfied_rpt_contribution
  /\ 0 <= satisfied_rpt_contribution
  /\ satisfied_rpt_contribution <> 0.
Proof.
  assert (H : sensitivity_analysis [satisfied_rpt] [("RPT", 0.9)] !! "RPT-1"
              = Some satisfied_rpt_contribution).
  { unfold sensitivity_analysis, satisfied_rpt_contribution. simpl.
    apply lookup_insert_eq. }
  split; [exact H|]. split.
  - exact (sensitivity_contributions_nonneg [satisfied_rpt] [("RPT", 0.9)] "RPT-1"
             satisfied_rpt_contribution H).
  - pose proof satisfied_rpt_contribution_pos as Hpos.
    intros Hv. rewrite Hv in Hpos. exact (Rlt_irrefl 0 Hpos).
Defined.

(** C10 at the RPT-1 scenario, whose first indicator is satisfied. *)
Lemma satisfied_implies_partial_witness :
  exists r e' i,
    assess no_encode no_digest IndicatorEngine_init recurrent_profile
      "2026-01-01T00:00:00+00:00" = Ok (r, e')
    /\ indicators r !! 0%nat = Some i
    /\ satisfied i = true
    /\ partial i = true
    /\ satisfied_count r = 1%nat
    /\ (partial_count r <= 14 - satisfied_count r)%nat
    /\ (satisfied_count r + partial_count r <= total_indicators r)%nat.
Proof.
  destruct (assess no_encode no_digest IndicatorEngine_init recurrent_profile
              "2026-01-01T00:00:00+00:00") as [[r e']|e] eqn:H.
  2:{ exfalso.
      destruct (assess_total no_encode no_digest IndicatorEngine_init recurrent_profile
                  "2026-01-01T00:00:00+00:00" numeric_recurrent_profile)
        as (r & e' & H').
      rewrite H in H'. discriminate H'. }
  destruct (recurrent_assessment _ _ _ _ _ _ _ recurrent_sections_refl H)
    as (_ & (i & Hi & Hsat & _) & Hs & _).
  destruct (satisfied_implies_partial no_encode no_digest IndicatorEngine_init
              recurrent_profile "2026-01-01T00:00:00+00:00" r e' H)
    as (_ & Hall & Hp & Hsum).
  exists r, e', i. split; [reflexivity|]. split; [exact Hi|]. split; [exact Hsat|].
  split.
  - rewrite List.Forall_forall in Hall. apply Hall; [|exact Hsat].
    apply list_elem_of_In. eapply list_elem_of_lookup_2. exact Hi.
  - split; [exact Hs|]. split; [exact Hp|exact Hsum].
Defined.

(** X1 at a satisfied and an unsatisfied indicator. *)
Lemma aggregate_within_bounds_witness :
  0 < aggregate [satisfied_rpt; unsatisfied_rpt2] [("RPT", 0.9)] <= 0.99.
Proof.
  apply (aggregate_within_bounds [satisfied_rpt; unsatisfied_rpt2] [("RPT", 0.9)]).
  simpl. lia.
Defined.

(** X2 at one theory score below the threshold. *)
#[warnings="-inexact-float"]
Lemma aggregate_no_evidence_witness :
  aggregate [] [("RPT", 0.5)] = posterior 0
  /\ Rabs (aggregate [] [("RPT", 0.5)] - 0.05) <= 1e-15.
Proof.
  destruct (aggregate_no_evidence [("RPT", 0.5)]) as (H1 & H2 & _).
  - apply List.Forall_cons; [simpl; lra|apply List.Forall_nil].
  - split; [exact H1|exact H2].
Defined.

(** X6 at a satisfied indicator under an RPT score of 0.9, whose
    contribution is positive and below the credence, and at an unsatisfied
    indicator beside it, whose contribution is 0. *)
Lemma sensitivity_contribution_range_witness :
  0 < satisfied_rpt_contribution
  /\ satisfied_rpt_contribution < aggregate [satisfied_rpt] [("RPT", 0.9)]
  /\ contribution [satisfied_rpt; unsatisfied_rpt2] [("RPT", 0.9)] 1 unsatisfied_rpt2 = 0.
Proof.
  split; [exact satisfied_rpt_contribution_pos|]. split.
  - assert (H : sensitivity_analysis [satisfied_rpt] [("RPT", 0.9)] !! "RPT-1"
                = Some satisfied_rpt_contribution).
    { unfold sensitivity_analysis, satisfied_rpt_contribution. simpl.
      apply lookup_insert_eq. }
    destruct (sensitivity_contribution_range [satisfied_rpt] [("RPT", 0.9)] "RPT-1"
                satisfied_rpt_contribution ltac:(simpl; lia) H) as [Hlt _].
    exact Hlt.
  - assert (H : sensitivity_analysis [satisfied_rpt; unsatisfied_rpt2] [("RPT", 0.9)]
                !! "RPT-2"
                = Some (contribution [satisfied_rpt; unsatisfied_rpt2] [("RPT", 0.9)] 1
                          unsatisfied_rpt2)).
    { unfold sensitivity_analysis. simpl. apply lookup_insert_eq. }
    destruct (sensitivity_contribution_range [satisfied_rpt; unsatisfied_rpt2]
                [("RPT", 0.9)] "RPT-2" _ ltac:(simpl; lia) H) as [_ Hzero].
    apply Hzero. intros a Ha Hid.
    apply elem_of_cons in Ha as [->|Ha]; [discriminate Hid|].
    apply list_elem_of_singleton in Ha. rewrite Ha. reflexivity.
Defined.

(** X7 at the RPT-1 scenario, which is assessed, and at a profile whose
    [recurrence_depth] is a word, which raises [TypeError]. *)
Lemma assess_raises_iff_string_field_witness :
  (exists r e',
     assess no_encode no_digest IndicatorEngine_init recurrent_profile "" = Ok (r, e'))
  /\ assess no_encode no_digest IndicatorEngine_init word_depth_profile ""
     = Raise TypeError.
Proof.
  split.
  - destruct (assess_raises_iff_string_field no_encode no_digest IndicatorEngine_init
                recurrent_profile "" float_range_recurrent_profile) as ([_ Hok] & _).
    apply Hok. exact no_string_recurrent_profile.
  - destruct (assess_raises_iff_string_field no_encode no_digest IndicatorEngine_init
                word_depth_profile "" float_range_word_depth_profile)
      as (_ & [_ Hraise] & _).
    apply Hraise. intros Hall. apply Forall_cons_1 in Hall as [Hdepth _].
    apply (Hdepth "deep"). unfold section_of, word_depth_profile. simpl fst. simpl snd.
    rewrite dict_literal_lookup.
    cbv [assoc_last fst snd String.eqb Ascii.eqb Bool.eqb andb from_option
         Datatypes.id default].
    rewrite dict_literal_lookup. reflexivity.
Defined.

(** X9 at the RPT-1 scenario: the RPT score is the mean of 1 and 0. *)
Lemma theory_scores_are_means_witness :
  exists r e',
    assess no_encode no_digest IndicatorEngine_init recurrent_profile "" = Ok (r, e')
    /\ map score (indicators r) = [1; 0; 0; 0; 0; 0; 0; 0; 0; 0; 0; 0; 0]
    /\ theory_scores r
       = [("RPT", (1 + 0) / 2); ("GWT", (0 + 0 + 0) / 3); ("HOT", (0 + 0 + 0 + 0) / 4);
          ("PP", (0 + 0) / 2); ("AST", (0 + 0) / 2)].
Proof.
  destruct (assess no_encode no_digest IndicatorEngine_init recurrent_profile "")
    as [[r e']|e] eqn:H.
  2:{ exfalso.
      destruct (assess_total no_encode no_digest IndicatorEngine_init recurrent_profile
                  "" numeric_recurrent_profile) as (r & e' & H').
      rewrite H in H'. discriminate H'. }
  exists r, e'. split; [reflexivity|].
  destruct (recurrent_assessment _ _ _ _ _ _ _ recurrent_sections_refl H)
    as (Hsc & _).
  split; [exact Hsc|].
  rewrite (theory_scores_are_means no_encode no_digest IndicatorEngine_init
             recurrent_profile "" r e' H).
  cbv zeta. rewrite !nth_score_map, Hsc. reflexivity.
Defined.

(** X11 at the RPT-1 scenario, whose numbers are 10 and 5. *)
Lemma nonnegative_profile_scores_in_range_witness :
  exists r e',
    assess no_encode no_digest IndicatorEngine_init recurrent_profile "" = Ok (r, e')
    /\ map score (indicators r) = [1; 0; 0; 0; 0; 0; 0; 0; 0; 0; 0; 0; 0]
    /\ Forall (fun i => 0 <= score i <= 1) (indicators r)
    /\ Forall (fun ts : string * R => 0 <= snd ts <= 1) (theory_scores r).
Proof.
  destruct (assess no_encode no_digest IndicatorEngine_init recurrent_profile "")
    as [[r e']|e] eqn:H.
  2:{ exfalso.
      destruct (assess_total no_encode no_digest IndicatorEngine_init recurrent_profile
                  "" numeric_recurrent_profile) as (r & e' & H').
      rewrite H in H'. discriminate H'. }
  exists r, e'. split; [reflexivity|].
  destruct (recurrent_assessment _ _ _ _ _ _ _ recurrent_sections_refl H)
    as (Hsc & _).
  split; [exact Hsc|].
  exact (nonnegative_profile_scores_in_range no_encode no_digest
           IndicatorEngine_init recurrent_profile "" r e'
           nonneg_recurrent_profile H).
Defined.


(** X15 at two assessments in a row, with the encoder that prints the
    previous hash: the first result shows GENESIS and no other start, the
    second shows the first result's hash and not GENESIS. *)
Lemma history_entries_are_chained_witness :
  exists r1 e1 r2 e2,
    assess prev_encode id_digest IndicatorEngine_init ∅ ""
      = Ok (r1, e1)
    /\ assess prev_encode id_digest e1 ∅ "" = Ok (r2, e2)
    /\ history e2 = [r1; r2]
    /\ hashed_over prev_encode id_digest r1 "GENESIS"
    /\ ~ hashed_over prev_encode id_digest r1 "NOT-GENESIS"
    /\ hashed_over prev_encode id_digest r2 (proof_hash r1)
    /\ ~ hashed_over prev_encode id_digest r2 "GENESIS"
    /\ proof_hash r2 = "sha256:sha256:GENESIS".
Proof.
  destruct (assess_total prev_encode id_digest IndicatorEngine_init
              ∅ "" numeric_profile_empty) as (r1 & e1 & H1).
  destruct (assess_total prev_encode id_digest e1
              ∅ "" numeric_profile_empty) as (r2 & e2 & H2).
  exists r1, e1, r2, e2. split; [exact H1|]. split; [exact H2|].
  assert (Hreach : reachable prev_encode id_digest e2).
  { eapply reachable_assess; [|exact H2].
    eapply reachable_assess; [apply reachable_init|exact H1]. }
  assert (Hh : history e2 = [r1; r2]).
  { apply assess_inv in H1 as (_ & _ & _ & _ & _ & _ & _ & _ & ->).
    apply assess_inv in H2 as (_ & _ & _ & _ & _ & _ & _ & _ & ->).
    reflexivity. }
  destruct (history_entries_are_chained _ _ e2 Hreach) as [Hfirst Hnext].
  assert (Hg : hashed_over prev_encode id_digest r1 "GENESIS").
  { apply Hfirst. by rewrite Hh. }
  assert (Hc : hashed_over prev_encode id_digest r2 (proof_hash r1)).
  { apply (Hnext 0%nat); by rewrite Hh. }
  pose proof (proj1 (hashed_over_prev _ _) Hg) as Hp1.
  pose proof (proj1 (hashed_over_prev _ _) Hc) as Hp2.
  rewrite Hp1 in Hp2.
  split; [exact Hh|]. split; [exact Hg|]. split.
  - intros Hn. apply hashed_over_prev in Hn. rewrite Hp1 in Hn. discriminate Hn.
  - split; [exact Hc|]. split; [|exact Hp2].
    intros Hn. apply hashed_over_prev in Hn. rewrite Hp2 in Hn. discriminate Hn.
Defined.

(** X19 at the RPT-1 scenario, whose RPT bar has 10 full and 10 empty
    cells and whose first indicator carries the check mark, and at the
    profile with a negative depth, whose RPT bar has no full cell and 120
    empty ones. *)
Lemma report_bars_and_icons_witness :
  (exists r e' i,
     assess no_encode no_digest IndicatorEngine_init recurrent_profile "" = Ok (r, e')
     /\ In ("RPT", (1 + 0) / 2) (theory_scores r)
     /\ theory_bar ((1 + 0) / 2) = (10%nat, 10%nat)
     /\ (fst (theory_bar ((1 + 0) / 2)) + snd (theory_bar ((1 + 0) / 2)) = 20)%nat
     /\ indicators r !! 0%nat = Some i
     /\ status i = "SATISFIED"
     /\ status_icon i = "✓")
  /\ (exists r e',
        assess no_encode no_digest IndicatorEngine_init negative_depth_profile ""
          = Ok (r, e')
        /\ In ("RPT", (-10 + 0) / 2) (theory_scores r)
        /\ theory_bar ((-10 + 0) / 2) = (0%nat, 120%nat)
        /\ (fst (theory_bar ((-10 + 0) / 2)) + snd (theory_bar ((-10 + 0) / 2))
            <> 20)%nat).
Proof.
  split.
  - destruct (assess_total no_encode no_digest IndicatorEngine_init recurrent_profile
                "" numeric_recurrent_profile) as (r & e' & H).
    destruct (recurrent_assessment _ _ _ _ _ _ _ recurrent_sections_refl H)
      as (_ & (i & Hi & Hsat & _) & _ & _ & Hts).
    destruct (report_bars_and_icons no_encode no_digest IndicatorEngine_init
                recurrent_profile "" r e' H) as [Hbars Hicons].
    assert (Hin : In ("RPT", (1 + 0) / 2) (theory_scores r)) by (rewrite Hts; by left).
    assert (Hst : status i = "SATISFIED") by (unfold status; by rewrite Hsat).
    exists r, e', i. split; [exact H|]. split; [exact Hin|].
    split; [exact theory_bar_half|]. split.
    + rewrite List.Forall_forall in Hbars.
      destruct (Hbars _ Hin) as [[_ Hw] _]. apply Hw. simpl. lra.
    + split; [exact Hi|]. split; [exact Hst|].
      rewrite List.Forall_forall in Hicons.
      assert (Hini : In i (indicators r)).
      { apply list_elem_of_In. eapply list_elem_of_lookup_2. exact Hi. }
      destruct (Hicons _ Hini) as ([_ Hcheck] & _). exact (Hcheck Hst).
  - destruct (assess_total no_encode no_digest IndicatorEngine_init
                negative_depth_profile "" numeric_negative_depth_profile)
      as (r & e' & H).
    pose proof (negative_depth_assessment _ _ _ _ _ _ H) as Hin.
    destruct (report_bars_and_icons no_encode no_digest IndicatorEngine_init
                negative_depth_profile "" r e' H) as [Hbars _].
    exists r, e'. split; [exact H|]. split; [exact Hin|].
    split; [exact theory_bar_minus_five|].
    rewrite List.Forall_forall in Hbars.
    destruct (Hbars _ Hin) as [[Hw _] _]. intros Hwidth.
    apply Hw in Hwidth. simpl in Hwidth. lra.
Defined.

(** X20 at the named RPT-1 scenario and the same with a type and an
    unknown section, at two clock readings, under the encoder that prints
    system, previous hash and counts: both hashes show the name, GENESIS
    and one satisfied indicator. *)
Lemma proof_hash_inputs_witness :
  exists r e1 r' e2,
    assess summary_encode id_digest IndicatorEngine_init named_recurrent_profile
      "2026-01-01T00:00:00+00:00" = Ok (r, e1)
    /\ assess summary_encode id_digest IndicatorEngine_init
         (labelled_recurrent_profile "Test") "2026-01-02T00:00:00+00:00" = Ok (r', e2)
    /\ proof_hash r = proof_hash r'
    /\ proof_hash r = "sha256:Probe/GENESIS/I/".
Proof.
  destruct (assess summary_encode id_digest IndicatorEngine_init named_recurrent_profile
              "2026-01-01T00:00:00+00:00") as [[r e1]|e] eqn:H; [|not_raised H].
  destruct (assess summary_encode id_digest IndicatorEngine_init
              (labelled_recurrent_profile "Test") "2026-01-02T00:00:00+00:00")
    as [[r' e2]|e] eqn:H'; [|not_raised H'].
  exists r, e1, r', e2. split; [reflexivity|]. split; [reflexivity|]. split.
  - apply (proof_hash_inputs summary_encode id_digest
             IndicatorEngine_init IndicatorEngine_init
             named_recurrent_profile (labelled_recurrent_profile "Test")
             "2026-01-01T00:00:00+00:00" "2026-01-02T00:00:00+00:00" r e1 r' e2).
    + exact (recurrent_sections_named_labelled "Test").
    + exists "Probe". exact named_recurrent_name.
    + rewrite named_recurrent_name, labelled_recurrent_name. reflexivity.
    + reflexivity.
    + exact H.
    + exact H'.
  - exact (named_recurrent_hash _ _ _ _ recurrent_sections_named named_recurrent_name H).
Defined.
